(** * Inventory dashboard (app.py): the clean / transform / aggregate pipeline

    A shallow embedding of the "View inventory" branch of [app.py]:
    [raw_docs_to_df], [clean_and_transform], [dataframe_to_csv_bytes_local],
    the column selection [display_cols], the three exports, the summary
    metrics, the category rollup [cat_agg], the top-10 chart
    [top_by_value], the restock timeline and the low-stock block; and of
    the utilities [fetch_products], [docs_to_dataframe] and
    [dataframe_to_csv_bytes].  The store, the file system and the plots are
    not modelled: a function takes the documents the store returned.

    The program is written against pandas.  The fragment of pandas it calls
    is embedded in [Module pd], one definition per library call, so that the
    program's own functions read like their source.  What pandas leaves to
    its parsers, to NumPy or to Python ([pd.to_numeric] and [pd.to_datetime]
    on strings, [str()], the text of a CSV data field, float summation, the
    default [kind='quicksort'] argsort) is a field of the class [Lib], and
    the month of a timestamp is the field of the class [Calendar]: the
    development holds for every such library.

    Numbers are as the code has them: quantities are int64 (a [Z] with the
    wrap-around written out), prices and values are IEEE-754 binary64
    (Rocq's primitive floats), timestamps are nanoseconds since the epoch
    (a timezone-aware one with its UTC offset).
    A DataFrame is a mutable object: [clean_and_transform] is a state
    transformer on the table it is given, and the call site runs it on a
    heap of table objects. *)

From Stdlib Require Import ZArith List String Ascii Bool Lia Permutation Sorted.
From Stdlib Require Import Floats Uint63.
From stdpp Require Import gmap.
Import ListNotations.

#[local] Open Scope string_scope.
#[local] Open Scope list_scope.
#[local] Open Scope Z_scope.

(** ** Machine numbers *)

Definition min_int64 : Z := - 2 ^ 63.
Definition max_int64 : Z := 2 ^ 63 - 1.

Definition in_int64 (z : Z) : bool := (min_int64 <=? z) && (z <=? max_int64).

(** int64 arithmetic wraps silently in NumPy. *)
Definition wrap64 (z : Z) : Z := (z + 2 ^ 63) mod 2 ^ 64 - 2 ^ 63.

(** int -> float64, rounding to nearest (NumPy's cast of an int64). *)
Definition float_of_Z (z : Z) : float :=
  if z =? min_int64 then (-0x1p63)%float
  else if 0 <=? z then PrimFloat.of_uint63 (Uint63.of_Z z)
  else PrimFloat.opp (PrimFloat.of_uint63 (Uint63.of_Z (- z))).

(** The integer part of a finite float (truncation toward zero); [None] for
    NaN and the infinities. *)
Definition float_trunc (f : float) : option Z :=
  match Prim2SF f with
  | S754_zero _ => Some 0
  | S754_finite s m e =>
      let a := if 0 <=? e then Z.pos m * 2 ^ e else Z.pos m / 2 ^ (- e) in
      Some (if s then - a else a)
  | S754_infinity _ | S754_nan => None
  end.

(** The exact integer value of a float, when it has one (Python compares an
    [int] with a [float] exactly). *)
Definition float_exact_Z (f : float) : option Z :=
  match Prim2SF f with
  | S754_zero _ => Some 0
  | S754_finite s m e =>
      if 0 <=? e then Some (if s then - (Z.pos m * 2 ^ e) else Z.pos m * 2 ^ e)
      else if Z.pos m mod 2 ^ (- e) =? 0
           then Some (if s then - (Z.pos m / 2 ^ (- e)) else Z.pos m / 2 ^ (- e))
           else None
  | S754_infinity _ | S754_nan => None
  end.

(** ** Values held in a document field or a table cell

    The application stores scalars only (texts, numbers, the identifier the
    store assigns): a field holds no array and no embedded document. *)

Inductive cell : Type :=
| Null                 (* None, a missing key, NaN or NaT *)
| Bool (b : bool)
| Int (z : Z)
| Flt (f : float)
| Str (s : string)
| Ts (ns : Z)          (* Timestamp / BSON date: nanoseconds since the epoch *)
| Td (ns : Z)          (* Timedelta, in nanoseconds *)
| Obj (repr : string)  (* any other BSON scalar (ObjectId, ...), by its str() *)
| Tsz (ns offset : Z). (* timezone-aware Timestamp: the instant in nanoseconds
                          since the epoch (UTC), and its UTC offset *)

(** What a date parser reads in one value: a wall-clock time, or an instant
    together with the UTC offset the value was written with. *)
Inductive datetime : Type :=
| Naive (ns : Z)
| Aware (ns offset : Z).

(** Exceptions the pipeline can raise. *)
Inductive exn : Type :=
| IntCastingNaNError   (* astype(int) on NaN or an infinity *)
| OverflowError        (* int64 overflow in datetime arithmetic *)
| TypeError
| ValueError
| KeyError (c : string).

Inductive result (A : Type) : Type :=
| Ok (a : A)
| Raise (e : exn).
Arguments Ok {A} a.
Arguments Raise {A} e.

(** What the program takes from pandas' parsers, NumPy and Python as given. *)
Class Lib : Type := {
  (** [pd.to_numeric] on one string: an integer, a float, or unparseable. *)
  parse_numeric : string -> option (Z + float);
  (** [pd.to_datetime] on one present value that is not yet a timestamp:
      what it reads (a text with a UTC offset, as in "2025-10-01T00:00:00Z",
      gives a timezone-aware date), or unparseable. *)
  parse_datetime : cell -> option datetime;
  (** Python's [str()]. *)
  py_str : cell -> string;
  (** The text [to_csv] writes for a data cell, before CSV quoting. *)
  csv_text : cell -> string;
  (** Summation of a float64 column (order and compensation are NumPy's). *)
  float_sum : list float -> float;
  (** [ndarray.argsort(kind='quicksort')] on values without NaN. *)
  argsort : list cell -> list nat
}.

(** ** The fragment of pandas the program calls *)
Module pd.

Definition isna (c : cell) : bool :=
  match c with
  | Null => true
  | Flt f => PrimFloat.is_nan f
  | _ => false
  end.

(** A Series: values labelled by the row index. *)
Record Series : Type := mkSeries { s_index : list nat; s_values : list cell }.

(** [pd.Series()]: the empty Series. *)
Definition empty_series : Series := mkSeries [] [].

Definition smap (f : cell -> cell) (s : Series) : Series :=
  mkSeries (s_index s) (List.map f (s_values s)).

(** [s.fillna(v)] *)
Definition fillna (v : cell) (s : Series) : Series :=
  smap (fun c => if isna c then v else c) s.

(** [pd.to_numeric(s, errors='coerce')], one element. *)
Definition to_numeric_cell `{Lib} (c : cell) : cell :=
  match c with
  | Bool b => Int (if b then 1 else 0)
  | Int z => Int z
  | Flt f => Flt f
  | Str s =>
      match parse_numeric s with
      | Some (inl z) => Int z
      | Some (inr f) => Flt f
      | None => Null
      end
  | Null | Ts _ | Tsz _ _ | Td _ | Obj _ => Null
  end.

Definition is_int (c : cell) : bool :=
  match c with Int _ => true | _ => false end.

(** The column stays int64 when every element is an integer; otherwise it is
    float64 and its integers are converted. *)
Definition to_float64 (c : cell) : cell :=
  match c with Int z => Flt (float_of_Z z) | _ => c end.

Definition to_numeric `{Lib} (s : Series) : Series :=
  let cs := List.map to_numeric_cell (s_values s) in
  mkSeries (s_index s)
           (if forallb is_int cs then cs else List.map to_float64 cs).

Fixpoint mapM {A B : Type} (f : A -> result B) (l : list A) : result (list B) :=
  match l with
  | [] => Ok []
  | x :: l' =>
      match f x with
      | Raise e => Raise e
      | Ok y => match mapM f l' with
                | Raise e => Raise e
                | Ok ys => Ok (y :: ys)
                end
      end
  end.

(** A finite float cast to int64; out of range the C cast is undefined, and
    gives INT64_MIN on x86-64. *)
Definition int64_of_float (f : float) : option Z :=
  match float_trunc f with
  | Some z => Some (if in_int64 z then z else min_int64)
  | None => None
  end.

Definition astype_int_cell (c : cell) : result cell :=
  match c with
  | Int z => Ok (Int (wrap64 z))
  | Bool b => Ok (Int (if b then 1 else 0))
  | Flt f =>
      match int64_of_float f with
      | Some z => Ok (Int z)
      | None => Raise IntCastingNaNError
      end
  | Null => Raise IntCastingNaNError
  | Str _ | Obj _ => Raise ValueError
  | Ts _ | Tsz _ _ | Td _ => Raise TypeError
  end.

(** [s.astype(int)] *)
Definition astype_int (s : Series) : result Series :=
  match mapM astype_int_cell (s_values s) with
  | Ok vs => Ok (mkSeries (s_index s) vs)
  | Raise e => Raise e
  end.

Definition astype_float_cell (c : cell) : result cell :=
  match c with
  | Int z => Ok (Flt (float_of_Z z))
  | Bool b => Ok (Flt (if b then 1%float else 0%float))
  | Flt f => Ok (Flt f)
  | Null => Ok (Flt nan)
  | Str _ | Obj _ => Raise ValueError
  | Ts _ | Tsz _ _ | Td _ => Raise TypeError
  end.

(** [s.astype(float)] *)
Definition astype_float (s : Series) : result Series :=
  match mapM astype_float_cell (s_values s) with
  | Ok vs => Ok (mkSeries (s_index s) vs)
  | Raise e => Raise e
  end.

(** Timestamps are int64 nanoseconds; the least value is NaT. *)
Definition in_timestamp (ns : Z) : bool := (min_int64 <? ns) && (ns <=? max_int64).

(** [pd.to_datetime(s, errors='coerce')], one element: what does not parse
    or does not fit becomes NaT; a value read with a UTC offset becomes a
    timezone-aware timestamp. *)
Definition to_datetime_cell `{Lib} (c : cell) : cell :=
  match c with
  | Null => Null
  | Ts ns => if in_timestamp ns then Ts ns else Null
  | Tsz ns offset => if in_timestamp ns then Tsz ns offset else Null
  | _ =>
      if isna c then Null
      else match parse_datetime c with
           | Some (Naive ns) => if in_timestamp ns then Ts ns else Null
           | Some (Aware ns offset) => if in_timestamp ns then Tsz ns offset else Null
           | None => Null
           end
  end.

Definition to_datetime `{Lib} (s : Series) : Series := smap to_datetime_cell s.

Definition ns_per_day : Z := 86400 * 10 ^ 9.

(** [pd.Timestamp(d)] for a calendar date given as its day number. *)
Definition Timestamp (day : Z) : Z := day * ns_per_day.

(** [t - s] for a naive Timestamp [t] and a Series of dates: the overflow
    of the int64 difference is checked, and a timezone-aware date cannot be
    subtracted from a naive one ("Cannot subtract tz-naive and tz-aware
    datetime-like objects"). *)
Definition rsub_timestamp_cell (t : Z) (c : cell) : result cell :=
  match c with
  | Ts ns => if in_timestamp (t - ns) then Ok (Td (t - ns)) else Raise OverflowError
  | Tsz _ _ => Raise TypeError
  | Null => Ok Null
  | _ => Raise TypeError
  end.

Definition rsub_timestamp (t : Z) (s : Series) : result Series :=
  match mapM (rsub_timestamp_cell t) (s_values s) with
  | Ok vs => Ok (mkSeries (s_index s) vs)
  | Raise e => Raise e
  end.

(** [s.dt.days]: whole days, rounded toward minus infinity. *)
Definition dt_days_cell (c : cell) : cell :=
  match c with
  | Td ns => Int (ns / ns_per_day)
  | _ => Null
  end.

Definition dt_days (s : Series) : Series := smap dt_days_cell s.

(** Elementwise product of an int64 and a float64 column. *)
Definition mul_cell (a b : cell) : cell :=
  match a, b with
  | Int x, Int y => Int (wrap64 (x * y))
  | Int x, Flt y => Flt (PrimFloat.mul (float_of_Z x) y)
  | Flt x, Int y => Flt (PrimFloat.mul x (float_of_Z y))
  | Flt x, Flt y => Flt (PrimFloat.mul x y)
  | _, _ => Null
  end.

Fixpoint zip_with {A B C : Type} (f : A -> B -> C) (l1 : list A) (l2 : list B) : list C :=
  match l1, l2 with
  | a :: l1', b :: l2' => f a b :: zip_with f l1' l2'
  | _, _ => []
  end.

(** [a * b] for two Series over the same index. *)
Definition mul (a b : Series) : Series :=
  mkSeries (s_index a) (zip_with mul_cell (s_values a) (s_values b)).

(** *** Comparisons of numeric cells *)

Definition cell_ltb (a b : cell) : bool :=
  match a, b with
  | Int x, Int y => x <? y
  | Flt x, Flt y => PrimFloat.ltb x y
  | Int x, Flt y => PrimFloat.ltb (float_of_Z x) y
  | Flt x, Int y => PrimFloat.ltb x (float_of_Z y)
  | _, _ => false
  end.

Definition cell_leb (a b : cell) : bool :=
  match a, b with
  | Int x, Int y => x <=? y
  | Flt x, Flt y => PrimFloat.leb x y
  | Int x, Flt y => PrimFloat.leb (float_of_Z x) y
  | Flt x, Int y => PrimFloat.leb x (float_of_Z y)
  | _, _ => false
  end.

(** [s <= v] for a scalar [v]: a boolean mask. *)
Definition le_scalar (s : Series) (v : cell) : list bool :=
  List.map (fun c => cell_leb c v) (s_values s).

(** *** DataFrame *)

(** A table: the row labels and the columns in order, each column holding
    one cell per row. *)
Record DataFrame : Type := mkDF {
  index : list nat;
  data : list (string * list cell)
}.

(** [pd.DataFrame()] *)
Definition DataFrame_empty : DataFrame := mkDF [] [].

Definition nrows (df : DataFrame) : nat := length (index df).

(** [df.columns] *)
Definition columns (df : DataFrame) : list string := List.map fst (data df).

(** [df.empty]: no rows or no columns. *)
Definition empty (df : DataFrame) : bool :=
  Nat.eqb (length (index df)) 0 || Nat.eqb (length (data df)) 0.

(** [c in df.columns] *)
Definition contains (c : string) (df : DataFrame) : bool :=
  existsb (String.eqb c) (columns df).

Fixpoint assoc {A : Type} (c : string) (l : list (string * A)) : option A :=
  match l with
  | [] => None
  | (c', x) :: l' => if String.eqb c c' then Some x else assoc c l'
  end.

(** Replace the column in place when it exists, append it otherwise. *)
Fixpoint assoc_set {A : Type} (c : string) (x : A) (l : list (string * A))
  : list (string * A) :=
  match l with
  | [] => [(c, x)]
  | (c', y) :: l' =>
      if String.eqb c c' then (c', x) :: l' else (c', y) :: assoc_set c x l'
  end.

(** [df[c]] *)
Definition getitem (c : string) (df : DataFrame) : result Series :=
  match assoc c (data df) with
  | Some vs => Ok (mkSeries (index df) vs)
  | None => Raise (KeyError c)
  end.

(** [df.get(c, default)] *)
Definition get (c : string) (default : Series) (df : DataFrame) : Series :=
  match assoc c (data df) with
  | Some vs => mkSeries (index df) vs
  | None => default
  end.

Fixpoint position (l : nat) (ix : list nat) : option nat :=
  match ix with
  | [] => None
  | l' :: ix' =>
      if Nat.eqb l l' then Some O
      else match position l ix' with Some k => Some (S k) | None => None end
  end.

(** [s.reindex(ix)]: the value at each label of [ix], NaN where [s] has no
    such label. *)
Definition reindex (s : Series) (ix : list nat) : list cell :=
  List.map (fun l => match position l (s_index s) with
                     | Some k => nth k (s_values s) Null
                     | None => Null
                     end) ix.

(** [df[c] = s]: the Series is aligned on the table's index unless the two
    indexes are equal (or the table has no row). *)
Definition setitem (c : string) (s : Series) (df : DataFrame) : DataFrame :=
  let vs :=
    if bool_decide (s_index s = index df) then s_values s
    else if Nat.eqb (length (index df)) 0 then s_values s
    else reindex s (index df) in
  mkDF (index df) (assoc_set c vs (data df)).

(** [df[c] = v] for a scalar [v]. *)
Definition setitem_scalar (c : string) (v : cell) (df : DataFrame) : DataFrame :=
  mkDF (index df) (assoc_set c (repeat v (nrows df)) (data df)).

(** [df.take(indexer)]: the rows at the given positions. *)
Definition take_rows (indexer : list nat) (df : DataFrame) : DataFrame :=
  mkDF (List.map (fun k => nth k (index df) O) indexer)
       (List.map (fun cv => (fst cv, List.map (fun k => nth k (snd cv) Null) indexer))
                 (data df)).

(** The positions at which a mask holds. *)
Fixpoint nonzero_from (k : nat) (mask : list bool) : list nat :=
  match mask with
  | [] => []
  | b :: mask' => if b then k :: nonzero_from (S k) mask' else nonzero_from (S k) mask'
  end.

Definition nonzero (mask : list bool) : list nat := nonzero_from O mask.

(** [df[mask]] *)
Definition getitem_mask (mask : list bool) (df : DataFrame) : DataFrame :=
  take_rows (nonzero mask) df.

(** [df.head(n)] *)
Definition head (n : nat) (df : DataFrame) : DataFrame :=
  mkDF (firstn n (index df))
       (List.map (fun cv => (fst cv, firstn n (snd cv))) (data df)).

(** [df[cols]] for a list of column names. *)
Definition getitems (cols : list string) (df : DataFrame) : result DataFrame :=
  match mapM (fun c => match assoc c (data df) with
                       | Some vs => Ok (c, vs)
                       | None => Raise (KeyError c)
                       end) cols with
  | Ok d => Ok (mkDF (index df) d)
  | Raise e => Raise e
  end.

(** *** Sorting: [df.sort_values(by, ascending=...)], default kind *)

(** [nargsort]: missing keys keep their order and go last; the other keys
    are handed to NumPy's argsort, reversed before and after for a
    descending sort. *)
Definition nargsort_input (items : list cell) (ascending : bool) : list cell :=
  let non_nans := List.filter (fun c => negb (isna c)) items in
  if ascending then non_nans else rev non_nans.

Definition nargsort `{Lib} (items : list cell) (ascending : bool) : list nat :=
  let mask := List.map isna items in
  let non_nan_idx := nonzero (List.map negb mask) in
  let nan_idx := nonzero mask in
  let non_nan_idx := if ascending then non_nan_idx else rev non_nan_idx in
  let indexer :=
    List.map (fun k => nth k non_nan_idx O)
             (argsort (nargsort_input items ascending)) in
  let indexer := if ascending then indexer else rev indexer in
  indexer ++ nan_idx.

Definition sort_values `{Lib} (by_ : string) (ascending : bool) (df : DataFrame)
  : result DataFrame :=
  match assoc by_ (data df) with
  | Some k => Ok (take_rows (nargsort k ascending) df)
  | None => Raise (KeyError by_)
  end.

(** What an argsort owes its caller: [ix] lists every position of [keys]
    once, and no key is smaller than the one before it. *)
Fixpoint nodupb (l : list nat) : bool :=
  match l with
  | [] => true
  | x :: l' => negb (existsb (Nat.eqb x) l') && nodupb l'
  end.

(** Every two neighbours of [ix] are related by [R]. *)
Fixpoint chainb (R : nat -> nat -> bool) (ix : list nat) : bool :=
  match ix with
  | i :: ((j :: _) as ix') => R i j && chainb R ix'
  | _ => true
  end.

(** Along [ix] no key is smaller than the one before it. *)
Definition ascendingb (keys : list cell) (ix : list nat) : bool :=
  chainb (fun i j => negb (cell_ltb (nth j keys Null) (nth i keys Null))) ix.

(** Along [ix] no key is greater than the one before it. *)
Definition descendingb (keys : list cell) (ix : list nat) : bool :=
  chainb (fun i j => negb (cell_ltb (nth i keys Null) (nth j keys Null))) ix.

Definition is_argsort (keys : list cell) (ix : list nat) : bool :=
  Nat.eqb (length ix) (length keys)
  && forallb (fun i => Nat.ltb i (length keys)) ix
  && nodupb ix
  && ascendingb keys ix.

(** The library's argsort did its job on this call of [nargsort]. *)
Definition argsort_ok `{Lib} (items : list cell) (ascending : bool) : bool :=
  is_argsort (nargsort_input items ascending)
             (argsort (nargsort_input items ascending)).

(** *** Grouping: [df.groupby(c)] *)

(** Equality of group keys is Python's [==]: numbers compare by value. *)
Definition key_eqb (a b : cell) : bool :=
  match a, b with
  | Null, Null => true
  | Bool x, Bool y => Bool.eqb x y
  | Bool x, Int y | Int y, Bool x => (if x then 1 else 0) =? y
  | Int x, Int y => x =? y
  | Flt x, Flt y => PrimFloat.eqb x y
  | Int x, Flt y | Flt y, Int x =>
      match float_exact_Z y with Some z => x =? z | None => false end
  | Bool x, Flt y | Flt y, Bool x =>
      match float_exact_Z y with Some z => (if x then 1 else 0) =? z | None => false end
  | Str x, Str y => String.eqb x y
  | Ts x, Ts y => x =? y
  | Tsz x _, Tsz y _ => x =? y
  | Td x, Td y => x =? y
  | Obj x, Obj y => String.eqb x y
  | _, _ => false
  end.

(** The kind of a key.  Python orders two keys of one kind; between two
    kinds [<] raises TypeError.  [safe_sort] sorts the texts apart from the
    other keys and lists them last: texts have the greatest rank. *)
Definition key_rank (c : cell) : Z :=
  match c with
  | Bool _ | Int _ | Flt _ => 0
  | Ts _ => 1
  | Tsz _ _ => 2
  | Td _ => 3
  | Obj _ => 4
  | Str _ => 5
  | Null => 6
  end.

Definition key_leb (a b : cell) : bool :=
  if key_rank a =? key_rank b then
    match a, b with
    | Str x, Str y => String.leb x y
    | Obj x, Obj y => String.leb x y
    | Ts x, Ts y | Tsz x _, Tsz y _ | Td x, Td y => x <=? y
    | _, _ =>
        let num c := match c with Bool true => Int 1 | Bool false => Int 0 | _ => c end in
        cell_leb (num a) (num b)
    end
  else key_rank a <? key_rank b.

Definition is_str (c : cell) : bool :=
  match c with Str _ => true | _ => false end.

(** Whether the distinct keys can be sorted: the texts always can, apart
    from the other keys; the other keys must be of one kind (sorting a
    number with a date or an ObjectId raises TypeError). *)
Definition sortable (ks : list cell) : bool :=
  match List.filter (fun k => negb (is_str k)) ks with
  | [] => true
  | k :: ks' => forallb (fun k' => key_rank k' =? key_rank k) ks'
  end.

Fixpoint add_to_group (k : cell) (i : nat) (gs : list (cell * list nat))
  : list (cell * list nat) :=
  match gs with
  | [] => [(k, [i])]
  | (k', rows) :: gs' =>
      if key_eqb k' k then (k', rows ++ [i]) :: gs'
      else (k', rows) :: add_to_group k i gs'
  end.

(** Rows with a missing key belong to no group ([dropna=True]). *)
Definition group_step (gs : list (cell * list nat)) (ik : nat * cell)
  : list (cell * list nat) :=
  if isna (snd ik) then gs else add_to_group (snd ik) (fst ik) gs.

Fixpoint insert_group (g : cell * list nat) (gs : list (cell * list nat))
  : list (cell * list nat) :=
  match gs with
  | [] => [g]
  | g' :: gs' =>
      if key_leb (fst g) (fst g') then g :: g' :: gs' else g' :: insert_group g gs'
  end.

Definition sort_groups (gs : list (cell * list nat)) : list (cell * list nat) :=
  fold_right insert_group [] gs.

(** The groups of a key column: each distinct present key with the
    positions of its rows, in ascending key order ([sort=True]), the keys
    that are not texts before the texts. *)
Definition groups (keys : list cell) : list (cell * list nat) :=
  sort_groups (fold_left group_step (combine (seq 0 (length keys)) keys) []).

(** *** Sums *)

Definition sum_int64 (cs : list cell) : Z :=
  fold_left (fun a c => match c with
                        | Int z => wrap64 (a + z)
                        | Bool true => wrap64 (a + 1)
                        | _ => a
                        end) cs 0.

Definition floats_of (cs : list cell) : list float :=
  flat_map (fun c => match c with
                     | Flt f => if PrimFloat.is_nan f then [] else [f]
                     | Int z => [float_of_Z z]
                     | Bool b => [if b then 1%float else 0%float]
                     | _ => []
                     end) cs.

(** ['sum'] of a numeric column: int64 for an integer column, float64
    otherwise; missing values are skipped. *)
Definition sum `{Lib} (cs : list cell) : cell :=
  if forallb (fun c => match c with Int _ | Bool _ => true | _ => false end) cs
  then Int (sum_int64 cs)
  else Flt (float_sum (floats_of cs)).

Definition pick {A : Type} (d : A) (l : list A) (rows : list nat) : list A :=
  List.map (fun k => nth k l d) rows.

(** *** CSV: [df.to_csv(index=False)] *)

Definition dquote : ascii := ascii_of_nat 34.
Definition comma : ascii := ascii_of_nat 44.
Definition LF : ascii := ascii_of_nat 10.
Definition CR : ascii := ascii_of_nat 13.

Fixpoint needs_quoting (s : string) : bool :=
  match s with
  | EmptyString => false
  | String c s' =>
      Ascii.eqb c comma || Ascii.eqb c dquote || Ascii.eqb c LF || Ascii.eqb c CR
      || needs_quoting s'
  end.

Fixpoint double_quotes (s : string) : string :=
  match s with
  | EmptyString => EmptyString
  | String c s' =>
      if Ascii.eqb c dquote then String c (String c (double_quotes s'))
      else String c (double_quotes s')
  end.

(** A field is quoted only when it has to be (QUOTE_MINIMAL). *)
Definition csv_field (s : string) : string :=
  if needs_quoting s
  then String dquote (String.append (double_quotes s) (String dquote EmptyString))
  else s.

Definition csv_line (fields : list string) : string :=
  String.append (String.concat (String comma EmptyString) (List.map csv_field fields))
                (String LF EmptyString).

Definition row_cells (df : DataFrame) (k : nat) : list cell :=
  List.map (fun cv => nth k (snd cv) Null) (data df).

Definition to_csv `{Lib} (df : DataFrame) : string :=
  String.append
    (csv_line (columns df))
    (String.concat EmptyString
       (List.map (fun k => csv_line (List.map csv_text (row_cells df k)))
                 (seq 0 (nrows df)))).

(** *** [pd.DataFrame(records)] for a list of dicts *)

Definition record : Type := list (string * cell).

Fixpoint union_keys (seen : list string) (recs : list record) : list string :=
  match recs with
  | [] => seen
  | r :: recs' =>
      union_keys
        (fold_left (fun acc k => if existsb (String.eqb k) acc then acc else acc ++ [k])
                   (List.map fst r) seen)
        recs'
  end.

(** Columns are the keys in order of first appearance; a record without a
    key has NaN in that column. *)
Definition DataFrame_of_records (recs : list record) : DataFrame :=
  mkDF (seq 0 (length recs))
       (List.map (fun c => (c, List.map (fun r => match assoc c r with
                                                 | Some v => v
                                                 | None => Null
                                                 end) recs))
                 (union_keys [] recs)).

(** [df.groupby(by).agg(out=(col, 'sum'), ...).reset_index()]: the named
    columns are looked up first; sorting the group keys raises TypeError
    when they cannot be ordered. *)
Definition groupby_sum `{Lib} (by_ : string) (named : list (string * string))
    (df : DataFrame) : result DataFrame :=
  match assoc by_ (data df) with
  | None => Raise (KeyError by_)
  | Some keys =>
      let gs := groups keys in
      match mapM (fun oc => match assoc (snd oc) (data df) with
                            | Some vs =>
                                Ok (fst oc, List.map (fun g => sum (pick Null vs (snd g))) gs)
                            | None => Raise (KeyError (snd oc))
                            end) named with
      | Ok cols =>
          if sortable (List.map fst gs)
          then Ok (mkDF (seq 0 (length gs)) ((by_, List.map fst gs) :: cols))
          else Raise TypeError
      | Raise e => Raise e
      end
  end.

(** A table whose rows are labelled by the values of a former column. *)
Record LabelledFrame : Type := mkLF {
  labels : list cell;
  ldata : list (string * list cell)
}.

(** [df.set_index(c)[cols]] *)
Definition set_index (c : string) (cols : list string) (df : DataFrame)
  : result LabelledFrame :=
  match assoc c (data df) with
  | None => Raise (KeyError c)
  | Some ls =>
      match getitems cols (mkDF (index df)
                                (List.filter (fun cv => negb (String.eqb c (fst cv)))
                                             (data df))) with
      | Ok d => Ok (mkLF ls (data d))
      | Raise e => Raise e
      end
  end.

(** [df.set_index(c)] *)
Definition set_index_all (c : string) (df : DataFrame) : result LabelledFrame :=
  match assoc c (data df) with
  | None => Raise (KeyError c)
  | Some ls =>
      Ok (mkLF ls (List.filter (fun cv => negb (String.eqb c (fst cv))) (data df)))
  end.

(** [lf.empty] *)
Definition lf_empty (lf : LabelledFrame) : bool :=
  Nat.eqb (length (labels lf)) 0 || Nat.eqb (length (ldata lf)) 0.

(** [lf[c]]: the column with its labels. *)
Definition lf_getitem (c : string) (lf : LabelledFrame) : result (list cell * list cell) :=
  match assoc c (ldata lf) with
  | Some vs => Ok (labels lf, vs)
  | None => Raise (KeyError c)
  end.

(** [s.isna().all()] *)
Definition isna_all (s : Series) : bool := forallb isna (s_values s).

(** [df.dropna(subset=[c])]: the rows whose [c] is present. *)
Definition dropna (c : string) (df : DataFrame) : result DataFrame :=
  match assoc c (data df) with
  | Some vs => Ok (getitem_mask (List.map (fun v => negb (isna v)) vs) df)
  | None => Raise (KeyError c)
  end.

(** A column has the [.dt] accessor when its dtype is datetime64: every
    cell is a timestamp or NaT; or, for a timezone-aware column, every cell
    is NaT or a timezone-aware timestamp of one and the same UTC offset. *)
Definition is_datetime (vs : list cell) : bool :=
  forallb (fun c => match c with Ts _ | Null => true | _ => false end) vs
  || match List.filter (fun c => negb (isna c)) vs with
     | Tsz _ offset :: _ =>
         forallb (fun c => match c with
                           | Tsz _ offset' => offset' =? offset
                           | Null => true
                           | _ => false
                           end) vs
     | _ => false
     end.

End pd.

Import pd.

(** ** Python dicts (the fetched documents) *)

Definition dict_contains (k : string) (d : record) : bool :=
  existsb (fun kv => String.eqb k (fst kv)) d.

(** [d[k] = v] *)
Definition dict_set (k : string) (v : cell) (d : record) : record := assoc_set k v d.

(** [d.pop(k, None)] *)
Definition dict_pop (k : string) (d : record) : record :=
  List.filter (fun kv => negb (String.eqb k (fst kv))) d.

(** ** The state of the table a function works on *)

(** A computation on the DataFrame object bound to [df]: it may raise, and
    the object keeps whatever was assigned before. *)
Definition M (A : Type) : Type := DataFrame -> result A * DataFrame.

Definition ret {A : Type} (a : A) : M A := fun df => (Ok a, df).

Definition bind {A B : Type} (m : M A) (k : A -> M B) : M B :=
  fun df => match m df with
            | (Ok a, df') => k a df'
            | (Raise e, df') => (Raise e, df')
            end.

Notation "'let*' x ':=' m 'in' k" := (bind m (fun x => k))
  (at level 10, x name, m at level 100, k at level 200).

(** Read the object. *)
Definition gets {A : Type} (f : DataFrame -> A) : M A := fun df => (Ok (f df), df).

(** Read the object with an operation that may raise. *)
Definition try {A : Type} (f : DataFrame -> result A) : M A := fun df => (f df, df).

(** Assign into the object. *)
Definition modify (f : DataFrame -> DataFrame) : M unit := fun df => (Ok tt, f df).

Definition lift {A : Type} (r : result A) : M A := fun df => (r, df).

(** ** The program *)

(** [raw_docs_to_df]: each document is copied, its [_id] becomes the string
    column [id]. *)
Definition raw_docs_to_df `{Lib} (docs : list record) : DataFrame :=
  match docs with
  | [] => DataFrame_empty
  | _ =>
      let clean :=
        List.map (fun d =>
                    let doc := d in
                    if dict_contains "_id" doc then
                      let doc := dict_set "id" (Str (py_str (match assoc "_id" doc with
                                                            | Some v => v
                                                            | None => Null
                                                            end))) doc in
                      dict_pop "_id" doc
                    else doc) docs in
      DataFrame_of_records clean
  end.

(** [clean_and_transform(df)]: works on the table it is given and returns
    that same table; [today_date] is the day number of [datetime.today()]. *)
Definition clean_and_transform `{Lib} (today_date : Z) : M unit :=
  let* is_empty := gets empty in
  if is_empty : bool then ret tt else
  let* has_quantity := gets (contains "quantity") in
  let* _ :=
    if has_quantity : bool then
      let* q := try (getitem "quantity") in
      let* q := lift (astype_int (fillna (Int 0) (to_numeric q))) in
      modify (setitem "quantity" q)
    else modify (setitem_scalar "quantity" (Int 0)) in
  let* has_price := gets (contains "price") in
  let* _ :=
    if has_price : bool then
      let* p := try (getitem "price") in
      let* p := lift (astype_float (fillna (Flt 0) (to_numeric p))) in
      modify (setitem "price" p)
    else modify (setitem_scalar "price" (Flt 0)) in
  let* has_last_restock := gets (contains "last_restock") in
  let* _ :=
    if has_last_restock : bool then
      let* r := try (getitem "last_restock") in
      modify (setitem "last_restock" (to_datetime r))
    else modify (setitem_scalar "last_restock" Null) in
  let* name := gets (get "name" empty_series) in
  let* _ := modify (setitem "name" (fillna (Str "Unknown") name)) in
  let* sku := gets (get "sku" empty_series) in
  let* _ := modify (setitem "sku" (fillna (Str "") sku)) in
  let* q := try (getitem "quantity") in
  let* p := try (getitem "price") in
  let* _ := modify (setitem "value" (mul q p)) in
  let today := Timestamp today_date in
  let* r := try (getitem "last_restock") in
  let* d := lift (rsub_timestamp today r) in
  let* _ := modify (setitem "days_since_restock" (dt_days d)) in
  let* d := try (getitem "days_since_restock") in
  let* d := lift (astype_int (fillna (Int (-1)) d)) in
  modify (setitem "days_since_restock" d).

(** The byte-order mark of 'utf-8-sig'. *)
Definition BOM : string :=
  String (ascii_of_nat 239) (String (ascii_of_nat 187) (String (ascii_of_nat 191) EmptyString)).

Definition dataframe_to_csv_bytes_local `{Lib} (df : DataFrame) (include_bom : bool)
  : string :=
  if empty df then EmptyString
  else
    let csv := to_csv df in
    if include_bom then String.append BOM csv else csv.

(** *** The "View inventory" branch *)

(** Table objects live on a heap; a variable holds a reference. *)
Definition loc : Type := nat.
Definition heap : Type := gmap loc DataFrame.

Definition deref (h : heap) (r : loc) : DataFrame :=
  match h !! r with Some df => df | None => DataFrame_empty end.

(** The call [clean_and_transform(r)]: the body runs on the object [r]
    refers to, and the reference itself is returned. *)
Definition call_clean_and_transform `{Lib} (today_date : Z) (r : loc) (h : heap)
  : result loc * heap :=
  match clean_and_transform today_date (deref h r) with
  | (Ok _, df') => (Ok r, <[r := df']> h)
  | (Raise e, df') => (Raise e, <[r := df']> h)
  end.

Definition FIXED_ORDER : list string :=
  ["sku"; "name"; "category"; "quantity"; "price"; "value"; "supplier";
   "last_restock"; "days_since_restock"; "id"].

Definition display_cols (df : DataFrame) : list string :=
  List.filter (fun c => contains c df) FIXED_ORDER.

(** [prepare_filtered]: the CSV of the current view. *)
Definition export_filtered `{Lib} (df : DataFrame) : result string :=
  match getitems (display_cols df) df with
  | Ok view => Ok (dataframe_to_csv_bytes_local view true)
  | Raise e => Raise e
  end.

(** [download_all_now]: the CSV of the whole collection. *)
Definition export_full `{Lib} (today_date : Z) (all_docs : list record) : result string :=
  match clean_and_transform today_date (raw_docs_to_df all_docs) with
  | (Ok _, df_all) => Ok (dataframe_to_csv_bytes_local df_all true)
  | (Raise e, _) => Raise e
  end.

(** Category aggregates; [None] when the table has no [category] column. *)
Definition cat_agg `{Lib} (df : DataFrame) : option (result DataFrame) :=
  if contains "category" df
  then Some (groupby_sum "category"
                         [("total_qty", "quantity"); ("total_value", "value")] df)
  else None.

(** Top 10 by value, before the chart's re-labelling. *)
Definition top_rows `{Lib} (df : DataFrame) : result DataFrame :=
  match sort_values "value" false df with
  | Ok s => Ok (head 10 s)
  | Raise e => Raise e
  end.

Definition top_by_value `{Lib} (df : DataFrame) : option (result LabelledFrame) :=
  if contains "value" df && contains "name" df
  then Some (match top_rows df with
             | Ok t => set_index "name" ["value"] t
             | Raise e => Raise e
             end)
  else None.

(** Low stock table. *)
Definition low `{Lib} (low_stock_thresh : Z) (df : DataFrame) : option (result DataFrame) :=
  if contains "quantity" df
  then Some (match getitem "quantity" df with
             | Ok q =>
                 match sort_values "quantity" true
                                   (getitem_mask (le_scalar q (Int low_stock_thresh)) df) with
                 | Ok s => Ok (head 20 s)
                 | Raise e => Raise e
                 end
             | Raise e => Raise e
             end)
  else None.

(** [save_server]: the text written to [exports/inventory_export.csv]. *)
Definition save_server `{Lib} (today_date : Z) (all_docs : list record) : result string :=
  match clean_and_transform today_date (raw_docs_to_df all_docs) with
  | (Ok _, df_all) => Ok (to_csv df_all)
  | (Raise e, _) => Raise e
  end.

(** *** Summary metrics *)

(** Python's [int(x)] of the scalar a sum returns. *)
Definition py_int (c : cell) : result Z :=
  match c with
  | Int z => Ok z
  | Bool b => Ok (if b then 1 else 0)
  | Flt f =>
      match float_trunc f with
      | Some z => Ok z
      | None => Raise (if PrimFloat.is_nan f then ValueError else OverflowError)
      end
  | _ => Raise TypeError
  end.

(** Python's [float(x)] of the scalar a sum returns. *)
Definition py_float (c : cell) : result float :=
  match c with
  | Int z => Ok (float_of_Z z)
  | Bool b => Ok (if b then 1%float else 0%float)
  | Flt f => Ok f
  | _ => Raise TypeError
  end.

(** [len(df)] *)
Definition total_products (df : DataFrame) : nat := nrows df.

Definition total_quantity `{Lib} (df : DataFrame) : result Z :=
  if contains "quantity" df
  then match getitem "quantity" df with
       | Ok q => py_int (sum (s_values q))
       | Raise e => Raise e
       end
  else Ok 0.

Definition total_value `{Lib} (df : DataFrame) : result float :=
  if contains "value" df
  then match getitem "value" df with
       | Ok v => py_float (sum (s_values v))
       | Raise e => Raise e
       end
  else Ok 0%float.

(** *** The low-stock block *)

Definition LOW_COLS : list string :=
  ["sku"; "name"; "quantity"; "supplier"; "days_since_restock"].

(** What the block shows: [len(low)] in its caption and, unless [low] is
    empty, the table [low[LOW_COLS]].  [None] when the table has no
    [quantity] column. *)
Definition low_stock_block `{Lib} (low_stock_thresh : Z) (df : DataFrame)
  : option (result (nat * option DataFrame)) :=
  match low low_stock_thresh df with
  | None => None
  | Some (Raise e) => Some (Raise e)
  | Some (Ok low) =>
      Some (if empty low then Ok (nrows low, None)
            else match getitems LOW_COLS low with
                 | Ok t => Ok (nrows low, Some t)
                 | Raise e => Raise e
                 end)
  end.

(** *** The restock timeline *)

(** What the timeline takes from pandas' calendar:
    [Timestamp.to_period('M').to_timestamp()], the first instant of the
    month of a timestamp (it raises out of the bounds of a Timestamp). *)
Class Calendar : Type := {
  month_start : Z -> result Z
}.

(** The block also fails where [.dt] meets a column that is not
    datetime-like. *)
Inductive timeline_exn : Type :=
| AttributeError
| Pandas (e : exn).

Inductive outcome (A : Type) : Type :=
| Done (a : A)
| Failed (e : timeline_exn).
Arguments Done {A} a.
Arguments Failed {A} e.

(** [s.dt.to_period('M').dt.to_timestamp()]: the period of a
    timezone-aware date is that of its local time, and the result is
    naive. *)
Definition dt_month_start `{Calendar} (s : Series) : outcome Series :=
  if is_datetime (s_values s) then
    match mapM (fun c => match c with
                         | Ts ns => match month_start ns with
                                    | Ok m => Ok (Ts m)
                                    | Raise e => Raise e
                                    end
                         | Tsz ns offset => match month_start (ns + offset) with
                                            | Ok m => Ok (Ts m)
                                            | Raise e => Raise e
                                            end
                         | _ => Ok Null
                         end) (s_values s) with
    | Ok ms => Done (mkSeries (s_index s) ms)
    | Raise e => Failed (Pandas e)
    end
  else Failed AttributeError.

(** The block: [None] when its guard is false; otherwise the line chart of
    [total_qty] by month, or no chart and the message "No restock dates
    available for timeline." *)
Definition restock_timeline `{Lib} `{Calendar} (df : DataFrame)
  : option (outcome (option (list cell * list cell))) :=
  match (if contains "last_restock" df
         then match getitem "last_restock" df with
              | Ok s => Ok (negb (isna_all s))
              | Raise e => Raise e
              end
         else Ok false) with
  | Raise e => Some (Failed (Pandas e))
  | Ok false => None
  | Ok true =>
    Some
      match dropna "last_restock" df with
      | Raise e => Failed (Pandas e)
      | Ok df_rest =>
          match getitem "last_restock" df_rest with
          | Raise e => Failed (Pandas e)
          | Ok r =>
              match dt_month_start r with
              | Failed e => Failed e
              | Done m =>
                  let df_rest := setitem "restock_month" m df_rest in
                  match groupby_sum "restock_month" [("total_qty", "quantity")] df_rest with
                  | Raise e => Failed (Pandas e)
                  | Ok agg =>
                      match set_index_all "restock_month" agg with
                      | Raise e => Failed (Pandas e)
                      | Ok restock_monthly =>
                          if negb (lf_empty restock_monthly)
                          then match lf_getitem "total_qty" restock_monthly with
                               | Ok chart => Done (Some chart)
                               | Raise e => Failed (Pandas e)
                               end
                          else Done None
                      end
                  end
              end
          end
      end
  end.

(** *** The utilities above the actions *)

(** [fetch_products]: [found] is what the cursor returned,
    [list(coll.find(q).limit(limit))]; the loop tags every document with
    its identifier, and [d['_id']] raises on a document without that key. *)
Definition fetch_products `{Lib} (found : list record) : result (list record) :=
  mapM (fun d =>
          match assoc "_id" d with
          | Some v => Ok (dict_pop "_id" (dict_set "id" (Str (py_str v)) d))
          | None => Raise (KeyError "_id")
          end) found.

(** [docs_to_dataframe(docs, drop_fields)]: as [raw_docs_to_df], then the
    fields to drop are popped from every document and the [id] column is
    moved to the front. *)
Definition docs_to_dataframe `{Lib} (docs : list record) (drop_fields : option (list string))
  : result DataFrame :=
  let drop_fields := match drop_fields with Some fs => fs | None => [] end in
  match docs with
  | [] => Ok DataFrame_empty
  | _ =>
      let clean_docs :=
        List.map (fun d =>
                    let doc := d in
                    let doc :=
                      if dict_contains "_id" doc then
                        let doc := dict_set "id" (Str (py_str (match assoc "_id" doc with
                                                              | Some v => v
                                                              | None => Null
                                                              end))) doc in
                        dict_pop "_id" doc
                      else doc in
                    fold_left (fun doc f => if dict_contains f doc then dict_pop f doc else doc)
                              drop_fields doc) docs in
      let df := DataFrame_of_records clean_docs in
      if contains "id" df then
        let cols := "id" :: List.filter (fun c => negb (String.eqb c "id")) (columns df) in
        getitems cols df
      else Ok df
  end.

(** [dataframe_to_csv_bytes(df, include_bom)] *)
Definition dataframe_to_csv_bytes `{Lib} (df : DataFrame) (include_bom : bool) : string :=
  if empty df then EmptyString
  else
    let csv_str := to_csv df in
    let csv_bytes := if include_bom then String.append BOM csv_str else csv_str in
    csv_bytes.

(** *** Add product *)

(** What the form returns: texts, a quantity and a price
    ([st.number_input]) and a calendar day ([st.date_input]), here its day
    number. *)
Record form : Type := mkForm {
  form_sku : string;
  form_name : string;
  form_category : string;
  form_quantity : Z;
  form_price : float;
  form_supplier : string;
  form_last_restock : Z
}.

(** What the branch takes from Python: [date.isoformat()]. *)
Class Python : Type := {
  isoformat : Z -> string
}.

(** The document the branch inserts. *)
Definition add_product_doc `{Python} (f : form) : record :=
  [("sku", Str (form_sku f));
   ("name", Str (form_name f));
   ("category", Str (form_category f));
   ("quantity", Int (form_quantity f));
   ("price", Flt (form_price f));
   ("supplier", Str (form_supplier f));
   ("last_restock", Str (isoformat (form_last_restock f)))].

(** The document as the store returns it: with the identifier it was given. *)
Definition stored (id : string) (doc : record) : record := ("_id", Obj id) :: doc.

(** ** A library to run the program on examples *)

Module Example.

Definition digit (c : ascii) : option Z :=
  let n := Z.of_nat (nat_of_ascii c) in
  if (48 <=? n) && (n <=? 57) then Some (n - 48) else None.

Fixpoint digits_from (acc : Z) (s : string) : option Z :=
  match s with
  | EmptyString => Some acc
  | String c s' =>
      match digit c with
      | Some d => digits_from (10 * acc + d) s'
      | None => None
      end
  end.

(** Plain decimal integers only. *)
Definition parse_int (s : string) : option (Z + float) :=
  match s with
  | EmptyString => None
  | String c s' =>
      if Ascii.eqb c (ascii_of_nat 45)
      then match s' with
           | EmptyString => None
           | _ => match digits_from 0 s' with Some z => Some (inl (- z)) | None => None end
           end
      else match digits_from 0 s with Some z => Some (inl z) | None => None end
  end.

(** Days since 1970-01-01 of a civil date. *)
Definition days_from_civil (y m d : Z) : Z :=
  let y := if m <=? 2 then y - 1 else y in
  let era := y / 400 in
  let yoe := y - era * 400 in
  let doy := (153 * (if 2 <? m then m - 3 else m + 9) + 2) / 5 + d - 1 in
  let doe := yoe * 365 + yoe / 4 - yoe / 100 + doy in
  era * 146097 + doe - 719468.

(** The day of an ISO date [YYYY-MM-DD]. *)
Definition iso_day (s : string) : option Z :=
  match digits_from 0 (substring 0 4 s),
        digits_from 0 (substring 5 2 s),
        digits_from 0 (substring 8 2 s) with
  | Some y, Some m, Some d =>
      if String.eqb (substring 4 1 s) "-" && String.eqb (substring 7 1 s) "-"
         && (1 <=? m) && (m <=? 12) && (1 <=? d) && (d <=? 31)
      then Some (days_from_civil y m d)
      else None
  | _, _, _ => None
  end.

(** The nanoseconds of an ISO time of day [HH:MM:SS]. *)
Definition iso_time (s : string) : option Z :=
  match digits_from 0 (substring 0 2 s),
        digits_from 0 (substring 3 2 s),
        digits_from 0 (substring 6 2 s) with
  | Some h, Some m, Some sec =>
      if String.eqb (substring 2 1 s) ":" && String.eqb (substring 5 1 s) ":"
         && (h <=? 23) && (m <=? 59) && (sec <=? 59)
      then Some (((h * 60 + m) * 60 + sec) * 10 ^ 9)
      else None
  | _, _, _ => None
  end.

(** ISO dates [YYYY-MM-DD], and ISO instants in UTC
    [YYYY-MM-DDTHH:MM:SSZ], only. *)
Definition parse_iso_date (c : cell) : option datetime :=
  match c with
  | Str s =>
      if Nat.eqb (String.length s) 10 then
        match iso_day s with
        | Some day => Some (Naive (Timestamp day))
        | None => None
        end
      else if Nat.eqb (String.length s) 20
              && String.eqb (substring 10 1 s) "T" && String.eqb (substring 19 1 s) "Z" then
        match iso_day (substring 0 10 s), iso_time (substring 11 8 s) with
        | Some day, Some ns => Some (Aware (Timestamp day + ns) 0)
        | _, _ => None
        end
      else None
  | _ => None
  end.

Definition text_of (c : cell) : string :=
  match c with
  | Str s | Obj s => s
  | _ => EmptyString
  end.

(** Insertion argsort that keeps equal keys in their order. *)
Fixpoint insert_after (keys : list cell) (i : nat) (ix : list nat) : list nat :=
  match ix with
  | [] => [i]
  | j :: ix' =>
      if cell_ltb (nth i keys Null) (nth j keys Null) then i :: j :: ix'
      else j :: insert_after keys i ix'
  end.

Definition stable_argsort (keys : list cell) : list nat :=
  fold_left (fun ix i => insert_after keys i ix) (seq 0 (length keys)) [].

(** Insertion argsort that puts a key before the keys equal to it: a
    correct sort that is not stable. *)
Fixpoint insert_before (keys : list cell) (i : nat) (ix : list nat) : list nat :=
  match ix with
  | [] => [i]
  | j :: ix' =>
      if cell_ltb (nth j keys Null) (nth i keys Null) then j :: insert_before keys i ix'
      else i :: j :: ix'
  end.

Definition unstable_argsort (keys : list cell) : list nat :=
  fold_left (fun ix i => insert_before keys i ix) (seq 0 (length keys)) [].

Definition lib : Lib := {|
  parse_numeric := parse_int;
  parse_datetime := parse_iso_date;
  py_str := text_of;
  csv_text := text_of;
  float_sum := fun fs => fold_left PrimFloat.add fs 0%float;
  argsort := stable_argsort
|}.

Definition unstable_lib : Lib := {|
  parse_numeric := parse_int;
  parse_datetime := parse_iso_date;
  py_str := text_of;
  csv_text := text_of;
  float_sum := fun fs => fold_left PrimFloat.add fs 0%float;
  argsort := unstable_argsort
|}.

(** The first sample product of the seed data, as stored. *)
Definition sample_doc : record :=
  [("_id", Obj "656f00000000000000000001"); ("sku", Str "SKU1001");
   ("name", Str "Classic T-Shirt"); ("category", Str "Apparel");
   ("quantity", Int 120); ("price", Flt 399); ("supplier", Str "Textile Co");
   ("last_restock", Str "2025-10-01")].

Definition sample_table : DataFrame := raw_docs_to_df (H := lib) [sample_doc].

(** Three stored documents: the sample product; one without a category,
    with a quantity held as text and a restock date that is no date; one
    with a negative quantity, restocked on 2025-11-09. *)
Definition mixed_docs : list record :=
  [ sample_doc;
    [("_id", Obj "656f00000000000000000002"); ("sku", Str "SKU2002");
     ("name", Str "Mystery Box"); ("quantity", Str "5"); ("price", Int 10);
     ("supplier", Str "Unknown Ltd"); ("last_restock", Str "soon")];
    [("_id", Obj "656f00000000000000000003"); ("sku", Str "SKU2003");
     ("name", Str "Returned Hoodie"); ("category", Str "Apparel");
     ("quantity", Int (-5)); ("price", Flt 999); ("supplier", Str "WarmWear");
     ("last_restock", Str "2025-11-09")] ].

Definition mixed_table : DataFrame := raw_docs_to_df (H := lib) mixed_docs.

(** 2025-11-08 as a day number. *)
Definition sample_today : Z := 20400.

Definition sample_cleaned : DataFrame :=
  snd (clean_and_transform (H := lib) sample_today sample_table).

Definition mixed_cleaned : DataFrame :=
  snd (clean_and_transform (H := lib) sample_today mixed_table).

(** A heap on which the variable [df_raw] refers to object 1. *)
Definition heap0 : heap := {[ 1%nat := sample_table ]}.

(** A collection in which no document has a [name]. *)
Definition nameless_docs : list record :=
  [ [("_id", Obj "656f00000000000000000004"); ("sku", Str "SKU3001");
     ("quantity", Int 7); ("price", Flt 20)] ].

Definition nameless_table : DataFrame := raw_docs_to_df (H := lib) nameless_docs.

Definition nameless_once : DataFrame :=
  snd (clean_and_transform (H := lib) sample_today nameless_table).

Definition nameless_twice : DataFrame :=
  snd (clean_and_transform (H := lib) sample_today nameless_once).

(** Eighteen products of the same inventory value. *)
Definition label (i : nat) : string :=
  String (ascii_of_nat 80)
    (String (ascii_of_nat (48 + i / 10))
       (String (ascii_of_nat (48 + i mod 10)) EmptyString)).

Definition tie_docs : list record :=
  List.map (fun i => [("_id", Obj (label i)); ("name", Str (label i));
                      ("quantity", Int 1); ("price", Flt 10)])
           (seq 0 18).

Definition tie_cleaned : DataFrame :=
  snd (clean_and_transform (H := lib) sample_today (raw_docs_to_df (H := lib) tie_docs)).

(** The low-stock table of the three mixed documents, threshold 30. *)
Definition mixed_low : DataFrame :=
  match low (H := lib) 30 mixed_cleaned with
  | Some (Ok t) => t
  | _ => DataFrame_empty
  end.

(** The top-10 chart of the three mixed documents. *)
Definition mixed_top : LabelledFrame :=
  match top_by_value (H := lib) mixed_cleaned with
  | Some (Ok t) => t
  | _ => mkLF [] []
  end.

(** A table with an infinite quantity. *)
Definition infinite_table : DataFrame :=
  raw_docs_to_df (H := lib)
    [ [("_id", Obj "656f00000000000000000005"); ("name", Str "Bulk Sand");
       ("quantity", Flt infinity); ("price", Flt 1)] ].

(** A table with a restock date written with a UTC offset. *)
Definition utc_table : DataFrame :=
  raw_docs_to_df (H := lib)
    [ [("_id", Obj "656f00000000000000000006"); ("name", Str "Desk Lamp");
       ("quantity", Int 4); ("price", Flt 25);
       ("last_restock", Str "2025-10-01T00:00:00Z")] ].

(** Two products whose categories are a number and an ObjectId. *)
Definition odd_docs : list record :=
  [ [("_id", Obj "656f00000000000000000007"); ("name", Str "Pen");
     ("category", Int 7); ("quantity", Int 1); ("price", Flt 2)];
    [("_id", Obj "656f00000000000000000008"); ("name", Str "Ink");
     ("category", Obj "656f000000000000000000aa"); ("quantity", Int 1);
     ("price", Flt 3)] ].

Definition odd_cleaned : DataFrame :=
  snd (clean_and_transform (H := lib) sample_today (raw_docs_to_df (H := lib) odd_docs)).

(** The civil date of a day number. *)
Definition civil_from_days (z : Z) : Z * Z * Z :=
  let z := z + 719468 in
  let era := z / 146097 in
  let doe := z - era * 146097 in
  let yoe := (doe - doe / 1460 + doe / 36524 - doe / 146096) / 365 in
  let y := yoe + era * 400 in
  let doy := doe - (365 * yoe + yoe / 4 - yoe / 100) in
  let mp := (5 * doy + 2) / 153 in
  let d := doy - (153 * mp + 2) / 5 + 1 in
  let m := if mp <? 10 then mp + 3 else mp - 9 in
  (if m <=? 2 then y + 1 else y, m, d).

(** The first instant of the month, in the proleptic Gregorian calendar. *)
Definition calendar : Calendar := {|
  month_start := fun ns =>
    let '(y, m, _) := civil_from_days (ns / ns_per_day) in
    let t := Timestamp (days_from_civil y m 1) in
    if in_timestamp t then Ok t else Raise ValueError
|}.

(** The timeline of the three mixed documents. *)
Definition mixed_timeline : list cell * list cell :=
  match restock_timeline (H := lib) (H0 := calendar) mixed_cleaned with
  | Some (Done (Some chart)) => chart
  | _ => ([], [])
  end.

Definition digit_char (d : Z) : ascii := ascii_of_nat (48 + Z.to_nat d).

Definition pad2 (n : Z) : string :=
  String (digit_char (n / 10 mod 10)) (String (digit_char (n mod 10)) EmptyString).

(** [date.isoformat()]: YYYY-MM-DD. *)
Definition iso_of_day (day : Z) : string :=
  let '(y, m, d) := civil_from_days day in
  String.append (pad2 (y / 100))
    (String.append (pad2 (y mod 100))
       (String.append "-" (String.append (pad2 m) (String.append "-" (pad2 d))))).

Definition python : Python := {| isoformat := iso_of_day |}.

(** The first sample product as the Add form would take it, with the
    identifier the store gave it. *)
Definition sample_item : string * form :=
  ("656f00000000000000000001",
   mkForm "SKU1001" "Classic T-Shirt" "Apparel" 120 399 "Textile Co" 20362).

(** The category rollup of the three mixed documents. *)
Definition mixed_agg : DataFrame :=
  match cat_agg (H := lib) mixed_cleaned with
  | Some (Ok agg) => agg
  | _ => DataFrame_empty
  end.


(** What [fetch_products] returns when the cursor gives the three mixed
    documents. *)
Definition mixed_fetched : list record :=
  match fetch_products (H := lib) mixed_docs with
  | Ok docs => docs
  | Raise _ => []
  end.

End Example.

(** ** Reading a table *)

(** The cells of a column (none when the table has no such column). *)
Definition column (c : string) (df : DataFrame) : list cell :=
  match assoc c (data df) with Some vs => vs | None => [] end.

(** The cell of column [c] in the row at position [i]. *)
Definition cell_at (c : string) (i : nat) (df : DataFrame) : option cell :=
  nth_error (column c df) i.

(** Every column holds one cell per row. *)
Definition wf (df : DataFrame) : bool :=
  forallb (fun cv => Nat.eqb (length (snd cv)) (nrows df)) (data df).

(** The stored [last_restock] of the row at position [i] is unknown: the
    table has no such column, or the cell is missing or does not parse as
    a date. *)
Definition restock_unknown `{Lib} (df : DataFrame) (i : nat) : bool :=
  match assoc "last_restock" (data df) with
  | None => true
  | Some vs =>
      match nth_error vs i with
      | Some c => match to_datetime_cell c with Null => true | _ => false end
      | None => true
      end
  end.


(** No stored [quantity] reads as an infinite number: what [pd.to_numeric]
    makes of the column holds no infinity. *)
Definition finite_quantities `{Lib} (df : DataFrame) : bool :=
  forallb (fun c => match c with
                    | Flt f => negb (PrimFloat.is_infinity f)
                    | _ => true
                    end)
          (s_values (to_numeric (mkSeries (index df) (column "quantity" df)))).

(** Every stored [last_restock] that reads as a date reads as one without a
    UTC offset, and less than 2^63 ns away from the day [today_date]. *)
Definition plain_restock_dates `{Lib} (today_date : Z) (df : DataFrame) : bool :=
  forallb (fun c => match to_datetime_cell c with
                    | Ts t => in_timestamp (Timestamp today_date - t)
                    | Tsz _ _ => false
                    | _ => true
                    end)
          (column "last_restock" df).

(** The columns [clean_and_transform] assigns, in the order of its
    assignments. *)
Definition ASSIGNED : list string :=
  ["quantity"; "price"; "last_restock"; "name"; "sku"; "value"; "days_since_restock"].

(** [df[c] = ...] on the column names: a new name goes last. *)
Definition add_column (names : list string) (c : string) : list string :=
  if existsb (String.eqb c) names then names else names ++ [c].

(** The integer a cell contributes to an int64 sum. *)
Definition int_value (c : cell) : Z :=
  match c with
  | Int z => z
  | Bool true => 1
  | _ => 0
  end.

(** The exact (unbounded) total of a column of integers. *)
Definition int_total (cs : list cell) : Z :=
  fold_right (fun c acc => int_value c + acc) 0 cs.

(** The positions of the rows whose key is present. *)
Definition present_rows (keys : list cell) : list nat :=
  List.filter (fun i => negb (isna (nth i keys Null))) (seq 0 (length keys)).

(** The positions of the rows whose key is missing. *)
Definition missing_rows (keys : list cell) : list nat :=
  List.filter (fun i => isna (nth i keys Null)) (seq 0 (length keys)).

(** The cell is the text [s]. *)
Definition is_text (s : string) (c : cell) : bool :=
  match c with Str s' => String.eqb s' s | _ => false end.

(** The cell is the timestamp [t]. *)
Definition is_timestamp (t : Z) (c : cell) : bool :=
  match c with Ts t' => Z.eqb t' t | _ => false end.

(** The positions of the rows whose key satisfies [P]. *)
Definition rows_where (P : cell -> bool) (keys : list cell) : list nat :=
  List.filter (fun i => P (nth i keys Null)) (seq 0 (length keys)).

(** The cell is a text or is missing. *)
Definition text_or_missing (c : cell) : bool :=
  match c with Str _ => true | _ => isna c end.

(** The positions of the rows whose key is the text [s]. *)
Definition rows_with_text (s : string) (keys : list cell) : list nat :=
  List.filter (fun i => is_text s (nth i keys Null)) (seq 0 (length keys)).

(** ** Reading a document *)

(** The value a document gives to a column: the stored field, NaN when the
    document has no such field. *)
Definition field (c : string) (d : record) : cell :=
  match assoc c d with Some v => v | None => Null end.

(** The copy of a document that becomes a row: [_id] gives way to the
    string field [id]. *)
Definition with_id `{Lib} (d : record) : record :=
  if dict_contains "_id" d
  then dict_pop "_id" (dict_set "id" (Str (py_str (field "_id" d))) d)
  else d.

(** The month of a restock date, as the timeline computes it. *)
Definition month_of `{Calendar} (c : cell) : cell :=
  match c with
  | Ts ns => match month_start ns with Ok m => Ts m | Raise _ => Null end
  | Tsz ns offset => match month_start (ns + offset) with Ok m => Ts m | Raise _ => Null end
  | _ => Null
  end.

(** The copy after the fields to drop are popped. *)
Definition without (fs : list string) (d : record) : record :=
  List.filter (fun kv => negb (existsb (String.eqb (fst kv)) fs)) d.

(** The documents of the products entered through the form, as the store
    returns them. *)
Definition products `{Python} (items : list (string * form)) : list record :=
  List.map (fun it => stored (fst it) (add_product_doc (snd it))) items.

(** The limits the form and the store put on a product: the quantity is a
    non-negative int64, the price a non-negative number, and the date is one
    that [pd.to_datetime] reads back from its ISO text, not further from
    today than a Timedelta can tell. *)
Definition form_ok `{Lib} `{Python} (today : Z) (f : form) : bool :=
  (0 <=? form_quantity f) && (form_quantity f <=? max_int64)
  && PrimFloat.leb 0 (form_price f)
  && match parse_datetime (Str (isoformat (form_last_restock f))) with
     | Some (Naive ns) => (ns =? Timestamp (form_last_restock f))
                          && in_timestamp ns && in_timestamp (Timestamp today - ns)
     | _ => false
     end.

(** ** The columns [clean_and_transform] assigns

    The values of each assigned column as a function of the table the call
    starts from; [clean_and_transform_unfold] proves that the program
    computes exactly these, and where it stops when it raises. *)

(** [df[c] = vs] for values already on the table's index. *)
Definition setcol (c : string) (vs : list cell) (df : DataFrame) : DataFrame :=
  mkDF (index df) (assoc_set c vs (data df)).

Definition numeric_values `{Lib} (vs : list cell) : list cell :=
  let cs := List.map to_numeric_cell vs in
  if forallb is_int cs then cs else List.map to_float64 cs.

Definition fill (v : cell) (c : cell) : cell := if isna c then v else c.

(** What [to_numeric] leaves in a column: NaN, integers and floats. *)
Definition numeric (c : cell) : bool :=
  match c with Null | Int _ | Flt _ => true | _ => false end.

Definition coerced_quantity `{Lib} (df : DataFrame) : result (list cell) :=
  match assoc "quantity" (data df) with
  | Some vs => mapM astype_int_cell (List.map (fill (Int 0)) (numeric_values vs))
  | None => Ok (repeat (Int 0) (nrows df))
  end.

Definition price_cell (c : cell) : cell :=
  match fill (Flt 0) c with
  | Int z => Flt (float_of_Z z)
  | Bool b => Flt (if b then 1%float else 0%float)
  | Flt f => Flt f
  | _ => Flt nan
  end.

Definition coerced_price `{Lib} (df : DataFrame) : list cell :=
  match assoc "price" (data df) with
  | Some vs => List.map price_cell (numeric_values vs)
  | None => repeat (Flt 0) (nrows df)
  end.

Definition parsed_restock `{Lib} (df : DataFrame) : list cell :=
  match assoc "last_restock" (data df) with
  | Some vs => List.map to_datetime_cell vs
  | None => repeat Null (nrows df)
  end.

(** An absent column is read as the empty Series, which aligns to NaN. *)
Definition filled (c : string) (v : cell) (df : DataFrame) : list cell :=
  match assoc c (data df) with
  | Some vs => List.map (fill v) vs
  | None => repeat Null (nrows df)
  end.

Definition days_cell (c : cell) : cell :=
  match fill (Int (-1)) (dt_days_cell c) with
  | Int z => Int (wrap64 z)
  | c' => c'
  end.

(** The table after the assignment of [value]. *)
Definition with_value `{Lib} (df : DataFrame) (q : list cell) : DataFrame :=
  setcol "value" (zip_with mul_cell q (coerced_price df))
    (setcol "sku" (filled "sku" (Str "") df)
      (setcol "name" (filled "name" (Str "Unknown") df)
        (setcol "last_restock" (parsed_restock df)
          (setcol "price" (coerced_price df)
            (setcol "quantity" q df))))).

(** The table the call leaves when it returns. *)
Definition cleaned `{Lib} (df : DataFrame) (q td : list cell) : DataFrame :=
  setcol "days_since_restock" (List.map days_cell td) (with_value df q).


(** ** Top-N as the specification words it *)

Module Spec.

(** Insert row [i] after every row whose value is not smaller: a later row
    never overtakes an equal earlier one. *)
Fixpoint insert_desc (keys : list cell) (i : nat) (sorted : list nat) : list nat :=
  match sorted with
  | [] => [i]
  | j :: rest =>
      if cell_ltb (nth j keys Null) (nth i keys Null) then i :: j :: rest
      else j :: insert_desc keys i rest
  end.

(** The rows by value descending, ties in fetch order (a stable sort). *)
Definition stable_desc_order (keys : list cell) : list nat :=
  fold_left (fun acc i => insert_desc keys i acc) (seq 0 (length keys)) [].

(** The first [n] rows of that order. *)
Definition top_n (n : nat) (df : DataFrame) : DataFrame :=
  take_rows (firstn n (stable_desc_order (column "value" df))) df.

End Spec.

(** ** A reader for the exported CSV

    The dialect [to_csv] writes: fields separated by commas, records ended
    by a line feed, a field quoted when it holds a comma, a quote or a line
    break, and a quote inside a quoted field doubled.  The reader states
    what the exported bytes decode to. *)
Module Reader.

Inductive state : Type :=
| StartField          (* at the start of a field *)
| InField             (* inside an unquoted field *)
| InQuotedField       (* inside a quoted field *)
| QuoteInQuotedField. (* after a quote inside a quoted field *)

Definition snoc (s : string) (c : ascii) : string :=
  String.append s (String c EmptyString).

(** [fld] is the field read so far, [row] the fields of the record read so
    far, last first. *)
Fixpoint read (st : state) (fld : string) (row : list string) (s : string)
  : list (list string) :=
  match s with
  | EmptyString =>
      match st, row with
      | StartField, [] => []
      | _, _ => [rev (fld :: row)]
      end
  | String c s' =>
      match st with
      | StartField =>
          if Ascii.eqb c dquote then read InQuotedField EmptyString row s'
          else if Ascii.eqb c comma then read StartField EmptyString (EmptyString :: row) s'
          else if Ascii.eqb c LF
               then rev (EmptyString :: row) :: read StartField EmptyString [] s'
               else read InField (String c EmptyString) row s'
      | InField =>
          if Ascii.eqb c comma then read StartField EmptyString (fld :: row) s'
          else if Ascii.eqb c LF then rev (fld :: row) :: read StartField EmptyString [] s'
               else read InField (snoc fld c) row s'
      | InQuotedField =>
          if Ascii.eqb c dquote then read QuoteInQuotedField fld row s'
          else read InQuotedField (snoc fld c) row s'
      | QuoteInQuotedField =>
          if Ascii.eqb c dquote then read InQuotedField (snoc fld c) row s'
          else if Ascii.eqb c comma then read StartField EmptyString (fld :: row) s'
          else if Ascii.eqb c LF then rev (fld :: row) :: read StartField EmptyString [] s'
               else read InField (snoc fld c) row s'
      end
  end.

(** The records of a CSV text, each a list of fields. *)
Definition read_csv (s : string) : list (list string) := read StartField EmptyString [] s.

End Reader.

(** The texts of the data rows of a table, as [to_csv] writes them. *)
Definition csv_rows `{Lib} (df : DataFrame) : list (list string) :=
  List.map (fun k => List.map csv_text (row_cells df k)) (seq 0 (nrows df)).

(** What the reader does at the end of a field, on a comma or a line end. *)
Definition after (t : ascii) (fld : string) (row : list string) (rest : string)
  : list (list string) :=
  if Ascii.eqb t comma then Reader.read Reader.StartField EmptyString (fld :: row) rest
  else rev (fld :: row) :: Reader.read Reader.StartField EmptyString [] rest.

Definition separator (t : ascii) : Prop := t = comma \/ t = LF.

(** * Properties *)

(** ** Association lists and column assignment *)

Lemma assoc_assoc_set {A : Type} (c c' : string) (x : A) (l : list (string * A)) :
  assoc c (assoc_set c' x l) = if String.eqb c c' then Some x else assoc c l.
Proof.
  induction l as [|[k y] l IH]; simpl.
  - reflexivity.
  - destruct (String.eqb c' k) eqn:Ek; simpl.
    + apply String.eqb_eq in Ek; subst k.
      now destruct (String.eqb c c').
    + destruct (String.eqb c k) eqn:Eck; [|exact IH].
      apply String.eqb_eq in Eck; subst k.
      now rewrite String.eqb_sym, Ek.
Qed.

Lemma keys_assoc_set {A : Type} (c : string) (x : A) (l : list (string * A)) :
  List.map fst (assoc_set c x l) =
  if existsb (String.eqb c) (List.map fst l) then List.map fst l
  else List.map fst l ++ [c].
Proof.
  induction l as [|[k y] l IH]; simpl; [reflexivity|].
  destruct (String.eqb c k) eqn:Ek; simpl; [reflexivity|].
  rewrite IH. now destruct (existsb _ _).
Qed.

Lemma existsb_assoc {A : Type} (c : string) (l : list (string * A)) :
  existsb (String.eqb c) (List.map fst l) =
  match assoc c l with Some _ => true | None => false end.
Proof.
  induction l as [|[k y] l IH]; simpl; [reflexivity|].
  now destruct (String.eqb c k).
Qed.

Lemma contains_assoc (c : string) (df : DataFrame) :
  contains c df = match assoc c (data df) with Some _ => true | None => false end.
Proof. apply existsb_assoc. Qed.

Lemma mapM_Forall2 {A B : Type} (f : A -> result B) (l : list A) (ys : list B) :
  mapM f l = Ok ys <-> Forall2 (fun x y => f x = Ok y) l ys.
Proof.
  revert ys; induction l as [|x l IH]; intros ys; simpl.
  - split; [intros [= <-]; constructor | inversion 1; reflexivity].
  - destruct (f x) as [y|e] eqn:Ex.
    + destruct (mapM f l) as [ys'|e'] eqn:El.
      * split.
        -- intros [= <-]. constructor; [assumption|now apply IH].
        -- inversion 1 as [|? y0 ? ys0 Hy Hl]; subst.
           apply IH in Hl. congruence.
      * split; [discriminate|].
        inversion 1 as [|? y0 ? ys0 Hy Hl]; subst.
        apply IH in Hl. discriminate.
    + split; [discriminate|].
      inversion 1; subst; congruence.
Qed.

Lemma reindex_empty_series (ix : list nat) :
  reindex empty_series ix = repeat Null (length ix).
Proof. induction ix; simpl; [reflexivity|]. f_equal. assumption. Qed.

(** ** Running the program's statements *)

Ltac string_eqb :=
  repeat match goal with
         | |- context [String.eqb ?a ?b] =>
             let v := eval vm_compute in (String.eqb a b) in
             lazymatch v with
             | true => change (String.eqb a b) with true
             | false => change (String.eqb a b) with false
             end
         end;
  cbv iota.

Lemma setitem_aligned (c : string) (vs : list cell) (df df0 : DataFrame) :
  index df0 = index df ->
  setitem c (mkSeries (index df) vs) df0 = setcol c vs df0.
Proof.
  intros E. unfold setitem, setcol; simpl.
  rewrite bool_decide_eq_true_2 by congruence. reflexivity.
Qed.

Lemma setitem_scalar_setcol (c : string) (v : cell) (df : DataFrame) :
  setitem_scalar c v df = setcol c (repeat v (nrows df)) df.
Proof. reflexivity. Qed.

Lemma setitem_empty_series (c : string) (v : cell) (df : DataFrame) :
  empty df = false ->
  setitem c (fillna v empty_series) df = setcol c (repeat Null (nrows df)) df.
Proof.
  intros He. unfold setitem, setcol, empty in *; simpl.
  apply orb_false_iff in He as [Hi _].
  destruct (index df) as [|i ix] eqn:Ei; [discriminate|].
  rewrite bool_decide_eq_false_2 by discriminate.
  change (Nat.eqb (length (i :: ix)) 0) with false. cbv iota.
  f_equal. f_equal. unfold nrows. rewrite Ei.
  apply (reindex_empty_series (i :: ix)).
Qed.

Lemma assoc_setcol (c c' : string) (vs : list cell) (df : DataFrame) :
  assoc c (data (setcol c' vs df)) =
  if String.eqb c c' then Some vs else assoc c (data df).
Proof. apply assoc_assoc_set. Qed.

Lemma index_setcol (c : string) (vs : list cell) (df : DataFrame) :
  index (setcol c vs df) = index df.
Proof. reflexivity. Qed.

Lemma nrows_setcol (c : string) (vs : list cell) (df : DataFrame) :
  nrows (setcol c vs df) = nrows df.
Proof. reflexivity. Qed.

Lemma assoc_set_twice {A : Type} (c : string) (x y : A) (l : list (string * A)) :
  assoc_set c x (assoc_set c y l) = assoc_set c x l.
Proof.
  induction l as [|[k z] l IH]; simpl.
  - now rewrite String.eqb_refl.
  - destruct (String.eqb c k) eqn:Ek; simpl; rewrite Ek; [reflexivity|].
    now rewrite IH.
Qed.

Lemma setcol_twice (c : string) (x y : list cell) (df : DataFrame) :
  setcol c x (setcol c y df) = setcol c x df.
Proof. unfold setcol; simpl. now rewrite assoc_set_twice. Qed.

Lemma numeric_values_numeric `{Lib} (vs : list cell) :
  Forall (fun c => numeric c = true) (numeric_values vs).
Proof.
  unfold numeric_values.
  assert (Hn : Forall (fun c => numeric c = true) (List.map to_numeric_cell vs)).
  { apply Forall_map, List.Forall_forall. intros c _. unfold to_numeric_cell.
    destruct c as [| | | |s| | | |]; try reflexivity.
    destruct (parse_numeric s) as [[z|f]|]; reflexivity. }
  destruct (forallb is_int _); [assumption|].
  apply Forall_map. eapply Forall_impl; [exact Hn|].
  intros [] Hc; simpl in *; congruence.
Qed.

Lemma astype_float_numeric (cs : list cell) :
  Forall (fun c => numeric c = true) cs ->
  mapM astype_float_cell (List.map (fill (Flt 0)) cs) = Ok (List.map price_cell cs).
Proof.
  induction 1 as [|c cs Hc _ IH]; simpl; [reflexivity|].
  rewrite IH. unfold price_cell.
  destruct c; simpl in *; try discriminate; try reflexivity.
  unfold fill; simpl. destruct (PrimFloat.is_nan f); reflexivity.
Qed.

Lemma astype_int_days (td : list cell) :
  mapM astype_int_cell (List.map (fill (Int (-1))) (List.map dt_days_cell td))
  = Ok (List.map days_cell td).
Proof.
  induction td as [|c td IH]; simpl; [reflexivity|].
  rewrite IH. unfold days_cell. destruct c; reflexivity.
Qed.

Lemma bind_assoc {A B C : Type} (m : M A) (k : A -> M B) (k' : B -> M C) df :
  bind (bind m k) k' df = bind m (fun a => bind (k a) k') df.
Proof. unfold bind. destruct (m df) as [[a|e] df1]; reflexivity. Qed.

Lemma bind_gets {A B : Type} (f : DataFrame -> A) (k : A -> M B) df :
  bind (gets f) k df = k (f df) df.
Proof. reflexivity. Qed.

Lemma bind_modify {B : Type} (f : DataFrame -> DataFrame) (k : unit -> M B) df :
  bind (modify f) k df = k tt (f df).
Proof. reflexivity. Qed.

Lemma bind_try {A B : Type} (f : DataFrame -> result A) (k : A -> M B) df :
  bind (try f) k df = match f df with Ok a => k a df | Raise e => (Raise e, df) end.
Proof. unfold bind, try. destruct (f df); reflexivity. Qed.

Lemma bind_lift {A B : Type} (r : result A) (k : A -> M B) df :
  bind (lift r) k df = match r with Ok a => k a df | Raise e => (Raise e, df) end.
Proof. unfold bind, lift. destruct r; reflexivity. Qed.

Lemma getitem_assoc (c : string) (df : DataFrame) (vs : list cell) :
  assoc c (data df) = Some vs -> getitem c df = Ok (mkSeries (index df) vs).
Proof. intros E. unfold getitem. now rewrite E. Qed.

Ltac step :=
  repeat first [ rewrite bind_assoc | rewrite bind_gets | rewrite bind_modify
               | rewrite bind_try | rewrite bind_lift ];
  cbv beta.

Lemma empty_setcol (c : string) (vs : list cell) (df : DataFrame) :
  empty df = false -> empty (setcol c vs df) = false.
Proof.
  unfold empty, setcol; simpl. intros He.
  apply orb_false_iff in He as [Hi _]. rewrite Hi; simpl.
  destruct (data df) as [|[k y] l]; simpl; [reflexivity|].
  now destruct (String.eqb c k).
Qed.

(** The program, statement by statement: the columns it assigns, and the
    two places where it can raise (the integer cast of [quantity], before
    anything is assigned, and the date difference, after [value] is). *)
Lemma clean_and_transform_unfold `{Lib} (today : Z) (df : DataFrame) :
  empty df = false ->
  clean_and_transform today df =
  match coerced_quantity df with
  | Raise e => (Raise e, df)
  | Ok q =>
      match mapM (rsub_timestamp_cell (Timestamp today)) (parsed_restock df) with
      | Raise e => (Raise e, with_value df q)
      | Ok td => (Ok tt, cleaned df q td)
      end
  end.
Proof.
  intros He. unfold clean_and_transform.
  rewrite bind_gets, He.
  (* quantity *)
  rewrite bind_gets, contains_assoc.
  assert (S1 : forall B (k : unit -> M B),
    bind (if match assoc "quantity" (data df) with Some _ => true | None => false end
          then let* q := try (getitem "quantity") in
               let* q0 := lift (astype_int (fillna (Int 0) (to_numeric q))) in
               modify (setitem "quantity" q0)
          else modify (setitem_scalar "quantity" (Int 0))) k df
    = match coerced_quantity df with
      | Raise e => (Raise e, df)
      | Ok q => k tt (setcol "quantity" q df)
      end).
  { intros B k. unfold coerced_quantity.
    destruct (assoc "quantity" (data df)) as [qs|] eqn:Eq.
    - step. rewrite (getitem_assoc _ _ _ Eq). step.
      unfold astype_int. cbn [s_values s_index fillna to_numeric smap].
      fold (numeric_values qs). fold (fill (Int 0)).
      destruct (mapM astype_int_cell _) as [q|e]; [|reflexivity].
      step. now rewrite setitem_aligned.
    - step. reflexivity. }
  rewrite S1. clear S1.
  destruct (coerced_quantity df) as [q|e]; [|reflexivity].
  (* price *)
  rewrite bind_gets, contains_assoc, assoc_setcol. string_eqb.
  assert (S2 : forall B (k : unit -> M B),
    bind (if match assoc "price" (data df) with Some _ => true | None => false end
          then let* p := try (getitem "price") in
               let* p0 := lift (astype_float (fillna (Flt 0) (to_numeric p))) in
               modify (setitem "price" p0)
          else modify (setitem_scalar "price" (Flt 0))) k (setcol "quantity" q df)
    = k tt (setcol "price" (coerced_price df) (setcol "quantity" q df))).
  { intros B k. unfold coerced_price.
    destruct (assoc "price" (data df)) as [ps|] eqn:Ep.
    - step. unfold getitem at 1. rewrite assoc_setcol. string_eqb. rewrite Ep.
      unfold astype_float. cbn [s_values s_index fillna to_numeric smap].
      fold (numeric_values ps). fold (fill (Flt 0)).
      rewrite astype_float_numeric by apply numeric_values_numeric.
      step. now rewrite setitem_aligned.
    - step. reflexivity. }
  rewrite S2. clear S2.
  (* last_restock *)
  rewrite bind_gets, contains_assoc, !assoc_setcol. string_eqb.
  assert (S3 : forall B (k : unit -> M B) df0,
    index df0 = index df ->
    assoc "last_restock" (data df0) = assoc "last_restock" (data df) ->
    bind (if match assoc "last_restock" (data df) with Some _ => true | None => false end
          then let* r := try (getitem "last_restock") in
               modify (setitem "last_restock" (to_datetime r))
          else modify (setitem_scalar "last_restock" Null)) k df0
    = k tt (setcol "last_restock" (parsed_restock df) df0)).
  { intros B k df0 Hi Ha. unfold parsed_restock.
    destruct (assoc "last_restock" (data df)) as [rs|] eqn:Er.
    - step. rewrite (getitem_assoc _ _ _ Ha).
      step. unfold to_datetime, smap. cbn [s_index s_values].
      now rewrite setitem_aligned.
    - step. rewrite setitem_scalar_setcol. unfold nrows. now rewrite Hi. }
  rewrite S3; [clear S3|reflexivity|now rewrite !assoc_setcol; string_eqb].
  (* name and sku *)
  assert (S4 : forall B (k : unit -> M B) c v df0,
    empty df0 = false -> index df0 = index df ->
    assoc c (data df0) = assoc c (data df) ->
    bind (gets (get c empty_series))
         (fun s => bind (modify (setitem c (fillna v s))) k) df0
    = k tt (setcol c (filled c v df) df0)).
  { intros B k c v df0 He0 Hi Ha. step. unfold get, filled. rewrite Ha.
    destruct (assoc c (data df)) as [ns|] eqn:En.
    - unfold fillna, smap. cbn [s_index s_values]. fold (fill v).
      now rewrite setitem_aligned.
    - rewrite setitem_empty_series by assumption.
      unfold nrows. now rewrite Hi. }
  rewrite S4;
    [| now repeat apply empty_setcol | reflexivity
     | now rewrite !assoc_setcol; string_eqb].
  rewrite S4;
    [| now repeat apply empty_setcol | reflexivity
     | now rewrite !assoc_setcol; string_eqb].
  clear S4.
  (* value *)
  step. unfold getitem at 1. rewrite !assoc_setcol. string_eqb.
  step. unfold getitem at 1. rewrite !assoc_setcol. string_eqb.
  step. unfold mul. cbn [s_index s_values].
  rewrite setitem_aligned by reflexivity.
  fold (with_value df q).
  (* days_since_restock *)
  unfold getitem at 1. unfold with_value at 1. rewrite !assoc_setcol. string_eqb.
  step. unfold rsub_timestamp. cbn [s_values s_index].
  destruct (mapM (rsub_timestamp_cell (Timestamp today)) (parsed_restock df))
    as [td|e]; [|reflexivity].
  step. unfold dt_days, smap. cbn [s_index s_values].
  rewrite setitem_aligned by reflexivity.
  unfold getitem at 1. rewrite assoc_setcol. string_eqb.
  step. unfold astype_int, fillna, smap. cbn [s_index s_values].
  fold (fill (Int (-1))).
  rewrite astype_int_days. step. unfold modify.
  rewrite setitem_aligned by reflexivity.
  now rewrite setcol_twice.
Qed.

(** ** Floats: an integer never converts to NaN *)

Lemma shr_1_nonneg (mrs : shr_record) : 0 <= shr_m mrs -> 0 <= shr_m (shr_1 mrs).
Proof.
  destruct mrs as [m r s0]; simpl. intros Hm.
  destruct m as [|p|p]; [simpl; lia| |lia].
  destruct p; simpl; lia.
Qed.

Lemma shr_nonneg (mrs : shr_record) (e n : Z) :
  0 <= shr_m mrs -> 0 <= shr_m (fst (shr mrs e n)).
Proof.
  intros Hm. unfold shr. destruct n as [|p|p]; simpl; try assumption.
  revert mrs Hm. induction p as [p IH|p IH|]; intros mrs Hm; simpl.
  - apply IH, IH. now apply shr_1_nonneg.
  - apply IH, IH. assumption.
  - now apply shr_1_nonneg.
Qed.

Lemma shr_fexp_nonneg (p e m : Z) (e0 : Z) (l : location) :
  0 <= m -> 0 <= shr_m (fst (shr_fexp p e m e0 l)).
Proof.
  intros Hm. unfold shr_fexp. apply shr_nonneg.
  destruct l as [|[]]; simpl; assumption.
Qed.

Lemma binary_round_aux_not_nan (p e : Z) (sx : bool) (mx ex : Z) (lx : location) :
  0 <= mx -> binary_round_aux p e sx mx ex lx <> S754_nan.
Proof.
  intros Hm. unfold binary_round_aux.
  pose proof (shr_fexp_nonneg p e mx ex lx Hm) as H1.
  destruct (shr_fexp p e mx ex lx) as [mrs' e'] eqn:E1. simpl in H1.
  assert (H2 : 0 <= round_nearest_even (shr_m mrs') (loc_of_shr_record mrs')).
  { unfold round_nearest_even.
    destruct (loc_of_shr_record mrs') as [|[]]; try lia.
    destruct (Z.even (shr_m mrs')); lia. }
  pose proof (shr_fexp_nonneg p e _ e' loc_Exact H2) as H3.
  destruct (shr_fexp p e _ e' loc_Exact) as [mrs'' e''] eqn:E2. simpl in H3.
  destruct (shr_m mrs'') as [|q|q]; [discriminate| |lia].
  destruct (Z.leb e'' (Z.sub e p)); discriminate.
Qed.

Lemma of_uint63_not_nan (n : int) : PrimFloat.is_nan (PrimFloat.of_uint63 n) = false.
Proof.
  destruct (PrimFloat.is_nan (PrimFloat.of_uint63 n)) eqn:E; [|reflexivity].
  exfalso.
  assert (Hn : Prim2SF (PrimFloat.of_uint63 n) = S754_nan).
  { unfold Prim2SF. now rewrite E. }
  rewrite FloatAxioms.of_uint63_spec in Hn. unfold binary_normalize in Hn.
  destruct (Uint63.to_Z n) as [|m|m]; [discriminate| |];
    unfold binary_round in Hn;
    destruct (shl_align _ _ _) as [mz ez];
    revert Hn; apply binary_round_aux_not_nan; lia.
Qed.

Lemma opp_not_nan (f : float) :
  PrimFloat.is_nan f = false -> PrimFloat.is_nan (PrimFloat.opp f) = false.
Proof.
  intros Hf.
  destruct (PrimFloat.is_nan (PrimFloat.opp f)) eqn:E; [|reflexivity].
  exfalso.
  assert (Hn : Prim2SF (PrimFloat.opp f) = S754_nan).
  { unfold Prim2SF. now rewrite E. }
  rewrite FloatAxioms.opp_spec in Hn.
  assert (Hf' : Prim2SF f <> S754_nan).
  { unfold Prim2SF. rewrite Hf.
    destruct (PrimFloat.is_zero f); [discriminate|].
    destruct (PrimFloat.is_infinity f); [discriminate|].
    destruct (Z.frexp f) as [r ex].
    destruct (shr_fexp _ _ _ _ _) as [sh e'].
    destruct (shr_m sh); discriminate. }
  destruct (Prim2SF f); simpl in Hn; congruence.
Qed.

Lemma float_of_Z_not_nan (z : Z) : PrimFloat.is_nan (float_of_Z z) = false.
Proof.
  unfold float_of_Z.
  destruct (z =? min_int64); [reflexivity|].
  destruct (0 <=? z); [apply of_uint63_not_nan|].
  apply opp_not_nan, of_uint63_not_nan.
Qed.

(** ** What [clean_and_transform] leaves in the table *)

Lemma clean_and_transform_Ok `{Lib} (today : Z) (df df' : DataFrame) :
  empty df = false ->
  clean_and_transform today df = (Ok tt, df') ->
  exists q td,
    coerced_quantity df = Ok q
    /\ mapM (rsub_timestamp_cell (Timestamp today)) (parsed_restock df) = Ok td
    /\ df' = cleaned df q td.
Proof.
  intros He Hrun. rewrite (clean_and_transform_unfold today df He) in Hrun.
  destruct (coerced_quantity df) as [q|e]; [|discriminate].
  destruct (mapM _ (parsed_restock df)) as [td|e]; [|discriminate].
  exists q, td. repeat split; congruence.
Qed.

Lemma column_cleaned `{Lib} (df : DataFrame) (q td : list cell) :
  column "quantity" (cleaned df q td) = q
  /\ column "price" (cleaned df q td) = coerced_price df
  /\ column "last_restock" (cleaned df q td) = parsed_restock df
  /\ column "name" (cleaned df q td) = filled "name" (Str "Unknown") df
  /\ column "sku" (cleaned df q td) = filled "sku" (Str "") df
  /\ column "value" (cleaned df q td) = zip_with mul_cell q (coerced_price df)
  /\ column "days_since_restock" (cleaned df q td) = List.map days_cell td.
Proof.
  unfold column, cleaned, with_value.
  repeat split; rewrite !assoc_setcol; string_eqb; reflexivity.
Qed.

Lemma nrows_cleaned `{Lib} (df : DataFrame) (q td : list cell) :
  nrows (cleaned df q td) = nrows df.
Proof. reflexivity. Qed.

Lemma wf_assoc (c : string) (df : DataFrame) (vs : list cell) :
  wf df = true -> assoc c (data df) = Some vs -> length vs = nrows df.
Proof.
  unfold wf. generalize (nrows df) as n. intros n.
  induction (data df) as [|[k y] l IH]; simpl; [discriminate|].
  intros Hw Ha. apply andb_true_iff in Hw as [Hy Hl].
  destruct (String.eqb c k).
  - injection Ha as <-. now apply Nat.eqb_eq.
  - now apply IH.
Qed.

Lemma Forall2_nth_error {A B : Type} (R : A -> B -> Prop) (l : list A) (l' : list B)
    (i : nat) (y : B) :
  Forall2 R l l' -> nth_error l' i = Some y ->
  exists x, nth_error l i = Some x /\ R x y.
Proof.
  intros HF. revert i. induction HF as [|a b l l' Hab _ IH]; intros [|i] Hi;
    simpl in *; try discriminate.
  - injection Hi as <-. now exists a.
  - now apply IH.
Qed.

Lemma mapM_length {A B : Type} (f : A -> result B) (l : list A) (ys : list B) :
  mapM f l = Ok ys -> length ys = length l.
Proof.
  intros Hm. apply mapM_Forall2 in Hm. symmetry. eapply Forall2_length; eassumption.
Qed.

Lemma zip_with_length {A B C : Type} (f : A -> B -> C) (l1 : list A) (l2 : list B) :
  length l1 = length l2 -> length (zip_with f l1 l2) = length l1.
Proof.
  revert l2. induction l1 as [|a l1 IH]; intros [|b l2] Hl; simpl in *;
    try discriminate; [reflexivity|].
  f_equal. apply IH. congruence.
Qed.


Lemma numeric_values_length `{Lib} (vs : list cell) :
  length (numeric_values vs) = length vs.
Proof.
  unfold numeric_values. destruct (forallb _ _); now rewrite ?length_map.
Qed.

Lemma coerced_quantity_length `{Lib} (df : DataFrame) (q : list cell) :
  wf df = true -> coerced_quantity df = Ok q -> length q = nrows df.
Proof.
  intros Hw. unfold coerced_quantity.
  destruct (assoc "quantity" (data df)) as [vs|] eqn:Ea.
  - intros Hq. apply mapM_length in Hq.
    rewrite Hq, length_map, numeric_values_length. eapply wf_assoc; eassumption.
  - intros [= <-]. apply repeat_length.
Qed.

Lemma coerced_price_length `{Lib} (df : DataFrame) :
  wf df = true -> length (coerced_price df) = nrows df.
Proof.
  intros Hw. unfold coerced_price.
  destruct (assoc "price" (data df)) as [vs|] eqn:Ea.
  - rewrite length_map, numeric_values_length. eapply wf_assoc; eassumption.
  - apply repeat_length.
Qed.

Lemma parsed_restock_length `{Lib} (df : DataFrame) :
  wf df = true -> length (parsed_restock df) = nrows df.
Proof.
  intros Hw. unfold parsed_restock.
  destruct (assoc "last_restock" (data df)) as [vs|] eqn:Ea.
  - rewrite length_map. eapply wf_assoc; eassumption.
  - apply repeat_length.
Qed.

Lemma astype_int_cell_Int (c c' : cell) :
  astype_int_cell c = Ok c' -> exists z, c' = Int z.
Proof.
  destruct c; simpl; try discriminate.
  - intros [= <-]. eauto.
  - intros [= <-]. eauto.
  - destruct (int64_of_float f); [|discriminate]. intros [= <-]. eauto.
Qed.

Lemma coerced_quantity_Int `{Lib} (df : DataFrame) (q : list cell) (i : nat) (c : cell) :
  coerced_quantity df = Ok q -> nth_error q i = Some c -> exists z, c = Int z.
Proof.
  unfold coerced_quantity.
  destruct (assoc "quantity" (data df)) as [vs|].
  - intros Hq Hc. apply mapM_Forall2 in Hq.
    destruct (Forall2_nth_error _ _ _ _ _ Hq Hc) as (x & _ & Hx).
    eapply astype_int_cell_Int; eassumption.
  - intros [= <-] Hc. apply nth_error_In, repeat_spec in Hc. eauto.
Qed.

Lemma price_cell_Flt (c : cell) :
  numeric c = true ->
  exists f, price_cell c = Flt f /\ PrimFloat.is_nan f = false.
Proof.
  unfold price_cell, fill. destruct c; simpl; try discriminate; intros _.
  - now exists 0%float.
  - exists (float_of_Z z). split; [reflexivity|apply float_of_Z_not_nan].
  - destruct (PrimFloat.is_nan f) eqn:E; [now exists 0%float|now exists f].
Qed.

Lemma coerced_price_Flt `{Lib} (df : DataFrame) (i : nat) (c : cell) :
  nth_error (coerced_price df) i = Some c ->
  exists f, c = Flt f /\ PrimFloat.is_nan f = false.
Proof.
  unfold coerced_price.
  destruct (assoc "price" (data df)) as [vs|].
  - rewrite nth_error_map. destruct (nth_error (numeric_values vs) i) as [x|] eqn:Ex;
      [|discriminate].
    intros [= <-]. apply price_cell_Flt.
    pose proof (numeric_values_numeric vs) as Hn.
    rewrite List.Forall_forall in Hn. apply Hn. eapply nth_error_In; eassumption.
  - intros Hc. apply nth_error_In, repeat_spec in Hc. subst c. now exists 0%float.
Qed.



Lemma Forall2_nth_error_l {A B : Type} (R : A -> B -> Prop) (l : list A) (l' : list B)
    (i : nat) (x : A) :
  Forall2 R l l' -> nth_error l i = Some x ->
  exists y, nth_error l' i = Some y /\ R x y.
Proof.
  intros HF. revert i. induction HF as [|a b l l' Hab _ IH]; intros [|i] Hi;
    simpl in *; try discriminate.
  - injection Hi as <-. now exists b.
  - now apply IH.
Qed.

Lemma wrap64_id (z : Z) : min_int64 <= z <= max_int64 -> wrap64 z = z.
Proof.
  unfold wrap64, min_int64, max_int64. intros Hz.
  rewrite Z.mod_small by lia. lia.
Qed.

(** The day count of a row, from its parsed [last_restock]. *)
Lemma days_of_restock `{Lib} (today : Z) (df df' : DataFrame) (i : nat) (r : cell) :
  empty df = false ->
  clean_and_transform today df = (Ok tt, df') ->
  cell_at "last_restock" i df' = Some r ->
  exists td,
    rsub_timestamp_cell (Timestamp today) r = Ok td
    /\ cell_at "days_since_restock" i df' = Some (days_cell td).
Proof.
  intros He Hrun Hr.
  destruct (clean_and_transform_Ok today df df' He Hrun) as (qs & td & _ & Htd & ->).
  destruct (column_cleaned df qs td) as (_ & _ & Cr & _ & _ & _ & Cd).
  unfold cell_at in *. rewrite Cr in Hr. rewrite Cd.
  apply mapM_Forall2 in Htd.
  destruct (Forall2_nth_error_l _ _ _ _ _ Htd Hr) as (y & Hy & Hsub).
  exists y. split; [assumption|].
  now rewrite nth_error_map, Hy.
Qed.

(** C4. Sentinel correctness: a row whose stored [last_restock] is absent,
    missing or unparseable as a date has NaT in the cleaned [last_restock]
    column and [days_since_restock = -1]. *)
Theorem C4_unknown_restock_gets_sentinel `{Lib} (today : Z) (df df' : DataFrame) (i : nat) :
  empty df = false -> wf df = true ->
  clean_and_transform today df = (Ok tt, df') ->
  (i < nrows df)%nat ->
  restock_unknown df i = true ->
  cell_at "last_restock" i df' = Some Null
  /\ cell_at "days_since_restock" i df' = Some (Int (-1)).
Proof.
  intros He Hw Hrun Hi Hu.
  assert (Hr : cell_at "last_restock" i df' = Some Null).
  { destruct (clean_and_transform_Ok today df df' He Hrun) as (qs & td & _ & _ & ->).
    destruct (column_cleaned df qs td) as (_ & _ & Cr & _).
    unfold cell_at. rewrite Cr. unfold parsed_restock, restock_unknown in *.
    destruct (assoc "last_restock" (data df)) as [vs|] eqn:Ea.
    - rewrite nth_error_map.
      destruct (nth_error vs i) as [c|] eqn:Ec.
      + simpl. destruct (to_datetime_cell c); try discriminate. reflexivity.
      + apply nth_error_None in Ec. rewrite (wf_assoc _ _ _ Hw Ea) in Ec. lia.
    - now apply nth_error_repeat. }
  split; [assumption|].
  destruct (days_of_restock today df df' i Null He Hrun Hr) as (td & Htd & ->).
  injection Htd as <-. reflexivity.
Qed.

Lemma C4_witness :
  cell_at "last_restock" 1 Example.mixed_cleaned = Some Null
  /\ cell_at "days_since_restock" 1 Example.mixed_cleaned = Some (Int (-1)).
Proof.
  apply (C4_unknown_restock_gets_sentinel (H := Example.lib)
           Example.sample_today Example.mixed_table Example.mixed_cleaned 1).
  - reflexivity.
  - reflexivity.
  - vm_compute. reflexivity.
  - vm_compute. lia.
  - vm_compute. reflexivity.
Defined.

(** C10. A row whose [last_restock] parses to a timestamp later than the
    current date gets a negative [days_since_restock]; one day ahead gives
    exactly [-1], the value that also marks an unknown date. *)
Theorem C10_future_restock_is_negative `{Lib} (today : Z) (df df' : DataFrame)
    (i : nat) (t : Z) :
  empty df = false ->
  clean_and_transform today df = (Ok tt, df') ->
  cell_at "last_restock" i df' = Some (Ts t) ->
  Timestamp today < t ->
  exists d,
    cell_at "days_since_restock" i df' = Some (Int d)
    /\ d < 0
    /\ (t = Timestamp (today + 1) -> d = -1).
Proof.
  intros He Hrun Hr Hlt.
  destruct (days_of_restock today df df' i (Ts t) He Hrun Hr) as (td & Htd & Hd).
  simpl in Htd.
  destruct (in_timestamp (Timestamp today - t)) eqn:Ein; [|discriminate].
  injection Htd as <-.
  unfold in_timestamp in Ein. apply andb_true_iff in Ein as [Hlo Hhi].
  apply Z.ltb_lt in Hlo. apply Z.leb_le in Hhi.
  set (ns := Timestamp today - t) in *.
  assert (Hneg : ns / ns_per_day < 0).
  { apply Z.div_lt_upper_bound; [reflexivity|]. unfold ns. lia. }
  assert (Hge : min_int64 <= ns / ns_per_day).
  { apply Z.div_le_lower_bound; [reflexivity|].
    unfold min_int64, ns_per_day in *. lia. }
  exists (ns / ns_per_day). split; [|split].
  - rewrite Hd. unfold days_cell, dt_days_cell, fill. simpl.
    rewrite wrap64_id; [reflexivity|]. unfold max_int64. lia.
  - assumption.
  - intros ->. unfold ns, Timestamp.
    replace (today * ns_per_day - (today + 1) * ns_per_day) with (- ns_per_day) by lia.
    reflexivity.
Qed.

Lemma C10_witness :
  exists d,
    cell_at "days_since_restock" 2 Example.mixed_cleaned = Some (Int d)
    /\ d < 0
    /\ (Timestamp 20401 = Timestamp (Example.sample_today + 1) -> d = -1).
Proof.
  apply (C10_future_restock_is_negative (H := Example.lib)
           Example.sample_today Example.mixed_table Example.mixed_cleaned 2
           (Timestamp 20401)).
  - reflexivity.
  - vm_compute. reflexivity.
  - vm_compute. reflexivity.
  - vm_compute. reflexivity.
Defined.

(** ** The Normalizer: what is filled and what is kept *)




Lemma column_assoc (c : string) (df : DataFrame) (i : nat) (x : cell) :
  cell_at c i df = Some x ->
  exists vs, assoc c (data df) = Some vs /\ nth_error vs i = Some x.
Proof.
  unfold cell_at, column. destruct (assoc c (data df)) as [vs|].
  - intros Hx. now exists vs.
  - destruct i; discriminate.
Qed.





(** ** The call is an update in place *)

Lemma mapM_Raise {A B : Type} (f : A -> result B) (l : list A) (e : exn) :
  mapM f l = Raise e -> exists j x, nth_error l j = Some x /\ f x = Raise e.
Proof.
  induction l as [|a l IH]; simpl; [discriminate|].
  destruct (f a) as [y|e'] eqn:Ea.
  - destruct (mapM f l) as [ys|e'']; [discriminate|].
    intros [= <-]. destruct (IH eq_refl) as (j & x & Hx & Hfx).
    now exists (S j), x.
  - intros [= <-]. now exists O, a.
Qed.

Lemma float_trunc_None (f : float) :
  float_trunc f = None -> PrimFloat.is_nan f = false -> PrimFloat.is_infinity f = true.
Proof.
  unfold float_trunc, Prim2SF. intros Ht Hn. rewrite Hn in Ht.
  destruct (PrimFloat.is_zero f); [discriminate|].
  destruct (PrimFloat.is_infinity f); [reflexivity|].
  destruct (Z.frexp f) as [r ex].
  destruct (shr_fexp _ _ _ _ _) as [sh e'].
  destruct (shr_m sh); discriminate.
Qed.

Lemma to_datetime_cell_cases `{Lib} (c : cell) :
  to_datetime_cell c = Null
  \/ (exists t, to_datetime_cell c = Ts t)
  \/ (exists t offset, to_datetime_cell c = Tsz t offset).
Proof.
  destruct c; simpl;
    repeat match goal with
           | |- context [match ?x with _ => _ end] => destruct x
           | |- context [if ?x then _ else _] => destruct x
           end;
    solve [ now left
          | right; left; eexists; reflexivity
          | right; right; do 2 eexists; reflexivity ].
Qed.

Lemma contains_setcol (c c' : string) (vs : list cell) (df : DataFrame) :
  contains c (setcol c' vs df) = String.eqb c c' || contains c df.
Proof.
  rewrite !contains_assoc, assoc_setcol.
  destruct (String.eqb c c'); reflexivity.
Qed.

Lemma mapM_returns {A B : Type} (f : A -> result B) (l : list A) :
  (forall x, In x l -> exists y, f x = Ok y) -> exists ys, mapM f l = Ok ys.
Proof.
  induction l as [|a l IH]; intros Hf; simpl; [now exists []|].
  destruct (Hf a (or_introl eq_refl)) as [y ->].
  destruct IH as [ys ->]; [intros x Hx; apply Hf; now right|].
  now exists (y :: ys).
Qed.

Lemma to_numeric_values `{Lib} (ix : list nat) (vs : list cell) :
  s_values (to_numeric (mkSeries ix vs)) = numeric_values vs.
Proof. reflexivity. Qed.

(** The integer cast of [quantity] returns unless a quantity reads as an
    infinite number. *)
Lemma coerced_quantity_returns `{Lib} (df : DataFrame) :
  finite_quantities df = true -> exists q, coerced_quantity df = Ok q.
Proof.
  unfold finite_quantities, coerced_quantity, column.
  rewrite to_numeric_values.
  destruct (assoc "quantity" (data df)) as [vs|]; [|intros _; eauto].
  intros Hfin. rewrite forallb_forall in Hfin.
  apply mapM_returns. intros x Hx.
  apply in_map_iff in Hx as (y & <- & Hy).
  pose proof (numeric_values_numeric vs) as Hn.
  rewrite List.Forall_forall in Hn.
  specialize (Hn y Hy). specialize (Hfin y Hy).
  unfold fill. destruct y as [| |z|f| | | | |]; try discriminate; simpl.
  - eauto.
  - eauto.
  - destruct (PrimFloat.is_nan f) eqn:Enan; simpl; [eauto|].
    unfold int64_of_float. destruct (float_trunc f) as [z|] eqn:Et; [eauto|].
    rewrite (float_trunc_None f Et Enan) in Hfin. discriminate.
Qed.

(** The date difference returns unless a restock date has a UTC offset or
    is too far from today. *)
Lemma rsub_timestamp_returns `{Lib} (today : Z) (df : DataFrame) :
  plain_restock_dates today df = true ->
  exists td, mapM (rsub_timestamp_cell (Timestamp today)) (parsed_restock df) = Ok td.
Proof.
  unfold plain_restock_dates, parsed_restock, column.
  destruct (assoc "last_restock" (data df)) as [vs|].
  - intros Hplain. rewrite forallb_forall in Hplain.
    apply mapM_returns. intros x Hx.
    apply in_map_iff in Hx as (c & <- & Hc).
    specialize (Hplain c Hc).
    destruct (to_datetime_cell_cases c) as [E|[[t E]|(t & offset & E)]];
      rewrite E in *; simpl.
    + eauto.
    + rewrite Hplain. eauto.
    + discriminate.
  - intros _. apply mapM_returns. intros x Hx.
    apply repeat_spec in Hx. subst x. simpl. eauto.
Qed.

(** Where the call raises, and what it leaves in the caller's table: on a
    [quantity] that reads as an infinite number, before anything is
    assigned; on a restock date with a UTC offset or too far from today,
    after [value] is assigned. *)
Lemma clean_and_transform_raises `{Lib} (today : Z) (df df' : DataFrame) (e : exn) :
  clean_and_transform today df = (Raise e, df') ->
  (e = IntCastingNaNError /\ df' = df
   /\ exists j f,
       nth_error (s_values (to_numeric (mkSeries (index df) (column "quantity" df)))) j
       = Some (Flt f)
       /\ PrimFloat.is_infinity f = true)
  \/ (e = OverflowError
      /\ exists j t, cell_at "last_restock" j df' = Some (Ts t)
                     /\ in_timestamp (Timestamp today - t) = false)
  \/ (e = TypeError
      /\ exists j t offset, cell_at "last_restock" j df' = Some (Tsz t offset)).
Proof.
  intros Hrun.
  destruct (empty df) eqn:He.
  { unfold clean_and_transform in Hrun. rewrite bind_gets, He in Hrun. discriminate. }
  rewrite (clean_and_transform_unfold today df He) in Hrun.
  destruct (coerced_quantity df) as [qs|e0] eqn:Hq.
  - right.
    destruct (mapM _ (parsed_restock df)) as [td|e1] eqn:Htd; [discriminate|].
    injection Hrun as <- <-.
    destruct (mapM_Raise _ _ _ Htd) as (j & x & Hx & Hsub).
    assert (Hat : cell_at "last_restock" j (with_value df qs) = Some x).
    { unfold cell_at, column, with_value. rewrite !assoc_setcol. string_eqb.
      assumption. }
    assert (Hcases : x = Null \/ (exists t, x = Ts t) \/ (exists t offset, x = Tsz t offset)).
    { unfold parsed_restock in Hx.
      destruct (assoc "last_restock" (data df)) as [vs|].
      - rewrite nth_error_map in Hx.
        destruct (nth_error vs j) as [c|]; [|discriminate].
        injection Hx as <-. apply to_datetime_cell_cases.
      - apply nth_error_In, repeat_spec in Hx. now left. }
    destruct Hcases as [->|[[t ->]|(t & offset & ->)]]; [discriminate| |].
    + left. simpl in Hsub.
      destruct (in_timestamp (Timestamp today - t)) eqn:Ein; [discriminate|].
      injection Hsub as <-. split; [reflexivity|]. now exists j, t.
    + right. simpl in Hsub. injection Hsub as <-.
      split; [reflexivity|]. now exists j, t, offset.
  - left. injection Hrun as <- <-.
    unfold coerced_quantity, column in *.
    destruct (assoc "quantity" (data df)) as [vs|]; [|discriminate].
    destruct (mapM_Raise _ _ _ Hq) as (j & x & Hx & Hcast).
    rewrite nth_error_map in Hx.
    destruct (nth_error (numeric_values vs) j) as [y|] eqn:Ey; [|discriminate].
    injection Hx as <-.
    pose proof (numeric_values_numeric vs) as Hn.
    rewrite List.Forall_forall in Hn.
    specialize (Hn y (nth_error_In _ _ Ey)).
    unfold fill in Hcast.
    destruct y as [| | z | f | | | | |]; try discriminate.
    simpl in Hcast. destruct (PrimFloat.is_nan f) eqn:Enan; [discriminate|].
    simpl in Hcast. unfold int64_of_float in Hcast.
    destruct (float_trunc f) eqn:Et; [discriminate|].
    injection Hcast as <-. split; [reflexivity|]. split; [reflexivity|].
    exists j, f. split; [exact Ey|].
    now apply float_trunc_None.
Qed.

(** C8 (amended). [clean_and_transform] is a function of the table it is
    given and of the current date, but it is no pure function of the
    table: it assigns into the caller's table and returns that same
    object.  After the call the caller's table holds whatever the body
    assigned (no other object changes; an empty table is left as it is);
    on a non-empty table that is the seven cleaned columns.  It returns,
    coercing what is missing, of another type or unparseable, on every
    table in which no [quantity] reads as an infinite number and every
    [last_restock] that reads as a date reads as one without a UTC offset
    and less than 2^63 ns away from today. *)
Theorem C8_clean_and_transform_updates_in_place `{Lib} (today : Z) (r : loc) (h : heap)
    (df : DataFrame) :
  h !! r = Some df ->
  exists res df',
    clean_and_transform today df = (res, df')
    /\ call_clean_and_transform today r h
       = (match res with Ok _ => Ok r | Raise e => Raise e end, <[r := df']> h)
    /\ (forall r', r' <> r -> (<[r := df']> h) !! r' = h !! r')
    /\ (empty df = true -> res = Ok tt /\ df' = df)
    /\ (empty df = false -> res = Ok tt ->
        forall c, In c ["quantity"; "price"; "last_restock"; "name"; "sku"; "value";
                        "days_since_restock"] ->
                  contains c df' = true)
    /\ (finite_quantities df = true -> plain_restock_dates today df = true ->
        res = Ok tt).
Proof.
  intros Hr.
  destruct (clean_and_transform today df) as [res df'] eqn:Hrun.
  exists res, df'. split; [reflexivity|]. split; [|split; [|split; [|split]]].
  - unfold call_clean_and_transform, deref. rewrite Hr, Hrun.
    destruct res as [[]|e]; reflexivity.
  - intros r' Hne. now apply lookup_insert_ne.
  - intros He. unfold clean_and_transform in Hrun.
    rewrite bind_gets, He in Hrun. unfold ret in Hrun. now injection Hrun as <- <-.
  - intros He -> c Hc.
    destruct (clean_and_transform_Ok today df df' He Hrun) as (qs & td & _ & _ & ->).
    unfold cleaned, with_value. rewrite !contains_setcol.
    simpl in Hc.
    repeat (destruct Hc as [<-|Hc]; [string_eqb; reflexivity|]).
    contradiction.
  - intros Hfin Hplain.
    destruct (empty df) eqn:He.
    { unfold clean_and_transform in Hrun. rewrite bind_gets, He in Hrun.
      unfold ret in Hrun. now injection Hrun as <- _. }
    rewrite (clean_and_transform_unfold today df He) in Hrun.
    destruct (coerced_quantity_returns df Hfin) as [q Hq].
    destruct (rsub_timestamp_returns today df Hplain) as [td Htd].
    rewrite Hq, Htd in Hrun. now injection Hrun as <- _.
Qed.

Lemma C8_witness :
  Example.heap0 !! 1%nat = Some Example.sample_table
  /\ finite_quantities (H := Example.lib) Example.sample_table = true
  /\ plain_restock_dates (H := Example.lib) Example.sample_today Example.sample_table = true
  /\ exists res df',
    clean_and_transform (H := Example.lib) Example.sample_today Example.sample_table
    = (res, df')
    /\ call_clean_and_transform (H := Example.lib) Example.sample_today 1%nat Example.heap0
       = (match res with Ok _ => Ok 1%nat | Raise e => Raise e end,
          <[1%nat := df']> Example.heap0)
    /\ (forall r', r' <> 1%nat -> (<[1%nat := df']> Example.heap0) !! r' = Example.heap0 !! r')
    /\ (empty Example.sample_table = true -> res = Ok tt /\ df' = Example.sample_table)
    /\ (empty Example.sample_table = false -> res = Ok tt ->
        forall c, In c ["quantity"; "price"; "last_restock"; "name"; "sku"; "value";
                        "days_since_restock"] ->
                  contains c df' = true)
    /\ (finite_quantities (H := Example.lib) Example.sample_table = true ->
        plain_restock_dates (H := Example.lib) Example.sample_today Example.sample_table = true ->
        res = Ok tt).
Proof.
  split; [reflexivity|].
  split; [vm_compute; reflexivity|].
  split; [vm_compute; reflexivity|].
  apply (C8_clean_and_transform_updates_in_place (H := Example.lib)
           Example.sample_today 1%nat Example.heap0 Example.sample_table).
  reflexivity.
Defined.

(** C8 fails as stated: the table the caller passes is not left unchanged.
    After [df = clean_and_transform(df_raw)] the object [df_raw] refers to
    holds three more columns than before. *)
Lemma C8_counterexample :
  Example.heap0 !! 1%nat = Some Example.sample_table
  /\ call_clean_and_transform (H := Example.lib) Example.sample_today 1%nat Example.heap0
     = (Ok 1%nat, <[1%nat := Example.sample_cleaned]> Example.heap0)
  /\ (<[1%nat := Example.sample_cleaned]> Example.heap0) !! 1%nat
     = Some Example.sample_cleaned
  /\ columns Example.sample_table
     = ["sku"; "name"; "category"; "quantity"; "price"; "supplier"; "last_restock"; "id"]
  /\ columns Example.sample_cleaned
     = ["sku"; "name"; "category"; "quantity"; "price"; "supplier"; "last_restock"; "id";
        "value"; "days_since_restock"]
  /\ Example.sample_cleaned <> Example.sample_table.
Proof.
  split; [reflexivity|]. split; [|split; [|split; [|split]]].
  - assert (D : deref Example.heap0 1%nat = Example.sample_table) by reflexivity.
    unfold call_clean_and_transform. rewrite D.
    assert (E : clean_and_transform (H := Example.lib) Example.sample_today
                  Example.sample_table = (Ok tt, Example.sample_cleaned))
      by (vm_compute; reflexivity).
    rewrite E. reflexivity.
  - apply lookup_insert_eq.
  - vm_compute. reflexivity.
  - vm_compute. reflexivity.
  - intros E. apply (f_equal columns) in E. vm_compute in E. discriminate E.
Qed.

(** The call also raises on stored data: an infinite quantity. *)
Example clean_and_transform_raises_on_infinity :
  clean_and_transform (H := Example.lib) Example.sample_today Example.infinite_table
  = (Raise IntCastingNaNError, Example.infinite_table).
Proof. vm_compute. reflexivity. Qed.

(** It raises on a restock date written with a UTC offset, and leaves the
    caller's table half cleaned: [value] is assigned, [days_since_restock]
    is not. *)
Example clean_and_transform_raises_on_utc_offset :
  exists df',
    clean_and_transform (H := Example.lib) Example.sample_today Example.utc_table
    = (Raise TypeError, df')
    /\ column "last_restock" df' = [Tsz (Timestamp 20362) 0]
    /\ contains "value" df' = true
    /\ contains "days_since_restock" df' = false.
Proof. eexists. split; [vm_compute; reflexivity|]. now vm_compute. Qed.

(** ** Running the Normalizer twice *)

(** C7 on a collection in which no document has a name: the first run
    leaves the [name] column missing in every row, the second run fills it
    with "Unknown", so the second run changes the table. *)
Theorem C7_second_run_differs_without_name :
  contains "name" Example.nameless_table = false
  /\ clean_and_transform (H := Example.lib) Example.sample_today Example.nameless_table
     = (Ok tt, Example.nameless_once)
  /\ clean_and_transform (H := Example.lib) Example.sample_today Example.nameless_once
     = (Ok tt, Example.nameless_twice)
  /\ column "name" Example.nameless_once = [Null]
  /\ column "name" Example.nameless_twice = [Str "Unknown"]
  /\ Example.nameless_twice <> Example.nameless_once.
Proof.
  split; [vm_compute; reflexivity|].
  split; [vm_compute; reflexivity|].
  split; [vm_compute; reflexivity|].
  split; [vm_compute; reflexivity|].
  split; [vm_compute; reflexivity|].
  intros E. apply (f_equal (column "name")) in E. vm_compute in E. discriminate E.
Qed.

(** ** CSV headers *)

Lemma columns_setcol (c : string) (vs : list cell) (df : DataFrame) :
  columns (setcol c vs df) = add_column (columns df) c.
Proof. unfold columns, add_column, setcol; simpl. apply keys_assoc_set. Qed.

Lemma existsb_snoc (c k : string) (l : list string) :
  existsb (String.eqb c) (l ++ [k]) = existsb (String.eqb c) l || String.eqb c k.
Proof. rewrite existsb_app. simpl. now rewrite orb_false_r. Qed.

(** A column is appended when the table does not have it yet, and keeps
    its place otherwise. *)
Lemma add_columns (cs : list string) :
  List.NoDup cs ->
  forall l,
    fold_left add_column cs l
    = l ++ List.filter (fun c => negb (existsb (String.eqb c) l)) cs.
Proof.
  induction 1 as [|c cs Hc _ IH]; intros l; simpl; [now rewrite app_nil_r|].
  rewrite IH. unfold add_column.
  destruct (existsb (String.eqb c) l) eqn:Ec; simpl; [reflexivity|].
  rewrite <- app_assoc. simpl. do 2 f_equal.
  apply filter_ext_in. intros k Hk. rewrite existsb_snoc.
  destruct (String.eqb k c) eqn:Ekc; [|now rewrite orb_false_r].
  apply String.eqb_eq in Ekc. subst k. contradiction.
Qed.

Lemma columns_cleaned `{Lib} (df : DataFrame) (q td : list cell) :
  columns (cleaned df q td)
  = columns df ++ List.filter (fun c => negb (contains c df)) ASSIGNED.
Proof.
  unfold contains. rewrite <- add_columns.
  - unfold cleaned, with_value. rewrite !columns_setcol. reflexivity.
  - unfold ASSIGNED.
    repeat (constructor; [simpl; intuition discriminate|]). constructor.
Qed.

Lemma mapM_ok_map {A B : Type} (f : A -> result B) (g : A -> B) (l : list A) :
  (forall x, In x l -> f x = Ok (g x)) -> mapM f l = Ok (List.map g l).
Proof.
  induction l as [|a l IH]; intros Hf; simpl; [reflexivity|].
  rewrite (Hf a) by now left. rewrite IH; [reflexivity|].
  intros x Hx. apply Hf. now right.
Qed.

Lemma getitems_present (cols : list string) (df : DataFrame) :
  (forall c, In c cols -> contains c df = true) ->
  exists view,
    getitems cols df = Ok view /\ index view = index df /\ columns view = cols.
Proof.
  intros Hc. unfold getitems.
  rewrite (mapM_ok_map _ (fun c => (c, column c df))).
  - eexists. split; [reflexivity|]. split; [reflexivity|].
    unfold columns; simpl. rewrite map_map. simpl. apply map_id.
  - intros c Hin. specialize (Hc c Hin). rewrite contains_assoc in Hc.
    unfold column. now destruct (assoc c (data df)).
Qed.



Lemma empty_cleaned `{Lib} (df : DataFrame) (q td : list cell) :
  empty df = false -> empty (cleaned df q td) = false.
Proof. intros He. unfold cleaned, with_value. now repeat apply empty_setcol. Qed.




(** ** int64 sums *)

Lemma wrap64_add_l (x y : Z) : wrap64 (wrap64 x + y) = wrap64 (x + y).
Proof.
  unfold wrap64.
  replace ((x + 2 ^ 63) mod 2 ^ 64 - 2 ^ 63 + y + 2 ^ 63)
    with ((x + 2 ^ 63) mod 2 ^ 64 + y) by lia.
  rewrite Z.add_mod_idemp_l by lia.
  f_equal. f_equal. lia.
Qed.

Lemma wrap64_add_r (x y : Z) : wrap64 (x + wrap64 y) = wrap64 (x + y).
Proof. rewrite (Z.add_comm x (wrap64 y)), wrap64_add_l. f_equal. lia. Qed.

Lemma sum_int64_from (cs : list cell) (a : Z) :
  fold_left (fun a c => match c with
                        | Int z => wrap64 (a + z)
                        | Bool true => wrap64 (a + 1)
                        | _ => a
                        end) cs (wrap64 a)
  = wrap64 (a + int_total cs).
Proof.
  revert a. induction cs as [|c cs IH]; intros a; simpl.
  - f_equal. lia.
  - destruct c as [|[]|z| | | | | |]; simpl;
      rewrite ?wrap64_add_l, IH; f_equal; lia.
Qed.

(** An int64 sum is the exact total, wrapped once. *)
Lemma sum_int64_total (cs : list cell) : sum_int64 cs = wrap64 (int_total cs).
Proof. unfold sum_int64. change 0 with (wrap64 0) at 1. apply sum_int64_from. Qed.

Lemma int_total_app (l1 l2 : list cell) :
  int_total (l1 ++ l2) = int_total l1 + int_total l2.
Proof. induction l1 as [|c l1 IH]; simpl; [reflexivity|]. rewrite IH. lia. Qed.

Lemma int_total_Permutation (l1 l2 : list cell) :
  Permutation l1 l2 -> int_total l1 = int_total l2.
Proof. induction 1; simpl; lia. Qed.

Lemma pick_app {A : Type} (d : A) (l : list A) (r1 r2 : list nat) :
  pick d l (r1 ++ r2) = pick d l r1 ++ pick d l r2.
Proof. apply map_app. Qed.

(** Summing the per-group int64 sums gives the int64 sum over all the
    groups' rows. *)
Lemma sum_of_group_sums (q : list cell) (members : list (list nat)) :
  sum_int64 (List.map (fun rows => Int (sum_int64 (pick Null q rows))) members)
  = sum_int64 (pick Null q (concat members)).
Proof.
  rewrite !sum_int64_total.
  induction members as [|rows members IH]; simpl; [reflexivity|].
  rewrite pick_app, int_total_app, sum_int64_total.
  rewrite wrap64_add_l, <- wrap64_add_r, IH, wrap64_add_r. reflexivity.
Qed.

(** ** Groups *)

Lemma add_to_group_rows (k : cell) (i : nat) (gs : list (cell * list nat)) :
  Permutation (concat (List.map snd (add_to_group k i gs)))
              (concat (List.map snd gs) ++ [i]).
Proof.
  induction gs as [|[k' rows] gs IH]; simpl; [reflexivity|].
  destruct (key_eqb k' k); simpl.
  - rewrite <- !app_assoc. apply Permutation_app_head.
    apply Permutation_app_comm.
  - rewrite <- app_assoc. now apply Permutation_app_head.
Qed.

Lemma add_to_group_keys (k : cell) (i : nat) (gs : list (cell * list nat)) (P : cell -> Prop) :
  P k -> List.Forall (fun g => P (fst g)) gs ->
  List.Forall (fun g => P (fst g)) (add_to_group k i gs).
Proof.
  intros Hk. induction 1 as [|[k' rows] gs Hg Hgs IH]; simpl.
  - constructor; [assumption|constructor].
  - destruct (key_eqb k' k); constructor; assumption.
Qed.

Lemma fold_group_step_rows (l : list (nat * cell)) (gs : list (cell * list nat)) :
  Permutation
    (concat (List.map snd (fold_left group_step l gs)))
    (concat (List.map snd gs)
     ++ List.map fst (List.filter (fun ik => negb (isna (snd ik))) l)).
Proof.
  revert gs. induction l as [|[i k] l IH]; intros gs; simpl.
  - now rewrite app_nil_r.
  - rewrite IH. unfold group_step; simpl.
    destruct (isna k); simpl; [reflexivity|].
    rewrite add_to_group_rows, <- app_assoc. reflexivity.
Qed.

Lemma fold_group_step_keys (l : list (nat * cell)) (gs : list (cell * list nat)) :
  List.Forall (fun g => isna (fst g) = false) gs ->
  List.Forall (fun g => isna (fst g) = false) (fold_left group_step l gs).
Proof.
  revert gs. induction l as [|[i k] l IH]; intros gs Hgs; simpl; [assumption|].
  apply IH. unfold group_step; simpl.
  destruct (isna k) eqn:Ek; [assumption|].
  now apply (add_to_group_keys k i gs (fun c => isna c = false)).
Qed.

Lemma insert_group_Permutation (g : cell * list nat) (gs : list (cell * list nat)) :
  Permutation (insert_group g gs) (g :: gs).
Proof.
  induction gs as [|g' gs IH]; simpl; [reflexivity|].
  destruct (key_leb (fst g) (fst g')); [reflexivity|].
  rewrite IH. apply perm_swap.
Qed.

Lemma sort_groups_Permutation (gs : list (cell * list nat)) :
  Permutation (sort_groups gs) gs.
Proof.
  induction gs as [|g gs IH]; simpl; [reflexivity|].
  rewrite insert_group_Permutation. now constructor.
Qed.

Lemma concat_rows_Permutation (gs gs' : list (cell * list nat)) :
  Permutation gs gs' ->
  Permutation (concat (List.map snd gs)) (concat (List.map snd gs')).
Proof.
  induction 1 as [|g l l' _ IH|g g' l|l l' l'' _ IH1 _ IH2]; simpl.
  - reflexivity.
  - now apply Permutation_app_head.
  - rewrite !app_assoc. apply Permutation_app_tail, Permutation_app_comm.
  - now rewrite IH1.
Qed.

Lemma present_of_combine (keys : list cell) (s : nat) :
  List.map fst (List.filter (fun ik => negb (isna (snd ik)))
                            (combine (seq s (length keys)) keys))
  = List.filter (fun i => negb (isna (nth (i - s) keys Null))) (seq s (length keys)).
Proof.
  revert s. induction keys as [|k keys IH]; intros s; [reflexivity|].
  assert (Hrest :
    List.filter (fun i => negb (isna (nth (i - s) (k :: keys) Null)))
                (seq (S s) (length keys))
    = List.filter (fun i => negb (isna (nth (i - S s) keys Null)))
                  (seq (S s) (length keys))).
  { apply filter_ext_in. intros i Hi. apply in_seq in Hi.
    replace (i - s)%nat with (S (i - S s)) by lia. reflexivity. }
  cbn [length seq combine List.filter snd].
  rewrite Nat.sub_diag. cbn [nth].
  destruct (isna k); cbn [negb List.map fst]; rewrite IH.
  - symmetry. exact Hrest.
  - f_equal. symmetry. exact Hrest.
Qed.

(** The groups hold, together, exactly the rows whose key is present, each
    once; no group has a missing key. *)
Lemma groups_partition (keys : list cell) :
  Permutation (concat (List.map snd (groups keys))) (present_rows keys)
  /\ List.Forall (fun g => isna (fst g) = false) (groups keys).
Proof.
  unfold groups. split.
  - rewrite (concat_rows_Permutation _ _ (sort_groups_Permutation _)).
    rewrite fold_group_step_rows. simpl. rewrite present_of_combine.
    unfold present_rows. erewrite filter_ext; [reflexivity|].
    intros i. now rewrite Nat.sub_0_r.
  - eapply Permutation_Forall; [symmetry; apply sort_groups_Permutation|].
    apply fold_group_step_keys. constructor.
Qed.

Lemma sum_int64_pick_Permutation (q : list cell) (r1 r2 : list nat) :
  Permutation r1 r2 -> sum_int64 (pick Null q r1) = sum_int64 (pick Null q r2).
Proof.
  intros Hp. rewrite !sum_int64_total. f_equal.
  apply int_total_Permutation. unfold pick. now apply Permutation_map.
Qed.


Lemma present_rows_bound (keys : list cell) (i : nat) :
  In i (present_rows keys) -> (i < length keys)%nat.
Proof.
  unfold present_rows. intros Hi. apply filter_In in Hi as [Hi _].
  apply in_seq in Hi. lia.
Qed.




(** ** Sorting *)

Lemma nodupb_NoDup (l : list nat) : nodupb l = true -> List.NoDup l.
Proof.
  induction l as [|x l IH]; simpl; intros Hl; constructor.
  - apply andb_true_iff in Hl as [Hx _]. intros Hin.
    apply negb_true_iff in Hx.
    assert (Hex : existsb (Nat.eqb x) l = true).
    { apply existsb_exists. exists x. split; [assumption|apply Nat.eqb_refl]. }
    congruence.
  - apply IH. now apply andb_true_iff in Hl as [_ Hl].
Qed.

(** A checked argsort is a permutation of the positions, in key order. *)
Lemma is_argsort_facts (keys : list cell) (ix : list nat) :
  is_argsort keys ix = true ->
  Permutation ix (seq 0 (length keys))
  /\ ascendingb keys ix = true
  /\ (forall i, In i ix -> (i < length keys)%nat).
Proof.
  unfold is_argsort. intros Hc.
  apply andb_true_iff in Hc as [Hc Hasc].
  apply andb_true_iff in Hc as [Hc Hnd].
  apply andb_true_iff in Hc as [Hlen Hlt].
  apply Nat.eqb_eq in Hlen.
  assert (Hb : forall i, In i ix -> (i < length keys)%nat).
  { intros i Hi. rewrite forallb_forall in Hlt. now apply Nat.ltb_lt, Hlt. }
  split; [|split; assumption].
  apply Permutation.NoDup_Permutation_bis.
  - now apply nodupb_NoDup.
  - rewrite length_seq. lia.
  - intros i Hi. apply in_seq. specialize (Hb i Hi). lia.
Qed.

Lemma nonzero_from_filter (mask : list bool) (s : nat) :
  nonzero_from s mask
  = List.filter (fun i => nth (i - s) mask false) (seq s (length mask)).
Proof.
  revert s. induction mask as [|b mask IH]; intros s; [reflexivity|].
  assert (Hrest :
    List.filter (fun i => nth (i - s) (b :: mask) false) (seq (S s) (length mask))
    = List.filter (fun i => nth (i - S s) mask false) (seq (S s) (length mask))).
  { apply filter_ext_in. intros i Hi. apply in_seq in Hi.
    replace (i - s)%nat with (S (i - S s)) by lia. reflexivity. }
  cbn [nonzero_from length seq List.filter].
  rewrite Nat.sub_diag, IH. cbn [nth].
  destruct b.
  - f_equal. symmetry. exact Hrest.
  - symmetry. exact Hrest.
Qed.

Lemma nonzero_map (f : cell -> bool) (items : list cell) :
  nonzero (List.map f items)
  = List.filter (fun i => f (nth i items Null)) (seq 0 (length items)).
Proof.
  unfold nonzero. rewrite nonzero_from_filter, length_map.
  apply filter_ext_in. intros i Hi. apply in_seq in Hi.
  rewrite Nat.sub_0_r.
  rewrite (nth_indep _ false (f Null)) by (rewrite length_map; lia).
  apply map_nth.
Qed.

Lemma map_nth_seq {A : Type} (d : A) (l : list A) (s : nat) :
  List.map (fun k => nth (k - s) l d) (seq s (length l)) = l.
Proof.
  revert s. induction l as [|a l IH]; intros s; [reflexivity|].
  cbn [length seq List.map]. rewrite Nat.sub_diag. cbn [nth]. f_equal.
  rewrite <- (IH (S s)) at 2. apply map_ext_in. intros k Hk. apply in_seq in Hk.
  replace (k - s)%nat with (S (k - S s)) by lia. reflexivity.
Qed.

(** Reading a list along a permutation of its positions permutes it. *)
Lemma pick_Permutation {A : Type} (d : A) (l : list A) (ix : list nat) :
  Permutation ix (seq 0 (length l)) -> Permutation (pick d l ix) l.
Proof.
  intros Hp. unfold pick.
  rewrite (Permutation_map (fun k => nth k l d) Hp).
  rewrite <- (map_nth_seq d l 0) at 2.
  erewrite map_ext; [reflexivity|]. intros k. cbv beta. now rewrite Nat.sub_0_r.
Qed.

Lemma filter_pick (P : cell -> bool) (l : list cell) (s : nat) :
  List.filter P l
  = List.map (fun i => nth (i - s) l Null)
             (List.filter (fun i => P (nth (i - s) l Null)) (seq s (length l))).
Proof.
  revert s. induction l as [|a l IH]; intros s; [reflexivity|].
  assert (Hrest :
    List.filter (fun i => P (nth (i - s) (a :: l) Null)) (seq (S s) (length l))
    = List.filter (fun i => P (nth (i - S s) l Null)) (seq (S s) (length l))).
  { apply filter_ext_in. intros i Hi. apply in_seq in Hi.
    replace (i - s)%nat with (S (i - S s)) by lia. reflexivity. }
  assert (Hmap : forall r,
    (forall i, In i r -> (S s <= i)%nat) ->
    List.map (fun i => nth (i - s) (a :: l) Null) r
    = List.map (fun i => nth (i - S s) l Null) r).
  { intros r Hr. apply map_ext_in. intros i Hi. specialize (Hr i Hi).
    replace (i - s)%nat with (S (i - S s)) by lia. reflexivity. }
  cbn [length seq List.filter]. rewrite Nat.sub_diag. cbn [nth].
  change (List.filter (fun i => P match (i - s)%nat with
                                  | O => a
                                  | S m => nth m l Null
                                  end) (seq (S s) (length l)))
    with (List.filter (fun i => P (nth (i - s) (a :: l) Null)) (seq (S s) (length l))).
  rewrite Hrest.
  assert (Hge : forall i,
    In i (List.filter (fun i => P (nth (i - S s) l Null)) (seq (S s) (length l))) ->
    (S s <= i)%nat).
  { intros i Hi. apply filter_In in Hi as [Hi _]. apply in_seq in Hi. lia. }
  destruct (P a); cbn [List.map]; rewrite ?Nat.sub_diag; cbn [nth];
    rewrite (IH (S s)); rewrite <- (Hmap _ Hge); reflexivity.
Qed.

Lemma nargsort_input_pick (items : list cell) :
  List.filter (fun c => negb (isna c)) items = pick Null items (present_rows items).
Proof.
  rewrite (filter_pick _ items 0). unfold pick, present_rows.
  erewrite map_ext; [|intros i; cbv beta; now rewrite Nat.sub_0_r].
  f_equal. apply filter_ext. intros i. now rewrite Nat.sub_0_r.
Qed.

Lemma nth_pick (keys : list cell) (m : list nat) (k : nat) :
  (k < length m)%nat -> nth k (pick Null keys m) Null = nth (nth k m O) keys Null.
Proof.
  intros Hk. unfold pick.
  rewrite (nth_indep _ Null (nth O keys Null)) by (rewrite length_map; lia).
  apply (map_nth (fun j => nth j keys Null)).
Qed.

Lemma chainb_ext (R R' : nat -> nat -> bool) (ix : list nat) :
  (forall i j, In i ix -> In j ix -> R i j = R' i j) -> chainb R ix = chainb R' ix.
Proof.
  induction ix as [|i ix IH]; intros HR; [reflexivity|].
  destruct ix as [|j ix]; [reflexivity|].
  cbn [chainb]. rewrite (HR i j) by (simpl; tauto).
  f_equal. apply IH. intros a b Ha Hb. apply HR; now right.
Qed.

Lemma chainb_map (R : nat -> nat -> bool) (f : nat -> nat) (ix : list nat) :
  chainb R (List.map f ix) = chainb (fun i j => R (f i) (f j)) ix.
Proof.
  induction ix as [|i ix IH]; [reflexivity|].
  destruct ix as [|j ix]; [reflexivity|].
  cbn [List.map chainb] in *. now rewrite IH.
Qed.

Lemma chainb_snoc (R : nat -> nat -> bool) (ix : list nat) (a b : nat) :
  chainb R ((ix ++ [a]) ++ [b]) = chainb R (ix ++ [a]) && R a b.
Proof.
  induction ix as [|i ix IH]; simpl; [now rewrite andb_true_r|].
  destruct ix as [|j ix]; simpl in *.
  - now rewrite !andb_true_r.
  - rewrite IH. now rewrite andb_assoc.
Qed.

(** Reversing a chain reverses its relation. *)
Lemma chainb_rev (R : nat -> nat -> bool) (ix : list nat) :
  chainb (fun i j => R j i) (rev ix) = chainb R ix.
Proof.
  induction ix as [|i ix IH]; [reflexivity|].
  destruct ix as [|j ix]; [reflexivity|].
  cbn [rev] in *. rewrite chainb_snoc, IH. cbn [chainb]. apply andb_comm.
Qed.

Lemma ascendingb_pick (keys : list cell) (m ix : list nat) :
  (forall k, In k ix -> (k < length m)%nat) ->
  ascendingb (pick Null keys m) ix
  = ascendingb keys (List.map (fun k => nth k m O) ix).
Proof.
  intros Hix. unfold ascendingb. rewrite chainb_map.
  apply chainb_ext. intros i j Hi Hj.
  now rewrite !nth_pick by now apply Hix.
Qed.

Lemma descendingb_rev (keys : list cell) (ix : list nat) :
  descendingb keys (rev ix) = ascendingb keys ix.
Proof.
  unfold descendingb, ascendingb.
  apply (chainb_rev (fun i j => negb (cell_ltb (nth j keys Null) (nth i keys Null)))).
Qed.

Lemma pick_length {A : Type} (d : A) (l : list A) (rows : list nat) :
  length (pick d l rows) = length rows.
Proof. apply length_map. Qed.

(** What [nargsort] returns when the library's argsort did its job: the
    rows with a present key in key order, then the rows with a missing
    key. *)
Lemma nargsort_spec `{Lib} (items : list cell) (ascending : bool) :
  argsort_ok items ascending = true ->
  exists body,
    nargsort items ascending = body ++ nonzero (List.map isna items)
    /\ Permutation body (present_rows items)
    /\ (if ascending then ascendingb items body else descendingb items body) = true.
Proof.
  unfold argsort_ok, nargsort, nargsort_input. intros Hok.
  rewrite map_map, (nonzero_map (fun c => negb (isna c))).
  fold (present_rows items).
  rewrite nargsort_input_pick in *.
  destruct ascending.
  - destruct (is_argsort_facts _ _ Hok) as (Hp & Hasc & Hb).
    rewrite pick_length in Hp. setoid_rewrite pick_length in Hb.
    eexists. split; [reflexivity|]. split.
    + now apply (pick_Permutation O (present_rows items)).
    + now rewrite <- ascendingb_pick.
  - assert (Hrev : rev (pick Null items (present_rows items))
                   = pick Null items (rev (present_rows items)))
      by (unfold pick; now rewrite map_rev).
    rewrite Hrev in Hok.
    destruct (is_argsort_facts _ _ Hok) as (Hp & Hasc & Hb).
    rewrite pick_length in Hp. setoid_rewrite pick_length in Hb.
    rewrite Hrev.
    eexists. split; [reflexivity|]. split.
    + rewrite <- Permutation_rev.
      rewrite (pick_Permutation O (rev (present_rows items)) _ Hp).
      symmetry. apply Permutation_rev.
    + rewrite descendingb_rev. now rewrite <- ascendingb_pick.
Qed.

(** ** Taking rows *)

Lemma assoc_take_rows (c : string) (m : list nat) (df : DataFrame) :
  assoc c (data (take_rows m df))
  = option_map (fun vs => pick Null vs m) (assoc c (data df)).
Proof.
  unfold take_rows; simpl.
  induction (data df) as [|[k vs] l IH]; simpl; [reflexivity|].
  destruct (String.eqb c k); [reflexivity|exact IH].
Qed.

Lemma column_take_rows (c : string) (m : list nat) (df : DataFrame) (vs : list cell) :
  assoc c (data df) = Some vs ->
  column c (take_rows m df) = pick Null vs m.
Proof. intros Ha. unfold column. now rewrite assoc_take_rows, Ha. Qed.

Lemma nth_map_in {A B : Type} (f : A -> B) (l : list A) (k : nat) (d : A) (d' : B) :
  (k < length l)%nat -> nth k (List.map f l) d' = f (nth k l d).
Proof.
  intros Hk. rewrite (nth_indep _ d' (f d)) by (rewrite length_map; lia).
  apply map_nth.
Qed.

Lemma take_take (p m : list nat) (df : DataFrame) :
  (forall k, In k p -> (k < length m)%nat) ->
  take_rows p (take_rows m df) = take_rows (pick O m p) df.
Proof.
  intros Hp. unfold take_rows, pick; simpl. f_equal.
  - rewrite map_map. apply map_ext_in. intros k Hk.
    apply (nth_map_in (fun j => nth j (index df) O)). now apply Hp.
  - rewrite map_map. apply map_ext. intros [c vs]; simpl. f_equal.
    rewrite map_map. apply map_ext_in. intros k Hk.
    apply (nth_map_in (fun j => nth j vs Null)). now apply Hp.
Qed.

Lemma head_take (n : nat) (p : list nat) (df : DataFrame) :
  head n (take_rows p df) = take_rows (firstn n p) df.
Proof.
  unfold head, take_rows; simpl. f_equal.
  - now rewrite firstn_map.
  - rewrite map_map. apply map_ext. intros [c vs]; simpl.
    now rewrite firstn_map.
Qed.

Lemma filter_partition {A : Type} (P : A -> bool) (l : list A) :
  Permutation (List.filter (fun x => negb (P x)) l ++ List.filter P l) l.
Proof.
  induction l as [|a l IH]; simpl; [reflexivity|].
  destruct (P a); simpl.
  - rewrite <- Permutation_middle. now constructor.
  - now constructor.
Qed.

Lemma present_rows_all (vs : list cell) :
  forallb is_int vs = true ->
  present_rows vs = seq 0 (length vs) /\ nonzero (List.map isna vs) = [].
Proof.
  intros Hint.
  assert (Hn : forall i, In i (seq 0 (length vs)) -> isna (nth i vs Null) = false).
  { intros i Hi. apply in_seq in Hi. rewrite forallb_forall in Hint.
    assert (Hc : is_int (nth i vs Null) = true) by (apply Hint, nth_In; lia).
    now destruct (nth i vs Null). }
  split.
  - unfold present_rows.
    rewrite (filter_ext_in _ (fun _ => true)).
    + clear. induction (seq 0 (length vs)); simpl; congruence.
    + intros i Hi. now rewrite Hn.
  - rewrite nonzero_map. rewrite (filter_ext_in _ (fun _ => false)).
    + clear. induction (seq 0 (length vs)); simpl; congruence.
    + intros i Hi. now rewrite Hn.
Qed.

Lemma pick_is_int (vs : list cell) (m : list nat) :
  forallb is_int vs = true ->
  (forall i, In i m -> (i < length vs)%nat) ->
  forallb is_int (pick Null vs m) = true.
Proof.
  intros Hint Hm. apply forallb_forall. intros c Hc.
  unfold pick in Hc. apply in_map_iff in Hc as (i & <- & Hi).
  rewrite forallb_forall in Hint. apply Hint, nth_In. now apply Hm.
Qed.

Lemma in_firstn {A : Type} (n : nat) (l : list A) (x : A) :
  In x (firstn n l) -> In x l.
Proof.
  intros Hx. rewrite <- (firstn_skipn n l). apply in_or_app. now left.
Qed.

(** ** Low stock *)

(** C6. Low-stock selection on a table whose quantities are integers (as
    [clean_and_transform] leaves them): the rows with [quantity <=
    threshold], exactly those, in ascending order of quantity, cut to the
    first 20. *)
Theorem C6_low_stock_selection `{Lib} (low_stock_thresh : Z) (df out : DataFrame) :
  wf df = true ->
  forallb is_int (column "quantity" df) = true ->
  low low_stock_thresh df = Some (Ok out) ->
  argsort_ok
    (column "quantity"
       (getitem_mask (le_scalar (mkSeries (index df) (column "quantity" df))
                                (Int low_stock_thresh)) df))
    true = true ->
  exists sorted,
    Permutation sorted
      (List.filter (fun i => cell_leb (nth i (column "quantity" df) Null)
                                      (Int low_stock_thresh))
                   (seq 0 (nrows df)))
    /\ ascendingb (column "quantity" df) sorted = true
    /\ out = take_rows (firstn 20 sorted) df
    /\ nrows out = Nat.min 20 (length sorted).
Proof.
  intros Hw Hint Hlow Hok.
  unfold low in Hlow.
  destruct (contains "quantity" df) eqn:Hc; [|discriminate].
  rewrite contains_assoc in Hc.
  destruct (assoc "quantity" (data df)) as [vs|] eqn:Ea; [|discriminate].
  assert (Cq : column "quantity" df = vs) by (unfold column; now rewrite Ea).
  rewrite Cq in *.
  rewrite (getitem_assoc _ _ _ Ea) in Hlow.
  set (m := nonzero (le_scalar (mkSeries (index df) vs) (Int low_stock_thresh))) in *.
  assert (Hm : m = List.filter (fun i => cell_leb (nth i vs Null) (Int low_stock_thresh))
                               (seq 0 (nrows df))).
  { unfold m, le_scalar; simpl.
    rewrite (nonzero_map (fun c => cell_leb c (Int low_stock_thresh))).
    now rewrite (wf_assoc _ _ _ Hw Ea). }
  assert (Hmb : forall i, In i m -> (i < length vs)%nat).
  { intros i Hi. rewrite Hm in Hi. apply filter_In in Hi as [Hi _].
    apply in_seq in Hi. rewrite (wf_assoc _ _ _ Hw Ea). lia. }
  unfold getitem_mask in *. fold m in Hlow, Hok.
  rewrite (column_take_rows _ _ _ _ Ea) in Hok.
  unfold sort_values in Hlow. rewrite assoc_take_rows, Ea in Hlow. simpl in Hlow.
  destruct (nargsort_spec _ _ Hok) as (body & Hn & Hperm & Hasc).
  destruct (present_rows_all (pick Null vs m)) as [Hall Hnan];
    [now apply pick_is_int|].
  rewrite Hall, pick_length in Hperm. rewrite Hnan, app_nil_r in Hn.
  assert (Hb : forall k, In k body -> (k < length m)%nat).
  { intros k Hk. apply (Permutation_in _ Hperm) in Hk. apply in_seq in Hk. lia. }
  rewrite Hn, head_take in Hlow.
  rewrite take_take in Hlow by (intros k Hk; apply Hb; eapply in_firstn; exact Hk).
  injection Hlow as <-.
  exists (pick O m body). split; [|split; [|split]].
  - rewrite <- Hm. now apply pick_Permutation.
  - unfold pick. now rewrite <- ascendingb_pick.
  - unfold pick. now rewrite firstn_map.
  - unfold nrows, take_rows, pick; simpl.
    now rewrite !length_map, length_firstn.
Qed.

Lemma C6_witness :
  exists sorted,
    Permutation sorted
      (List.filter (fun i => cell_leb (nth i (column "quantity" Example.mixed_cleaned) Null)
                                      (Int 30))
                   (seq 0 (nrows Example.mixed_cleaned)))
    /\ ascendingb (column "quantity" Example.mixed_cleaned) sorted = true
    /\ Example.mixed_low = take_rows (firstn 20 sorted) Example.mixed_cleaned
    /\ nrows Example.mixed_low = Nat.min 20 (length sorted).
Proof.
  apply (C6_low_stock_selection (H := Example.lib) 30 Example.mixed_cleaned
           Example.mixed_low).
  - vm_compute. reflexivity.
  - vm_compute. reflexivity.
  - vm_compute. reflexivity.
  - vm_compute. reflexivity.
Defined.

(** ** Top 10 by value *)

Lemma assoc_filter_ne {A : Type} (c c' : string) (l : list (string * A)) :
  String.eqb c' c = false ->
  assoc c (List.filter (fun cv => negb (String.eqb c' (fst cv))) l) = assoc c l.
Proof.
  intros Hne. induction l as [|[k x] l IH]; simpl; [reflexivity|].
  destruct (String.eqb c' k) eqn:Ek; simpl.
  - apply String.eqb_eq in Ek. subst k.
    rewrite String.eqb_sym, Hne. exact IH.
  - now rewrite IH.
Qed.

(** C3 (amended). Top 10 by value, when the library's default sort did its
    job: the rows are ordered with the present values first, in descending
    order, and the missing values last; the chart shows the first
    [min 10 row_count] rows of that order, by name.  The order among rows
    of equal value is the library's: nothing here makes it the fetch
    order. *)
Theorem C3_top_rows_sorted_prefix `{Lib} (df : DataFrame) (out : LabelledFrame) :
  wf df = true ->
  top_by_value df = Some (Ok out) ->
  argsort_ok (column "value" df) false = true ->
  exists body,
    let order := body ++ nonzero (List.map isna (column "value" df)) in
    Permutation body (present_rows (column "value" df))
    /\ descendingb (column "value" df) body = true
    /\ Permutation order (seq 0 (nrows df))
    /\ top_rows df = Ok (take_rows (firstn 10 order) df)
    /\ labels out = pick Null (column "name" df) (firstn 10 order)
    /\ ldata out = [("value", pick Null (column "value" df) (firstn 10 order))]
    /\ length (firstn 10 order) = Nat.min 10 (nrows df).
Proof.
  intros Hw Htop Hok.
  unfold top_by_value in Htop.
  destruct (contains "value" df && contains "name" df) eqn:Hc; [|discriminate].
  apply andb_true_iff in Hc as [Hv Hn]. rewrite contains_assoc in Hv, Hn.
  destruct (assoc "value" (data df)) as [vs|] eqn:Ev; [|discriminate].
  destruct (assoc "name" (data df)) as [ns|] eqn:En; [|discriminate].
  assert (Cv : column "value" df = vs) by (unfold column; now rewrite Ev).
  assert (Cn : column "name" df = ns) by (unfold column; now rewrite En).
  rewrite Cv, Cn in *.
  destruct (nargsort_spec _ _ Hok) as (body & Hsort & Hperm & Hdesc).
  assert (Hrows : top_rows df
                  = Ok (take_rows (firstn 10 (body ++ nonzero (List.map isna vs))) df)).
  { unfold top_rows, sort_values. rewrite Ev, Hsort. now rewrite head_take. }
  assert (Horder : Permutation (body ++ nonzero (List.map isna vs)) (seq 0 (nrows df))).
  { rewrite Hperm, nonzero_map. unfold present_rows.
    rewrite (wf_assoc _ _ _ Hw Ev).
    apply (filter_partition (fun i => isna (nth i vs Null))). }
  exists body. cbv zeta.
  split; [assumption|]. split; [assumption|]. split; [assumption|].
  split; [assumption|].
  injection Htop as Htop. rewrite Hrows in Htop.
  unfold set_index in Htop. rewrite assoc_take_rows, En in Htop.
  cbn [option_map] in Htop. unfold getitems in Htop. cbn [mapM data] in Htop.
  rewrite (assoc_filter_ne "value" "name") in Htop by reflexivity.
  rewrite assoc_take_rows, Ev in Htop. cbn [option_map] in Htop.
  injection Htop as <-. cbn [labels ldata data].
  split; [reflexivity|]. split; [reflexivity|].
  rewrite length_firstn. f_equal.
  rewrite (Permutation_length Horder). now rewrite length_seq.
Qed.

Lemma C3_witness :
  exists body,
    let order := body ++ nonzero (List.map isna (column "value" Example.mixed_cleaned)) in
    Permutation body (present_rows (column "value" Example.mixed_cleaned))
    /\ descendingb (column "value" Example.mixed_cleaned) body = true
    /\ Permutation order (seq 0 (nrows Example.mixed_cleaned))
    /\ top_rows (H := Example.lib) Example.mixed_cleaned
       = Ok (take_rows (firstn 10 order) Example.mixed_cleaned)
    /\ labels Example.mixed_top
       = pick Null (column "name" Example.mixed_cleaned) (firstn 10 order)
    /\ ldata Example.mixed_top
       = [("value", pick Null (column "value" Example.mixed_cleaned) (firstn 10 order))]
    /\ length (firstn 10 order) = Nat.min 10 (nrows Example.mixed_cleaned).
Proof.
  apply (C3_top_rows_sorted_prefix (H := Example.lib) Example.mixed_cleaned
           Example.mixed_top).
  - vm_compute. reflexivity.
  - vm_compute. reflexivity.
  - vm_compute. reflexivity.
Defined.

(** C3 fails as stated: eighteen rows of equal value, sorted by a correct
    sort that is not stable.  The argsort meets its contract, and the ten
    rows kept are rows 17 down to 8, not the first ten rows in fetch order
    that a stable sort would keep. *)
Lemma C3_counterexample :
  argsort_ok (H := Example.unstable_lib) (column "value" Example.tie_cleaned) false = true
  /\ (exists t,
        top_rows (H := Example.unstable_lib) Example.tie_cleaned = Ok t
        /\ index t = [17; 16; 15; 14; 13; 12; 11; 10; 9; 8]%nat
        /\ index (Spec.top_n 10 Example.tie_cleaned) = [0; 1; 2; 3; 4; 5; 6; 7; 8; 9]%nat
        /\ t <> Spec.top_n 10 Example.tie_cleaned).
Proof.
  split; [vm_compute; reflexivity|].
  eexists. split; [vm_compute; reflexivity|].
  split; [vm_compute; reflexivity|].
  split; [vm_compute; reflexivity|].
  intros E. apply (f_equal index) in E. vm_compute in E. discriminate E.
Qed.

(** ** The tables of the pipeline are well formed *)

Lemma raw_docs_to_df_wf `{Lib} (docs : list record) : wf (raw_docs_to_df docs) = true.
Proof.
  unfold raw_docs_to_df. destruct docs as [|d docs]; [reflexivity|].
  unfold DataFrame_of_records, wf, nrows; cbn [index data].
  apply forallb_forall. intros [c vs] Hc.
  apply in_map_iff in Hc as (c' & [= <- <-] & _). cbn [snd].
  apply Nat.eqb_eq. cbn [length]. now rewrite !length_map, length_seq, ?length_map.
Qed.

Lemma wf_setcol (c : string) (vs : list cell) (df : DataFrame) :
  wf df = true -> length vs = nrows df -> wf (setcol c vs df) = true.
Proof.
  unfold wf, setcol, nrows; cbn [index data]. intros Hw Hl.
  induction (data df) as [|[k y] l IH]; simpl.
  - rewrite Hl, Nat.eqb_refl. reflexivity.
  - simpl in Hw. apply andb_true_iff in Hw as [Hy Hw].
    destruct (String.eqb c k); simpl.
    + rewrite Hl, Nat.eqb_refl. exact Hw.
    + rewrite Hy. now apply IH.
Qed.

Lemma filled_length (c : string) (v : cell) (df : DataFrame) :
  wf df = true -> length (filled c v df) = nrows df.
Proof.
  intros Hw. unfold filled. destruct (assoc c (data df)) as [vs|] eqn:Ea.
  - rewrite length_map. eapply wf_assoc; eassumption.
  - apply repeat_length.
Qed.

(** [clean_and_transform] keeps a table well formed, and leaves integers
    in its [quantity] column. *)
Lemma clean_and_transform_wf `{Lib} (today : Z) (df df' : DataFrame) :
  empty df = false -> wf df = true ->
  clean_and_transform today df = (Ok tt, df') ->
  wf df' = true /\ forallb is_int (column "quantity" df') = true.
Proof.
  intros He Hw Hrun.
  destruct (clean_and_transform_Ok today df df' He Hrun) as (q & td & Hq & Htd & ->).
  split.
  - unfold cleaned, with_value.
    pose proof (coerced_quantity_length df q Hw Hq) as Lq.
    pose proof (coerced_price_length df Hw) as Lp.
    pose proof (parsed_restock_length df Hw) as Lr.
    repeat (apply wf_setcol; [|rewrite ?nrows_setcol]); try assumption.
    + now apply filled_length.
    + now apply filled_length.
    + rewrite zip_with_length; congruence.
    + rewrite length_map, (mapM_length _ _ _ Htd). exact Lr.
  - destruct (column_cleaned df q td) as (-> & _).
    apply forallb_forall. intros c Hc. apply In_nth_error in Hc as [i Hi].
    destruct (coerced_quantity_Int df q i c Hq Hi) as [z ->]. reflexivity.
Qed.

(** The cleaned [last_restock] of a row is the parsed stored cell. *)
Lemma parsed_restock_cell `{Lib} (today : Z) (df df' : DataFrame) (i : nat) (c : cell) :
  empty df = false ->
  clean_and_transform today df = (Ok tt, df') ->
  cell_at "last_restock" i df = Some c ->
  cell_at "last_restock" i df' = Some (to_datetime_cell c).
Proof.
  intros He Hrun Hc.
  destruct (clean_and_transform_Ok today df df' He Hrun) as (q & td & _ & _ & ->).
  destruct (column_cleaned df q td) as (_ & _ & Cr & _).
  apply column_assoc in Hc as (vs & Ea & Hc).
  unfold cell_at. rewrite Cr. unfold parsed_restock. rewrite Ea.
  now rewrite nth_error_map, Hc.
Qed.

(** ** A second run leaves a table with [name] and [sku] as it is *)

Lemma assoc_set_same {A : Type} (c : string) (x : A) (l : list (string * A)) :
  assoc c l = Some x -> assoc_set c x l = l.
Proof.
  induction l as [|[k y] l IH]; simpl; [discriminate|].
  destruct (String.eqb c k) eqn:Ek.
  - intros [= ->]. reflexivity.
  - intros Ha. now rewrite IH.
Qed.

Lemma setcol_same (c : string) (vs : list cell) (df : DataFrame) :
  assoc c (data df) = Some vs -> setcol c vs df = df.
Proof.
  intros Ha. unfold setcol. rewrite (assoc_set_same _ _ _ Ha). now destruct df.
Qed.

Lemma wrap64_idem (z : Z) : wrap64 (wrap64 z) = wrap64 z.
Proof.
  rewrite <- (Z.add_0_r (wrap64 z)) at 1. rewrite wrap64_add_l. f_equal. lia.
Qed.

Lemma astype_int_cell_fixed (c c' : cell) :
  astype_int_cell c = Ok c' -> astype_int_cell c' = Ok c'.
Proof.
  destruct c; simpl; try discriminate.
  - intros [= <-]. now destruct b.
  - intros [= <-]. simpl. now rewrite wrap64_idem.
  - unfold int64_of_float. destruct (float_trunc f) as [z|]; [|discriminate].
    intros [= <-]. simpl. f_equal. f_equal.
    destruct (in_int64 z) eqn:Ez; [|reflexivity].
    apply wrap64_id. unfold in_int64 in Ez.
    apply andb_true_iff in Ez as [Hlo Hhi].
    apply Z.leb_le in Hlo. apply Z.leb_le in Hhi. lia.
Qed.

Lemma numeric_values_integers `{Lib} (q : list cell) :
  (forall c, In c q -> exists z, c = Int z) -> numeric_values q = q.
Proof.
  intros Hq. unfold numeric_values.
  assert (Hid : List.map to_numeric_cell q = q).
  { rewrite <- (map_id q) at 2. apply map_ext_in. intros c Hc.
    destruct (Hq c Hc) as [z ->]. reflexivity. }
  rewrite Hid.
  replace (forallb is_int q) with true; [reflexivity|].
  symmetry. apply forallb_forall. intros c Hc. destruct (Hq c Hc) as [z ->]. reflexivity.
Qed.

Lemma numeric_values_floats `{Lib} (p : list cell) :
  (forall c, In c p -> exists f, c = Flt f) -> numeric_values p = p.
Proof.
  intros Hp. unfold numeric_values.
  assert (Hid : List.map to_numeric_cell p = p).
  { rewrite <- (map_id p) at 2. apply map_ext_in. intros c Hc.
    destruct (Hp c Hc) as [f ->]. reflexivity. }
  rewrite Hid. destruct (forallb is_int p); [reflexivity|].
  rewrite <- (map_id p) at 2. apply map_ext_in. intros c Hc.
  destruct (Hp c Hc) as [f ->]. reflexivity.
Qed.

Lemma to_datetime_cell_idem `{Lib} (c : cell) :
  to_datetime_cell (to_datetime_cell c) = to_datetime_cell c.
Proof.
  assert (Hts : forall t, in_timestamp t = true ->
                          to_datetime_cell (Ts t) = Ts t).
  { intros t Ht. simpl. now rewrite Ht. }
  assert (Htz : forall t offset, in_timestamp t = true ->
                                 to_datetime_cell (Tsz t offset) = Tsz t offset).
  { intros t offset Ht. simpl. now rewrite Ht. }
  destruct c; simpl;
    repeat match goal with
           | |- context [match ?x with _ => _ end] => destruct x eqn:?
           | |- context [if ?x then _ else _] => destruct x eqn:?
           end;
    first [reflexivity | now apply Hts | now apply Htz].
Qed.

Lemma fill_idem (v c : cell) : isna v = false -> fill v (fill v c) = fill v c.
Proof.
  intros Hv. unfold fill. destruct (isna c) eqn:Ec; [now rewrite Hv|now rewrite Ec].
Qed.

(** X9. Where the table has a [name] and a [sku] column, the table
    [clean_and_transform] returns is a fixed point: a second call on the
    same date returns as well and changes nothing. *)
Lemma clean_and_transform_idempotent_with_name_and_sku `{Lib} (today : Z)
    (df df' : DataFrame) :
  empty df = false ->
  contains "name" df = true -> contains "sku" df = true ->
  clean_and_transform today df = (Ok tt, df') ->
  clean_and_transform today df' = (Ok tt, df').
Proof.
  intros He Hname Hsku Hrun.
  destruct (clean_and_transform_Ok today df df' He Hrun) as (q & td & Hq & Htd & ->).
  set (t := cleaned df q td).
  assert (Aq : assoc "quantity" (data t) = Some q)
    by (unfold t, cleaned, with_value; rewrite !assoc_setcol; now string_eqb).
  assert (Ap : assoc "price" (data t) = Some (coerced_price df))
    by (unfold t, cleaned, with_value; rewrite !assoc_setcol; now string_eqb).
  assert (Ar : assoc "last_restock" (data t) = Some (parsed_restock df))
    by (unfold t, cleaned, with_value; rewrite !assoc_setcol; now string_eqb).
  assert (An : assoc "name" (data t) = Some (filled "name" (Str "Unknown") df))
    by (unfold t, cleaned, with_value; rewrite !assoc_setcol; now string_eqb).
  assert (As : assoc "sku" (data t) = Some (filled "sku" (Str "") df))
    by (unfold t, cleaned, with_value; rewrite !assoc_setcol; now string_eqb).
  assert (Av : assoc "value" (data t) = Some (zip_with mul_cell q (coerced_price df)))
    by (unfold t, cleaned, with_value; rewrite !assoc_setcol; now string_eqb).
  assert (Ad : assoc "days_since_restock" (data t) = Some (List.map days_cell td))
    by (unfold t, cleaned, with_value; rewrite !assoc_setcol; now string_eqb).
  (* the columns a second run computes are those already there *)
  assert (Hq2 : coerced_quantity t = Ok q).
  { unfold coerced_quantity. rewrite Aq.
    assert (Hint : forall c, In c q -> exists z, c = Int z).
    { intros c Hc. apply In_nth_error in Hc as [i Hi].
      eapply coerced_quantity_Int; eassumption. }
    rewrite (numeric_values_integers q Hint).
    assert (Hfillq : List.map (fill (Int 0)) q = q).
    { rewrite <- (map_id q) at 2. apply map_ext_in. intros c Hc.
      destruct (Hint c Hc) as [z ->]. reflexivity. }
    rewrite Hfillq.
    transitivity (Ok (List.map (fun c : cell => c) q)); [|now rewrite map_id].
    apply mapM_ok_map. intros c Hc.
    apply In_nth_error in Hc as [i Hi].
    unfold coerced_quantity in Hq.
    destruct (assoc "quantity" (data df)) as [vs|].
    - apply mapM_Forall2 in Hq.
      destruct (Forall2_nth_error _ _ _ _ _ Hq Hi) as (x & _ & Hx).
      apply astype_int_cell_fixed in Hx. exact Hx.
    - injection Hq as <-. apply nth_error_In, repeat_spec in Hi.
      subst c. reflexivity. }
  assert (Hp2 : coerced_price t = coerced_price df).
  { unfold coerced_price at 1. rewrite Ap.
    assert (Hflt : forall c, In c (coerced_price df) ->
                             exists f, c = Flt f /\ PrimFloat.is_nan f = false).
    { intros c Hc. apply In_nth_error in Hc as [i Hi].
      eapply coerced_price_Flt; eassumption. }
    rewrite numeric_values_floats.
    - transitivity (List.map (fun c : cell => c) (coerced_price df));
        [|now rewrite map_id].
      apply map_ext_in.
      intros c Hc. destruct (Hflt c Hc) as (f & -> & Hf).
      unfold price_cell, fill; simpl. now rewrite Hf.
    - intros c Hc. destruct (Hflt c Hc) as (f & -> & _). eauto. }
  assert (Hr2 : parsed_restock t = parsed_restock df).
  { unfold parsed_restock at 1. rewrite Ar. unfold parsed_restock.
    destruct (assoc "last_restock" (data df)) as [vs|].
    - rewrite map_map. apply map_ext. intros c. apply to_datetime_cell_idem.
    - now rewrite map_repeat. }
  assert (Hfill : forall c v, isna v = false -> contains c df = true ->
                              assoc c (data t) = Some (filled c v df) ->
                              filled c v t = filled c v df).
  { intros c v Hv Hc Ha. unfold filled at 1. rewrite Ha.
    rewrite contains_assoc in Hc. unfold filled.
    destruct (assoc c (data df)) as [vs|]; [|discriminate].
    rewrite map_map. apply map_ext. intros x. now apply fill_idem. }
  assert (Het : empty t = false) by now apply empty_cleaned.
  rewrite (clean_and_transform_unfold today t Het), Hq2, Hr2, Htd.
  f_equal.
  unfold cleaned at 1, with_value at 1.
  rewrite Hp2, Hr2.
  rewrite (Hfill "name" (Str "Unknown") eq_refl Hname An).
  rewrite (Hfill "sku" (Str "") eq_refl Hsku As).
  rewrite (setcol_same "quantity" q t Aq).
  rewrite (setcol_same "price" _ t Ap).
  rewrite (setcol_same "last_restock" _ t Ar).
  rewrite (setcol_same "name" _ t An).
  rewrite (setcol_same "sku" _ t As).
  rewrite (setcol_same "value" _ t Av).
  now rewrite (setcol_same "days_since_restock" _ t Ad).
Qed.

Lemma clean_and_transform_idempotent_with_name_and_sku_witness :
  clean_and_transform (H := Example.lib) Example.sample_today Example.mixed_cleaned
  = (Ok tt, Example.mixed_cleaned).
Proof.
  apply (clean_and_transform_idempotent_with_name_and_sku (H := Example.lib)
           Example.sample_today Example.mixed_table Example.mixed_cleaned).
  - reflexivity.
  - reflexivity.
  - reflexivity.
  - vm_compute. reflexivity.
Defined.

(** * The rest of the program *)

(** ** Documents and the table built from them *)

Lemma dict_contains_assoc (k : string) (d : record) :
  dict_contains k d = match assoc k d with Some _ => true | None => false end.
Proof.
  unfold dict_contains. induction d as [|[k' v] d IH]; simpl; [reflexivity|].
  now destruct (String.eqb k k').
Qed.

Lemma assoc_dict_pop (k f : string) (d : record) :
  assoc k (dict_pop f d) = if String.eqb k f then None else assoc k d.
Proof.
  unfold dict_pop. induction d as [|[k' v] d IH]; simpl.
  - now destruct (String.eqb k f).
  - destruct (String.eqb f k') eqn:Ef; simpl.
    + apply String.eqb_eq in Ef. subst k'. rewrite IH.
      now destruct (String.eqb k f).
    + rewrite IH. destruct (String.eqb k k') eqn:Ek; [|reflexivity].
      apply String.eqb_eq in Ek. subst k'. now rewrite String.eqb_sym, Ef.
Qed.

Lemma dict_pop_absent (f : string) (d : record) :
  dict_contains f d = false -> dict_pop f d = d.
Proof.
  unfold dict_contains, dict_pop. induction d as [|[k v] d IH]; simpl; [reflexivity|].
  intros Hc. apply orb_false_iff in Hc as [Hk Hd]. rewrite Hk. simpl.
  now rewrite IH.
Qed.

Lemma assoc_map_keys {A : Type} (f : string -> A) (c : string) (ks : list string) :
  assoc c (List.map (fun k => (k, f k)) ks)
  = if existsb (String.eqb c) ks then Some (f c) else None.
Proof.
  induction ks as [|k ks IH]; simpl; [reflexivity|].
  destruct (String.eqb c k) eqn:Ek; [|exact IH].
  apply String.eqb_eq in Ek. now subst k.
Qed.

Lemma add_keys_existsb (c : string) (ks seen : list string) :
  existsb (String.eqb c)
    (fold_left (fun acc k => if existsb (String.eqb k) acc then acc else acc ++ [k]) ks seen)
  = existsb (String.eqb c) seen || existsb (String.eqb c) ks.
Proof.
  revert seen. induction ks as [|k ks IH]; intros seen; simpl.
  - now rewrite orb_false_r.
  - rewrite IH. destruct (existsb (String.eqb k) seen) eqn:Ek.
    + destruct (String.eqb c k) eqn:Eck; [|reflexivity].
      apply String.eqb_eq in Eck. subst k. now rewrite Ek.
    + rewrite existsb_app. simpl. rewrite orb_false_r. now rewrite orb_assoc.
Qed.

Lemma union_keys_existsb (c : string) (recs : list record) (seen : list string) :
  existsb (String.eqb c) (union_keys seen recs)
  = existsb (String.eqb c) seen || existsb (dict_contains c) recs.
Proof.
  revert seen. induction recs as [|r recs IH]; intros seen; simpl.
  - now rewrite orb_false_r.
  - rewrite IH, add_keys_existsb.
    rewrite dict_contains_assoc, <- existsb_assoc. now rewrite orb_assoc.
Qed.

Lemma assoc_of_records (c : string) (recs : list record) :
  assoc c (data (DataFrame_of_records recs))
  = if existsb (dict_contains c) recs
    then Some (List.map (fun r => match assoc c r with Some v => v | None => Null end) recs)
    else None.
Proof.
  unfold DataFrame_of_records; cbn [data].
  rewrite (assoc_map_keys
             (fun c => List.map (fun r => match assoc c r with Some v => v | None => Null end)
                                recs)).
  now rewrite union_keys_existsb.
Qed.


Lemma raw_docs_to_df_records `{Lib} (docs : list record) :
  docs <> [] -> raw_docs_to_df docs = DataFrame_of_records (List.map with_id docs).
Proof. destruct docs; [congruence|reflexivity]. Qed.

Lemma assoc_with_id `{Lib} (c : string) (d : record) :
  assoc c (with_id d)
  = if String.eqb c "_id" then None
    else if dict_contains "_id" d && String.eqb c "id"
         then Some (Str (py_str (field "_id" d)))
         else assoc c d.
Proof.
  unfold with_id. destruct (dict_contains "_id" d) eqn:Hc; simpl.
  - unfold dict_set. rewrite assoc_dict_pop, assoc_assoc_set. reflexivity.
  - destruct (String.eqb c "_id") eqn:Ec; [|reflexivity].
    apply String.eqb_eq in Ec. subst c.
    rewrite dict_contains_assoc in Hc. now destruct (assoc "_id" d).
Qed.

Lemma with_id_fixed `{Lib} (d : record) :
  dict_contains "_id" d = false -> with_id d = d.
Proof. unfold with_id. now intros ->. Qed.

Lemma with_id_has_no_id `{Lib} (d : record) : dict_contains "_id" (with_id d) = false.
Proof. rewrite dict_contains_assoc, assoc_with_id. reflexivity. Qed.

Lemma existsb_map_false {A B : Type} (f : A -> B) (P : B -> bool) (l : list A) :
  (forall x, P (f x) = false) -> existsb P (List.map f l) = false.
Proof.
  intros HP. induction l as [|x l IH]; simpl; [reflexivity|]. now rewrite HP, IH.
Qed.




Lemma no_key_nil (l : list string) :
  (forall c, existsb (String.eqb c) l = false) -> l = [].
Proof.
  destruct l as [|k l]; [reflexivity|]. intros Hk. specialize (Hk k).
  simpl in Hk. now rewrite String.eqb_refl in Hk.
Qed.

Lemma with_id_nil `{Lib} (d : record) : with_id d = [] -> d = [].
Proof.
  intros Hd. destruct d as [|[k v] d]; [reflexivity|]. exfalso.
  assert (Hk : assoc (if String.eqb k "_id" then "id" else k) (with_id ((k, v) :: d)) <> None).
  { rewrite assoc_with_id. destruct (String.eqb k "_id") eqn:Ek.
    - apply String.eqb_eq in Ek. subst k. simpl. discriminate.
    - rewrite Ek. destruct (dict_contains "_id" ((k, v) :: d) && String.eqb k "id");
        [discriminate|]. simpl. rewrite String.eqb_refl. discriminate. }
  rewrite Hd in Hk. now apply Hk.
Qed.


(** X2. The table of the fetched documents is empty, so that the view
    says "No products found" and stops, exactly when every document is the
    empty dict (in particular when none was fetched); one document with a
    field is enough for the pipeline to run. *)
Theorem raw_docs_to_df_empty_iff `{Lib} (docs : list record) :
  empty (raw_docs_to_df docs) = true <-> (forall d, In d docs -> d = []).
Proof.
  destruct docs as [|d0 docs].
  - split; [intros _ d []|reflexivity].
  - rewrite raw_docs_to_df_records by discriminate.
    unfold empty, DataFrame_of_records; cbn [index data].
    rewrite length_seq, !length_map. cbn [length Nat.eqb orb].
    split.
    + intros He d Hd. apply Nat.eqb_eq, length_zero_iff_nil in He.
      apply with_id_nil.
      destruct (with_id d) as [|[k v] r] eqn:Ed; [reflexivity|]. exfalso.
      assert (Hk : existsb (String.eqb k)
                     (union_keys [] (List.map with_id (d0 :: docs))) = true).
      { rewrite union_keys_existsb. cbn [existsb orb]. apply existsb_exists.
        exists (with_id d). split; [now apply in_map|].
        rewrite Ed. unfold dict_contains. simpl. now rewrite String.eqb_refl. }
      rewrite He in Hk. discriminate.
    + intros Hall. apply Nat.eqb_eq, length_zero_iff_nil. apply no_key_nil.
      intros c. rewrite union_keys_existsb. cbn [existsb orb].
      destruct (existsb _ _) eqn:Ex; [|reflexivity].
      apply existsb_exists in Ex as (r & Hr & Hc).
      apply in_map_iff in Hr as (d & <- & Hd).
      rewrite (Hall d Hd) in Hc. discriminate.
Qed.

(** ** [fetch_products] *)

Lemma fetch_products_with_id `{Lib} (found docs : list record) :
  fetch_products found = Ok docs ->
  docs = List.map with_id found
  /\ List.Forall (fun d => dict_contains "_id" d = true) found.
Proof.
  unfold fetch_products. revert docs.
  induction found as [|d found IH]; intros docs; simpl.
  - intros [= <-]. split; [reflexivity|constructor].
  - destruct (assoc "_id" d) as [v|] eqn:Ev; [|discriminate].
    match goal with |- context [mapM ?f found] => destruct (mapM f found) as [ds|e] end;
      [|discriminate].
    intros [= <-]. destruct (IH ds eq_refl) as [-> Hall].
    assert (Hc : dict_contains "_id" d = true).
    { rewrite dict_contains_assoc. now rewrite Ev. }
    split; [|now constructor].
    f_equal. unfold with_id, field. now rewrite Hc, Ev.
Qed.

(** X3. [fetch_products] returns exactly when every fetched document has an
    [_id]: each returned document then has [id = str(_id)], no [_id], and
    its other fields as stored.  On a document without [_id] it raises
    [KeyError('_id')] (here [raw_docs_to_df] leaves the document as it
    is). *)
Theorem fetch_products_tags_or_raises `{Lib} (found : list record) :
  match fetch_products found with
  | Ok docs =>
      Forall2 (fun d d' =>
                 exists v, assoc "_id" d = Some v
                           /\ assoc "id" d' = Some (Str (py_str v))
                           /\ assoc "_id" d' = None
                           /\ forall k, k <> "id" -> k <> "_id" -> assoc k d' = assoc k d)
              found docs
  | Raise e =>
      e = KeyError "_id" /\ exists d, In d found /\ assoc "_id" d = None
  end.
Proof.
  unfold fetch_products.
  induction found as [|d found IH]; simpl; [constructor|].
  destruct (assoc "_id" d) as [v|] eqn:Ev.
  - match goal with |- context [mapM ?f found] => destruct (mapM f found) as [ds|e] end.
    + constructor; [|exact IH].
      exists v. unfold dict_set. split; [assumption|].
      rewrite !assoc_dict_pop, !assoc_assoc_set. simpl.
      split; [reflexivity|]. split; [reflexivity|].
      intros k Hk Hk'. rewrite assoc_dict_pop, assoc_assoc_set.
      apply String.eqb_neq in Hk, Hk'. now rewrite Hk, Hk'.
    + destruct IH as (-> & d' & Hd' & Hn). split; [reflexivity|].
      exists d'. split; [now right|assumption].
  - split; [reflexivity|]. exists d. split; [now left|assumption].
Qed.

(** X4. The documents [fetch_products] returns give the same table as the
    fetched documents themselves: [raw_docs_to_df] tags what has an [_id]
    and leaves tagged documents alone. *)
Theorem fetch_products_then_table `{Lib} (found docs : list record) :
  fetch_products found = Ok docs ->
  raw_docs_to_df docs = raw_docs_to_df found
  /\ (docs <> [] -> raw_docs_to_df docs = DataFrame_of_records docs).
Proof.
  intros Hf. destruct (fetch_products_with_id found docs Hf) as [-> Hall].
  assert (Hfix : List.map with_id (List.map with_id found) = List.map with_id found).
  { rewrite map_map. apply map_ext. intros d. apply with_id_fixed, with_id_has_no_id. }
  split.
  - destruct found as [|d found]; [reflexivity|].
    rewrite !raw_docs_to_df_records by discriminate. now rewrite Hfix.
  - intros Hne. rewrite raw_docs_to_df_records by assumption. now rewrite Hfix.
Qed.

Lemma fetch_products_then_table_witness :
  raw_docs_to_df (H := Example.lib) Example.mixed_fetched
  = raw_docs_to_df (H := Example.lib) Example.mixed_docs
  /\ (Example.mixed_fetched <> [] ->
      raw_docs_to_df (H := Example.lib) Example.mixed_fetched
      = DataFrame_of_records Example.mixed_fetched).
Proof.
  apply (fetch_products_then_table (H := Example.lib) Example.mixed_docs
           Example.mixed_fetched).
  vm_compute. reflexivity.
Defined.

(** ** [docs_to_dataframe] *)

Lemma dict_pop_without (f : string) (fs : list string) (d : record) :
  without fs (dict_pop f d) = without (f :: fs) d.
Proof.
  unfold without, dict_pop. induction d as [|[k v] d IH]; simpl; [reflexivity|].
  rewrite (String.eqb_sym k f).
  destruct (String.eqb f k); simpl; [exact IH|].
  destruct (existsb (String.eqb k) fs); simpl; [exact IH|]. now rewrite IH.
Qed.

Lemma without_nil (d : record) : without [] d = d.
Proof.
  unfold without. induction d as [|kv d IH]; [reflexivity|].
  cbn [List.filter existsb negb]. now f_equal.
Qed.

Lemma drop_fields_without (fs : list string) (d : record) :
  fold_left (fun doc f => if dict_contains f doc then dict_pop f doc else doc) fs d
  = without fs d.
Proof.
  revert d. induction fs as [|f fs IH]; intros d; simpl.
  - symmetry. apply without_nil.
  - rewrite IH. destruct (dict_contains f d) eqn:Hc.
    + apply dict_pop_without.
    + rewrite <- dict_pop_without. now rewrite (dict_pop_absent f d Hc).
Qed.

Lemma assoc_without (c : string) (fs : list string) (d : record) :
  assoc c (without fs d) = if existsb (String.eqb c) fs then None else assoc c d.
Proof.
  unfold without. induction d as [|[k v] d IH]; simpl.
  - now destruct (existsb (String.eqb c) fs).
  - destruct (existsb (String.eqb k) fs) eqn:Ek; simpl.
    + rewrite IH. destruct (String.eqb c k) eqn:Eck; [|reflexivity].
      apply String.eqb_eq in Eck. subst k. now rewrite Ek.
    + rewrite IH. destruct (String.eqb c k) eqn:Eck; [|reflexivity].
      apply String.eqb_eq in Eck. subst k. now rewrite Ek.
Qed.

Lemma getitems_columns (cols : list string) (df : DataFrame) :
  (forall c, In c cols -> contains c df = true) ->
  getitems cols df = Ok (mkDF (index df) (List.map (fun c => (c, column c df)) cols)).
Proof.
  intros Hc. unfold getitems.
  rewrite (mapM_ok_map _ (fun c => (c, column c df))); [reflexivity|].
  intros c Hin. specialize (Hc c Hin). rewrite contains_assoc in Hc.
  unfold column. now destruct (assoc c (data df)).
Qed.

Lemma existsb_filter_ne (c k : string) (l : list string) :
  existsb (String.eqb c) (List.filter (fun x => negb (String.eqb x k)) l)
  = negb (String.eqb c k) && existsb (String.eqb c) l.
Proof.
  induction l as [|x l IH]; simpl; [now rewrite andb_false_r|].
  destruct (String.eqb x k) eqn:Ex; simpl.
  - rewrite IH. destruct (String.eqb c x) eqn:Ec; [|reflexivity].
    apply String.eqb_eq in Ec. subst x. now rewrite Ex.
  - rewrite IH. destruct (String.eqb c x) eqn:Ec; [|reflexivity].
    apply String.eqb_eq in Ec. subst x. now rewrite Ex.
Qed.

(** What [docs_to_dataframe] returns on one document or more. *)
Lemma docs_to_dataframe_records `{Lib} (docs : list record) (drop_fields : option (list string)) :
  docs <> [] ->
  let fs := match drop_fields with Some fs => fs | None => [] end in
  let df := DataFrame_of_records (List.map (fun d => without fs (with_id d)) docs) in
  docs_to_dataframe docs drop_fields
  = Ok (if contains "id" df
        then mkDF (index df)
                  (List.map (fun c => (c, column c df))
                            ("id" :: List.filter (fun c => negb (String.eqb c "id")) (columns df)))
        else df).
Proof.
  intros Hne fs df. unfold docs_to_dataframe.
  destruct docs as [|d0 docs]; [congruence|].
  fold fs.
  assert (Hclean :
    List.map (fun d =>
                fold_left (fun doc f => if dict_contains f doc then dict_pop f doc else doc) fs
                  (if dict_contains "_id" d
                   then dict_pop "_id"
                          (dict_set "id"
                             (Str (py_str match assoc "_id" d with Some v => v | None => Null end))
                             d)
                   else d)) (d0 :: docs)
    = List.map (fun d => without fs (with_id d)) (d0 :: docs)).
  { apply map_ext. intros d. now rewrite drop_fields_without. }
  cbv zeta. rewrite Hclean. fold df.
  destruct (contains "id" df) eqn:Hid; [|reflexivity].
  apply getitems_columns. intros c [<-|Hc]; [assumption|].
  apply filter_In in Hc as [Hc _]. unfold contains.
  apply existsb_exists. exists c. split; [assumption|apply String.eqb_refl].
Qed.

Lemma existsb_filter_keep (P : string -> bool) (k : string) (l : list string) :
  P k = true ->
  existsb (String.eqb k) (List.filter P l) = existsb (String.eqb k) l.
Proof.
  intros HP. induction l as [|x l IH]; simpl; [reflexivity|].
  destruct (P x) eqn:Ex; simpl.
  - now rewrite IH.
  - rewrite IH. destruct (String.eqb k x) eqn:Ek; [|reflexivity].
    apply String.eqb_eq in Ek. subst x. congruence.
Qed.

Lemma add_keys_without (fs : list string) (r : record) (seen : list string) :
  let P := fun c => negb (existsb (String.eqb c) fs) in
  fold_left (fun acc k => if existsb (String.eqb k) acc then acc else acc ++ [k])
            (List.map fst (without fs r)) (List.filter P seen)
  = List.filter P
      (fold_left (fun acc k => if existsb (String.eqb k) acc then acc else acc ++ [k])
                 (List.map fst r) seen).
Proof.
  intros P. revert seen. unfold without.
  induction r as [|[k v] r IH]; intros seen; [reflexivity|].
  cbn [List.filter List.map fst fold_left].
  destruct (existsb (String.eqb k) fs) eqn:Ek; cbn [negb List.map fst fold_left].
  - destruct (existsb (String.eqb k) seen); [apply IH|].
    rewrite <- IH. rewrite List.filter_app. cbn [List.filter].
    assert (HP : P k = false) by (unfold P; now rewrite Ek).
    rewrite HP. now rewrite app_nil_r.
  - assert (HP : P k = true) by (unfold P; now rewrite Ek).
    rewrite (existsb_filter_keep P k seen HP).
    destruct (existsb (String.eqb k) seen) eqn:Es; [apply IH|].
    rewrite <- IH. f_equal. rewrite List.filter_app. cbn [List.filter]. now rewrite HP.
Qed.

Lemma union_keys_without (fs : list string) (recs : list record) (seen : list string) :
  let P := fun c => negb (existsb (String.eqb c) fs) in
  union_keys (List.filter P seen) (List.map (without fs) recs)
  = List.filter P (union_keys seen recs).
Proof.
  intros P. revert seen. induction recs as [|r recs IH]; intros seen; [reflexivity|].
  cbn [List.map union_keys]. rewrite <- IH. f_equal. apply add_keys_without.
Qed.

Lemma columns_of_records (recs : list record) :
  columns (DataFrame_of_records recs) = union_keys [] recs.
Proof.
  unfold columns, DataFrame_of_records; cbn [data].
  rewrite map_map. cbn [fst]. apply map_id.
Qed.

Lemma columns_map_keys {A : Type} (f : string -> A) (ks : list string) :
  List.map fst (List.map (fun k => (k, f k)) ks) = ks.
Proof. rewrite map_map. cbn [fst]. apply map_id. Qed.

Lemma existsb_map_comp {A B : Type} (f : A -> B) (P : B -> bool) (l : list A) :
  existsb P (List.map f l) = existsb (fun x => P (f x)) l.
Proof. induction l as [|x l IH]; simpl; [reflexivity|]. now rewrite IH. Qed.

Lemma existsb_same {A : Type} (P Q : A -> bool) (l : list A) :
  (forall x, P x = Q x) -> existsb P l = existsb Q l.
Proof. intros HPQ. induction l as [|x l IH]; simpl; [reflexivity|]. now rewrite HPQ, IH. Qed.

Lemma assoc_of_records_without (c : string) (fs : list string) (recs : list record) :
  assoc c (data (DataFrame_of_records (List.map (without fs) recs)))
  = if existsb (String.eqb c) fs then None else assoc c (data (DataFrame_of_records recs)).
Proof.
  rewrite !assoc_of_records, existsb_map_comp, map_map.
  destruct (existsb (String.eqb c) fs) eqn:Ec.
  - rewrite (existsb_same _ (fun _ => false)).
    + assert (Hno : existsb (fun _ : record => false) recs = false)
        by (induction recs; simpl; auto).
      now rewrite Hno.
    + intros r. now rewrite dict_contains_assoc, assoc_without, Ec.
  - rewrite (existsb_same _ (dict_contains c)).
    + destruct (existsb (dict_contains c) recs); [|reflexivity].
      f_equal. apply map_ext. intros r. now rewrite assoc_without, Ec.
    + intros r. now rewrite !dict_contains_assoc, assoc_without, Ec.
Qed.

(** [docs_to_dataframe] against [raw_docs_to_df]. *)
Lemma docs_to_dataframe_against_raw `{Lib} (docs : list record)
    (drop_fields : option (list string)) :
  let fs := match drop_fields with Some fs => fs | None => [] end in
  let raw := raw_docs_to_df docs in
  let kept := List.filter (fun c => negb (existsb (String.eqb c) fs)) (columns raw) in
  exists df,
    docs_to_dataframe docs drop_fields = Ok df
    /\ index df = index raw
    /\ (forall c, assoc c (data df)
                  = if existsb (String.eqb c) fs then None else assoc c (data raw))
    /\ columns df
       = if existsb (String.eqb "id") kept
         then "id" :: List.filter (fun c => negb (String.eqb c "id")) kept
         else kept.
Proof.
  intros fs raw kept.
  destruct docs as [|d0 docs].
  - exists DataFrame_empty. subst raw kept. simpl.
    split; [reflexivity|]. split; [reflexivity|]. split; [|reflexivity].
    intros c. now destruct (existsb (String.eqb c) fs).
  - set (ds := d0 :: docs) in *.
    assert (Hne : ds <> []) by discriminate.
    pose proof (docs_to_dataframe_records ds drop_fields Hne) as Hrun.
    cbv zeta in Hrun. fold fs in Hrun.
    assert (Hraw : raw = DataFrame_of_records (List.map with_id ds)).
    { apply raw_docs_to_df_records. assumption. }
    assert (Hmap : List.map (fun d => without fs (with_id d)) ds
                   = List.map (without fs) (List.map with_id ds)).
    { now rewrite map_map. }
    rewrite Hmap in Hrun.
    set (df0 := DataFrame_of_records (List.map (without fs) (List.map with_id ds))) in *.
    assert (Hassoc : forall c, assoc c (data df0)
                               = if existsb (String.eqb c) fs then None
                                 else assoc c (data raw)).
    { intros c. unfold df0. rewrite Hraw. apply assoc_of_records_without. }
    assert (Hcols : columns df0 = kept).
    { unfold df0, kept. rewrite Hraw, !columns_of_records.
      apply (union_keys_without fs (List.map with_id ds) []). }
    assert (Hindex : index df0 = index raw).
    { unfold df0. rewrite Hraw. unfold DataFrame_of_records; cbn [index].
      now rewrite !length_map. }
    eexists. split; [exact Hrun|].
    unfold contains. rewrite Hcols.
    destruct (existsb (String.eqb "id") kept) eqn:Hid.
    + cbn [index data]. split; [assumption|]. split.
      * intros c.
        rewrite (assoc_map_keys (fun c => column c df0)).
        cbn [existsb]. rewrite existsb_filter_ne, <- Hassoc.
        destruct (String.eqb c "id") eqn:Ec; cbn [negb andb orb].
        -- apply String.eqb_eq in Ec. subst c.
           pose proof (contains_assoc "id" df0) as Hc. unfold contains in Hc.
           rewrite Hcols, Hid in Hc. unfold column.
           now destruct (assoc "id" (data df0)).
        -- pose proof (contains_assoc c df0) as Hc. unfold contains in Hc.
           rewrite Hcols in Hc. rewrite Hc. unfold column.
           now destruct (assoc c (data df0)).
      * unfold columns at 1; cbn [data].
        now rewrite (columns_map_keys (fun c => column c df0)).
    + split; [assumption|]. split; [exact Hassoc|exact Hcols].
Qed.

Lemma nrows_raw_docs_to_df `{Lib} (docs : list record) :
  nrows (raw_docs_to_df docs) = length docs.
Proof.
  destruct docs as [|d docs]; [reflexivity|].
  unfold raw_docs_to_df, DataFrame_of_records, nrows; cbn [index].
  now rewrite length_seq, length_map.
Qed.

(** X5. [docs_to_dataframe] never raises, whatever the documents and the
    fields to drop.  Its table has one row per document, no column [_id]
    and none of the dropped fields; when it has a column [id], that column
    comes first and only once.  Listing [_id] among the fields to drop
    changes nothing: the identifier has become [id] before the fields are
    dropped. *)
Theorem docs_to_dataframe_never_raises `{Lib} (docs : list record)
    (drop_fields : option (list string)) :
  exists df,
    docs_to_dataframe docs drop_fields = Ok df
    /\ nrows df = length docs
    /\ contains "_id" df = false
    /\ (forall f, In f (match drop_fields with Some fs => fs | None => [] end) ->
                  contains f df = false)
    /\ (contains "id" df = true ->
        exists rest, columns df = "id" :: rest /\ ~ In "id" rest)
    /\ docs_to_dataframe docs
         (Some ("_id" :: match drop_fields with Some fs => fs | None => [] end))
       = Ok df.
Proof.
  destruct (docs_to_dataframe_against_raw docs drop_fields) as (df & Hrun & Hi & Ha & Hc).
  exists df. split; [assumption|]. split; [|split; [|split; [|split]]].
  - unfold nrows. rewrite Hi. apply nrows_raw_docs_to_df.
  - rewrite contains_assoc, Ha.
    destruct (existsb (String.eqb "_id") _); [reflexivity|].
    destruct docs as [|d0 docs]; [reflexivity|].
    rewrite raw_docs_to_df_records, assoc_of_records by discriminate.
    rewrite existsb_map_false; [reflexivity|]. apply with_id_has_no_id.
  - intros f Hf. rewrite contains_assoc, Ha.
    assert (Hex : existsb (String.eqb f) match drop_fields with Some fs => fs | None => [] end
                  = true).
    { apply existsb_exists. exists f. split; [assumption|apply String.eqb_refl]. }
    now rewrite Hex.
  - intros Hid. unfold contains in Hid.
    match type of Hc with _ = if ?b then _ else _ => destruct b eqn:Hk end.
    + eexists. split; [exact Hc|].
      intros Hin. apply filter_In in Hin as [_ Hne]. discriminate.
    + rewrite Hc in Hid. congruence.
  - rewrite <- Hrun.
    destruct docs as [|d0 docs]; [reflexivity|].
    rewrite !docs_to_dataframe_records by discriminate. cbv zeta.
    assert (Hsame :
      List.map (fun d => without ("_id" :: match drop_fields with Some fs => fs | None => [] end)
                                 (with_id d)) (d0 :: docs)
      = List.map (fun d => without match drop_fields with Some fs => fs | None => [] end
                                 (with_id d)) (d0 :: docs)).
    { apply map_ext. intros d. rewrite <- dict_pop_without.
      now rewrite (dict_pop_absent "_id" (with_id d) (with_id_has_no_id d)). }
    now rewrite Hsame.
Qed.

(** X6. [docs_to_dataframe] and [raw_docs_to_df] build the same table up
    to the dropped fields and the place of [id]: same row index, the same
    cells in every column that is not dropped, and the columns of
    [raw_docs_to_df] without the dropped ones, [id] moved to the front. *)
Theorem docs_to_dataframe_agrees_with_raw_docs_to_df `{Lib} (docs : list record)
    (drop_fields : option (list string)) :
  let fs := match drop_fields with Some fs => fs | None => [] end in
  let raw := raw_docs_to_df docs in
  let kept := List.filter (fun c => negb (existsb (String.eqb c) fs)) (columns raw) in
  exists df,
    docs_to_dataframe docs drop_fields = Ok df
    /\ index df = index raw
    /\ (forall c, assoc c (data df)
                  = if existsb (String.eqb c) fs then None else assoc c (data raw))
    /\ columns df
       = if existsb (String.eqb "id") kept
         then "id" :: List.filter (fun c => negb (String.eqb c "id")) kept
         else kept.
Proof. apply docs_to_dataframe_against_raw. Qed.

(** ** What [clean_and_transform] leaves alone *)

(** X7. [clean_and_transform] never drops, adds or reorders rows and never
    touches a column other than the seven it assigns: every other stored
    field passes through unchanged, every column of the table is still
    there, in its place, and the new columns come after them. *)
Theorem clean_and_transform_keeps_other_columns `{Lib} (today : Z) (df df' : DataFrame) :
  clean_and_transform today df = (Ok tt, df') ->
  index df' = index df
  /\ (forall c, ~ In c ASSIGNED -> assoc c (data df') = assoc c (data df))
  /\ (forall c, contains c df = true -> contains c df' = true)
  /\ (exists added, columns df' = columns df ++ added
                    /\ forall c, In c added -> In c ASSIGNED).
Proof.
  intros Hrun. destruct (empty df) eqn:He.
  - unfold clean_and_transform in Hrun. rewrite bind_gets, He in Hrun.
    unfold ret in Hrun. injection Hrun as <-.
    split; [reflexivity|]. split; [reflexivity|]. split; [auto|].
    exists []. split; [now rewrite app_nil_r|]. intros c [].
  - destruct (clean_and_transform_Ok today df df' He Hrun) as (q & td & _ & _ & ->).
    split; [|split; [|split]].
    + unfold cleaned, with_value. now rewrite !index_setcol.
    + intros c Hc. unfold cleaned, with_value. rewrite !assoc_setcol.
      unfold ASSIGNED in Hc. simpl in Hc.
      repeat match goal with
             | |- context [String.eqb c ?k] =>
                 destruct (String.eqb c k) eqn:?E;
                 [apply String.eqb_eq in E; subst c; exfalso; apply Hc; tauto|clear E]
             end.
      reflexivity.
    + intros c Hc. unfold cleaned, with_value. rewrite !contains_setcol, Hc.
      now rewrite !orb_true_r.
    + eexists. split; [apply columns_cleaned|].
      intros c Hc. now apply filter_In in Hc as [Hc _].
Qed.

Lemma clean_and_transform_keeps_other_columns_witness :
  index Example.mixed_cleaned = index Example.mixed_table
  /\ (forall c, ~ In c ASSIGNED ->
                assoc c (data Example.mixed_cleaned) = assoc c (data Example.mixed_table))
  /\ (forall c, contains c Example.mixed_table = true ->
                contains c Example.mixed_cleaned = true)
  /\ (exists added, columns Example.mixed_cleaned = columns Example.mixed_table ++ added
                    /\ forall c, In c added -> In c ASSIGNED).
Proof.
  apply (clean_and_transform_keeps_other_columns (H := Example.lib)
           Example.sample_today Example.mixed_table Example.mixed_cleaned).
  vm_compute. reflexivity.
Defined.

(** ** The day count of a known restock date *)

(** X8. For a row whose [last_restock] parses to the timestamp [t], the
    day count is the whole number of days from [t] to today's midnight,
    rounded toward minus infinity.  It is non-negative exactly when [t] is
    not after today's midnight, and it is [-1], the value that also marks
    an unknown date, exactly when [t] lies within the day after today's
    midnight. *)
Theorem days_since_restock_is_floor_of_days `{Lib} (today : Z) (df df' : DataFrame)
    (i : nat) (t : Z) :
  empty df = false ->
  clean_and_transform today df = (Ok tt, df') ->
  cell_at "last_restock" i df' = Some (Ts t) ->
  cell_at "days_since_restock" i df' = Some (Int ((Timestamp today - t) / ns_per_day))
  /\ (0 <= (Timestamp today - t) / ns_per_day <-> t <= Timestamp today)
  /\ ((Timestamp today - t) / ns_per_day = -1
      <-> Timestamp today < t <= Timestamp (today + 1)).
Proof.
  intros He Hrun Hr.
  destruct (days_of_restock today df df' i (Ts t) He Hrun Hr) as (td & Htd & Hd).
  simpl in Htd.
  destruct (in_timestamp (Timestamp today - t)) eqn:Ein; [|discriminate].
  injection Htd as <-.
  unfold in_timestamp in Ein. apply andb_true_iff in Ein as [Hlo Hhi].
  apply Z.ltb_lt in Hlo. apply Z.leb_le in Hhi.
  set (ns := Timestamp today - t) in *.
  assert (Hpos : 0 < ns_per_day) by reflexivity.
  assert (Hdm : ns = ns_per_day * (ns / ns_per_day) + ns mod ns_per_day)
    by (apply Z.div_mod; lia).
  assert (Hmod : 0 <= ns mod ns_per_day < ns_per_day) by (apply Z.mod_pos_bound; lia).
  split; [|split].
  - rewrite Hd. unfold days_cell, dt_days_cell, fill. simpl.
    rewrite wrap64_id; [reflexivity|].
    unfold min_int64, max_int64 in *.
    change ns_per_day with 86400000000000 in *. nia.
  - split; intros Hd0.
    + assert (0 <= ns) by nia. unfold ns in *. lia.
    + apply Z.div_pos; [unfold ns; lia|assumption].
  - replace (Timestamp (today + 1)) with (Timestamp today + ns_per_day)
      by (unfold Timestamp; lia).
    split; intros Hd1.
    + rewrite Hd1 in Hdm. unfold ns in *. lia.
    + assert (Hq : ns / ns_per_day = -1); [|exact Hq].
      symmetry. apply (Z.div_unique ns ns_per_day (-1) (ns + ns_per_day)).
      * left. unfold ns. lia.
      * lia.
Qed.

Lemma days_since_restock_is_floor_of_days_witness :
  cell_at "days_since_restock" 0 Example.mixed_cleaned
  = Some (Int ((Timestamp Example.sample_today - Timestamp 20362) / ns_per_day))
  /\ (0 <= (Timestamp Example.sample_today - Timestamp 20362) / ns_per_day
      <-> Timestamp 20362 <= Timestamp Example.sample_today)
  /\ ((Timestamp Example.sample_today - Timestamp 20362) / ns_per_day = -1
      <-> Timestamp Example.sample_today < Timestamp 20362
          <= Timestamp (Example.sample_today + 1)).
Proof.
  apply (days_since_restock_is_floor_of_days (H := Example.lib)
           Example.sample_today Example.mixed_table Example.mixed_cleaned 0
           (Timestamp 20362)).
  - reflexivity.
  - vm_compute. reflexivity.
  - vm_compute. reflexivity.
Defined.

(** ** Summary metrics *)

Lemma sum_is_int64 `{Lib} (q : list cell) :
  forallb is_int q = true -> sum q = Int (sum_int64 q).
Proof.
  intros Hq. unfold sum.
  replace (forallb _ q) with true; [reflexivity|].
  symmetry. apply forallb_forall. intros c Hc.
  rewrite forallb_forall in Hq. specialize (Hq c Hc). now destruct c.
Qed.

Lemma sum_is_float64 `{Lib} (v : list cell) (f : float) :
  In (Flt f) v -> sum v = Flt (float_sum (floats_of v)).
Proof.
  intros Hf. unfold sum.
  replace (forallb _ v) with false; [reflexivity|].
  symmetry. apply not_true_is_false. intros Hall.
  rewrite forallb_forall in Hall. now specialize (Hall _ Hf).
Qed.

(** X10. The summary metrics of a cleaned table never raise.  "Products
    shown" is the number of fetched documents; "Total quantity" is the sum
    of the [quantity] column in int64 arithmetic, the exact sum unless it
    leaves the int64 range; "Total inventory value" is the float sum of the
    values that are not NaN. *)
Theorem summary_metrics_of_cleaned `{Lib} (today : Z) (docs : list record) (df : DataFrame) :
  empty (raw_docs_to_df docs) = false ->
  clean_and_transform today (raw_docs_to_df docs) = (Ok tt, df) ->
  total_products df = length docs
  /\ total_quantity df = Ok (wrap64 (int_total (column "quantity" df)))
  /\ (min_int64 <= int_total (column "quantity" df) <= max_int64 ->
      total_quantity df = Ok (int_total (column "quantity" df)))
  /\ total_value df = Ok (float_sum (floats_of (column "value" df))).
Proof.
  intros He Hrun.
  pose proof (raw_docs_to_df_wf docs) as Hw.
  destruct (clean_and_transform_wf today _ df He Hw Hrun) as [Hw' Hint].
  destruct (clean_and_transform_Ok today _ df He Hrun) as (q & td & Hq & Htd & Hdf).
  assert (Aq : assoc "quantity" (data df) = Some q).
  { subst df. unfold cleaned, with_value. rewrite !assoc_setcol. now string_eqb. }
  assert (Cq : column "quantity" df = q) by (unfold column; now rewrite Aq).
  assert (Hn : nrows df = length docs).
  { subst df. rewrite nrows_cleaned. apply nrows_raw_docs_to_df. }
  assert (Tq : total_quantity df = Ok (wrap64 (int_total (column "quantity" df)))).
  { unfold total_quantity, getitem. rewrite contains_assoc, Aq. cbn [s_values].
    rewrite Cq in *. rewrite (sum_is_int64 q Hint). cbn [py_int].
    now rewrite sum_int64_total. }
  split; [exact Hn|]. split; [exact Tq|]. split.
  - intros Hr. rewrite Tq. now rewrite wrap64_id.
  - assert (Av : assoc "value" (data df)
                 = Some (zip_with mul_cell q (coerced_price (raw_docs_to_df docs)))).
    { subst df. unfold cleaned, with_value. rewrite !assoc_setcol. now string_eqb. }
    unfold total_value, getitem, column. rewrite contains_assoc, Av. cbn [s_values].
    pose proof (coerced_quantity_length _ q Hw Hq) as Lq.
    pose proof (coerced_price_length (raw_docs_to_df docs) Hw) as Lp.
    assert (Hrows : nrows (raw_docs_to_df docs) <> 0%nat).
    { unfold empty in He. apply orb_false_iff in He as [He _].
      now apply Nat.eqb_neq in He. }
    destruct q as [|a q'] eqn:Eq; [simpl in Lq; congruence|].
    destruct (coerced_price (raw_docs_to_df docs)) as [|b p'] eqn:Ep;
      [simpl in Lp; congruence|].
    destruct (coerced_quantity_Int _ _ 0%nat a Hq eq_refl) as [z ->].
    destruct (coerced_price_Flt (raw_docs_to_df docs) 0%nat b) as (f & -> & _).
    { now rewrite Ep. }
    cbn [zip_with mul_cell].
    rewrite (sum_is_float64 _ (PrimFloat.mul (float_of_Z z) f)) by now left.
    reflexivity.
Qed.

Lemma summary_metrics_of_cleaned_witness :
  total_products Example.mixed_cleaned = length Example.mixed_docs
  /\ total_quantity (H := Example.lib) Example.mixed_cleaned
     = Ok (wrap64 (int_total (column "quantity" Example.mixed_cleaned)))
  /\ (min_int64 <= int_total (column "quantity" Example.mixed_cleaned) <= max_int64 ->
      total_quantity (H := Example.lib) Example.mixed_cleaned
      = Ok (int_total (column "quantity" Example.mixed_cleaned)))
  /\ total_value (H := Example.lib) Example.mixed_cleaned
     = Ok (float_sum (Lib := Example.lib) (floats_of (column "value" Example.mixed_cleaned))).
Proof.
  apply (summary_metrics_of_cleaned (H := Example.lib) Example.sample_today
           Example.mixed_docs Example.mixed_cleaned).
  - reflexivity.
  - vm_compute. reflexivity.
Defined.

(** ** The rollup against the total *)

(** The table [cat_agg] returns, column by column. *)
Lemma cat_agg_Ok `{Lib} (df agg : DataFrame) :
  cat_agg df = Some (Ok agg) ->
  exists keys q v,
    assoc "category" (data df) = Some keys
    /\ assoc "quantity" (data df) = Some q
    /\ assoc "value" (data df) = Some v
    /\ agg = mkDF (seq 0 (length (groups keys)))
                  [("category", List.map fst (groups keys));
                   ("total_qty", List.map (fun g => sum (pick Null q (snd g))) (groups keys));
                   ("total_value", List.map (fun g => sum (pick Null v (snd g))) (groups keys))].
Proof.
  unfold cat_agg. destruct (contains "category" df); [|discriminate].
  intros [= Hagg]. unfold groupby_sum in Hagg.
  destruct (assoc "category" (data df)) as [keys|]; [|discriminate].
  cbn [mapM snd fst] in Hagg.
  destruct (assoc "quantity" (data df)) as [q|]; [|discriminate].
  destruct (assoc "value" (data df)) as [v|]; [|discriminate].
  destruct (sortable _) in Hagg; [|discriminate].
  injection Hagg as <-. exists keys, q, v. repeat split; reflexivity.
Qed.

Lemma rows_partition (keys : list cell) :
  Permutation (present_rows keys ++ missing_rows keys) (seq 0 (length keys)).
Proof. apply (filter_partition (fun i => isna (nth i keys Null))). Qed.

(** X11. Where the rollup loses rows: the total quantity of the summary
    is, in int64 arithmetic, the sum of the rollup's [total_qty] plus the
    quantities of the rows whose category is missing.  The two agree when
    every row has a category. *)
Theorem total_quantity_is_rollup_plus_uncategorised `{Lib} (today : Z)
    (df0 df agg : DataFrame) :
  empty df0 = false -> wf df0 = true ->
  clean_and_transform today df0 = (Ok tt, df) ->
  cat_agg df = Some (Ok agg) ->
  total_quantity df
  = Ok (wrap64 (int_total (column "total_qty" agg)
                + int_total (pick Null (column "quantity" df)
                                  (missing_rows (column "category" df)))))
  /\ (missing_rows (column "category" df) = [] ->
      total_quantity df = Ok (sum_int64 (column "total_qty" agg))).
Proof.
  intros He Hw Hrun Hagg.
  destruct (clean_and_transform_wf today df0 df He Hw Hrun) as [Hw' Hint].
  destruct (cat_agg_Ok df agg Hagg) as (keys & q & v & Ak & Aq & Av & ->).
  assert (Cq : column "quantity" df = q) by (unfold column; now rewrite Aq).
  assert (Ck : column "category" df = keys) by (unfold column; now rewrite Ak).
  rewrite Cq in Hint. rewrite Cq, Ck.
  assert (Hlen : length keys = length q).
  { rewrite (wf_assoc _ _ _ Hw' Ak). symmetry. exact (wf_assoc _ _ _ Hw' Aq). }
  assert (Tq : total_quantity df = Ok (wrap64 (int_total q))).
  { unfold total_quantity, getitem. rewrite contains_assoc, Aq. cbn [s_values].
    rewrite (sum_is_int64 q Hint). cbn [py_int]. now rewrite sum_int64_total. }
  assert (Ct : column "total_qty"
                 (mkDF (seq 0 (length (groups keys)))
                    [("category", List.map fst (groups keys));
                     ("total_qty",
                      List.map (fun g => sum (pick Null q (snd g))) (groups keys));
                     ("total_value",
                      List.map (fun g => sum (pick Null v (snd g))) (groups keys))])
               = List.map (fun rows => Int (sum_int64 (pick Null q rows)))
                          (List.map snd (groups keys))).
  { unfold column. simpl. rewrite map_map. apply map_ext_in. intros g Hg.
    apply sum_is_int64. apply pick_is_int; [assumption|].
    intros i Hi. rewrite <- Hlen. apply present_rows_bound.
    destruct (groups_partition keys) as [Hperm _].
    eapply Permutation_in; [exact Hperm|].
    apply in_concat. exists (snd g). split; [now apply in_map|assumption]. }
  rewrite Ct.
  destruct (groups_partition keys) as [Hperm _].
  assert (Hgroups : wrap64 (int_total (List.map (fun rows => Int (sum_int64 (pick Null q rows)))
                                                (List.map snd (groups keys))))
                    = wrap64 (int_total (pick Null q (present_rows keys)))).
  { rewrite <- !sum_int64_total, sum_of_group_sums.
    now apply sum_int64_pick_Permutation. }
  assert (Hall : int_total q
                 = int_total (pick Null q (present_rows keys))
                   + int_total (pick Null q (missing_rows keys))).
  { rewrite <- int_total_app, <- pick_app.
    apply int_total_Permutation. symmetry. apply pick_Permutation.
    rewrite <- Hlen. apply rows_partition. }
  split.
  - rewrite Tq, Hall. f_equal.
    rewrite <- wrap64_add_l, <- Hgroups, wrap64_add_l. reflexivity.
  - intros Hnone. rewrite Tq, Hall, Hnone. cbn [pick List.map int_total fold_right].
    rewrite Z.add_0_r, <- Hgroups. now rewrite sum_int64_total.
Qed.

Lemma total_quantity_is_rollup_plus_uncategorised_witness :
  total_quantity (H := Example.lib) Example.mixed_cleaned
  = Ok (wrap64 (int_total (column "total_qty" Example.mixed_agg)
                + int_total (pick Null (column "quantity" Example.mixed_cleaned)
                                  (missing_rows (column "category" Example.mixed_cleaned)))))
  /\ (missing_rows (column "category" Example.mixed_cleaned) = [] ->
      total_quantity (H := Example.lib) Example.mixed_cleaned
      = Ok (sum_int64 (column "total_qty" Example.mixed_agg))).
Proof.
  apply (total_quantity_is_rollup_plus_uncategorised (H := Example.lib)
           Example.sample_today Example.mixed_table Example.mixed_cleaned Example.mixed_agg).
  - reflexivity.
  - reflexivity.
  - vm_compute. reflexivity.
  - vm_compute. reflexivity.
Defined.

(** ** Groups of one kind of key

    The groups of a column whose present keys are all of one kind (texts,
    timestamps): one group per distinct key, in ascending order, each with
    the rows that hold that key. *)

(** The rows of the numbered keys that satisfy [P]. *)
Lemma filter_combine_seq (P : cell -> bool) (keys : list cell) (s : nat) :
  List.map fst (List.filter (fun ik => P (snd ik)) (combine (seq s (length keys)) keys))
  = List.filter (fun i => P (nth (i - s) keys Null)) (seq s (length keys)).
Proof.
  revert s. induction keys as [|k keys IH]; intros s; [reflexivity|].
  assert (Hrest :
    List.filter (fun i => P (nth (i - s) (k :: keys) Null)) (seq (S s) (length keys))
    = List.filter (fun i => P (nth (i - S s) keys Null)) (seq (S s) (length keys))).
  { apply filter_ext_in. intros i Hi. apply in_seq in Hi.
    replace (i - s)%nat with (S (i - S s)) by lia. reflexivity. }
  cbn [length seq combine List.filter snd].
  rewrite Nat.sub_diag. cbn [nth].
  destruct (P k); cbn [List.map fst]; rewrite IH.
  - f_equal. symmetry. exact Hrest.
  - symmetry. exact Hrest.
Qed.

Lemma in_combine_seq (keys : list cell) (s i : nat) (k : cell) :
  nth_error keys i = Some k -> In ((s + i)%nat, k) (combine (seq s (length keys)) keys).
Proof.
  revert s i. induction keys as [|k' keys IH]; intros s [|i] Hk; simpl in *;
    try discriminate.
  - injection Hk as ->. left. f_equal. lia.
  - right. replace (s + S i)%nat with (S s + i)%nat by lia. now apply IH.
Qed.

(** A kind of key: its values [K] with their embedding into cells, the
    test [is_k a] for "the cell is the key [a]", and the equality and the
    order that [groupby] uses on such cells. *)
Section KeyKind.

Variable K : Type.
Variable inj : K -> cell.
Variable is_k : K -> cell -> bool.
Variable keqb kleb : K -> K -> bool.

Hypothesis keqb_eq : forall a b, keqb a b = true <-> a = b.
Hypothesis kleb_total : forall a b, kleb a b = true \/ kleb b a = true.
Hypothesis key_eqb_inj : forall a b, key_eqb (inj a) (inj b) = keqb a b.
Hypothesis key_leb_inj : forall a b, key_leb (inj a) (inj b) = kleb a b.
Hypothesis is_k_inj : forall a b, is_k a (inj b) = keqb b a.
Hypothesis is_k_na : forall a c, isna c = true -> is_k a c = false.
Hypothesis inj_present : forall a, isna (inj a) = false.

Lemma keqb_refl (a : K) : keqb a a = true.
Proof. now apply keqb_eq. Qed.

Lemma add_to_group_kind (a0 : K) (i : nat) (R : K -> list nat) (names : list K) :
  List.NoDup names ->
  add_to_group (inj a0) i (List.map (fun a => (inj a, R a)) names)
  = if existsb (keqb a0) names
    then List.map (fun a => (inj a, R a ++ (if keqb a0 a then [i] else []))) names
    else List.map (fun a => (inj a, R a)) names ++ [(inj a0, [i])].
Proof.
  induction 1 as [|a names Ha Hnd IH]; [reflexivity|].
  cbn [List.map add_to_group existsb]. rewrite key_eqb_inj.
  assert (Hsym : keqb a a0 = keqb a0 a).
  { destruct (keqb a a0) eqn:E1, (keqb a0 a) eqn:E2; try reflexivity.
    - apply keqb_eq in E1. subst. now rewrite keqb_refl in E2.
    - apply keqb_eq in E2. subst. now rewrite keqb_refl in E1. }
  rewrite Hsym.
  destruct (keqb a0 a) eqn:Ea; cbn [orb].
  - apply keqb_eq in Ea. subst a0. f_equal.
    apply map_ext_in. intros a' Ha'.
    destruct (keqb a a') eqn:E; [|now rewrite app_nil_r].
    apply keqb_eq in E. subst a'. contradiction.
  - rewrite IH. rewrite app_nil_r.
    destruct (existsb (keqb a0) names); reflexivity.
Qed.

Lemma fold_group_step_kind (l : list (nat * cell)) :
  (forall ik, In ik l -> isna (snd ik) = true \/ exists a, snd ik = inj a) ->
  exists names,
    List.NoDup names
    /\ fold_left group_step l []
       = List.map (fun a => (inj a,
                             List.map fst (List.filter (fun ik => is_k a (snd ik)) l)))
                  names
    /\ (forall a, In a names <-> exists i, In (i, inj a) l).
Proof.
  induction l as [|[i k] l IH] using rev_ind; intros Ht.
  - exists []. split; [constructor|]. split; [reflexivity|].
    intros a. split; [intros []|intros [i []]].
  - destruct IH as (names & Hnd & Hgs & Hin).
    { intros ik Hik. apply Ht. apply in_or_app. now left. }
    assert (Hk : isna k = true \/ exists a, k = inj a).
    { apply (Ht (i, k)). apply in_or_app. right. now left. }
    rewrite fold_left_app. cbn [fold_left]. rewrite Hgs.
    unfold group_step; cbn [fst snd].
    destruct (isna k) eqn:Ena.
    + exists names. split; [assumption|]. split.
      * apply map_ext. intros a. rewrite List.filter_app. cbn [List.filter snd].
        rewrite (is_k_na a k Ena). now rewrite app_nil_r.
      * intros a. rewrite Hin. split; intros [j Hj]; exists j.
        -- apply in_or_app. now left.
        -- apply in_app_or in Hj as [Hj|[Hj|[]]]; [assumption|].
           injection Hj as _ ->. now rewrite inj_present in Ena.
    + destruct Hk as [Hk|[a0 ->]]; [discriminate|].
      rewrite (add_to_group_kind a0 i _ names Hnd).
      destruct (existsb (keqb a0) names) eqn:Ex.
      * exists names. split; [assumption|]. split.
        -- apply map_ext. intros a. rewrite List.filter_app, map_app.
           cbn [List.filter snd]. rewrite is_k_inj.
           destruct (keqb a0 a); reflexivity.
        -- intros a. rewrite Hin. split; intros [j Hj].
           ++ exists j. apply in_or_app. now left.
           ++ apply in_app_or in Hj as [Hj|[Hj|[]]]; [eauto|].
              injection Hj as _ Hj.
              apply existsb_exists in Ex as (a' & Ha' & E).
              apply keqb_eq in E. subst a'. apply Hin in Ha' as [j' Hj'].
              exists j'. now rewrite <- Hj.
      * assert (Hnew : ~ In a0 names).
        { intros Hs.
          assert (E : existsb (keqb a0) names = true).
          { apply existsb_exists. exists a0. split; [assumption|apply keqb_refl]. }
          congruence. }
        assert (Hnone : List.filter (fun ik => is_k a0 (snd ik)) l = []).
        { destruct (List.filter _ l) as [|[j c] r] eqn:E; [reflexivity|]. exfalso.
          assert (Hj : In (j, c) (List.filter (fun ik => is_k a0 (snd ik)) l))
            by (rewrite E; now left).
          apply filter_In in Hj as [Hl Hc]. cbn [snd] in Hc.
          destruct (Ht (j, c)) as [Hna|[a Ha]]; [apply in_or_app; now left| |].
          - cbn [snd] in Hna. now rewrite (is_k_na a0 c Hna) in Hc.
          - cbn [snd] in Ha. subst c.
            rewrite is_k_inj in Hc. apply keqb_eq in Hc. subst a.
            apply Hnew. apply Hin. eauto. }
        exists (names ++ [a0]). split; [|split].
        -- apply (Permutation_NoDup (Permutation_cons_append names a0)).
           now constructor.
        -- rewrite map_app. cbn [List.map]. f_equal.
           ++ apply map_ext_in. intros a Ha. rewrite List.filter_app, map_app.
              cbn [List.filter snd]. rewrite is_k_inj.
              destruct (keqb a0 a) eqn:E; [|now rewrite app_nil_r].
              apply keqb_eq in E. subst a. contradiction.
           ++ f_equal. f_equal. rewrite List.filter_app, map_app.
              cbn [List.filter snd]. rewrite is_k_inj, keqb_refl. cbn [List.map fst].
              now rewrite Hnone.
        -- intros a. rewrite in_app_iff, Hin. split.
           ++ intros [[j Hj]|[<-|[]]].
              ** exists j. apply in_or_app. now left.
              ** exists i. apply in_or_app. right. now left.
           ++ intros [j Hj]. apply in_app_or in Hj as [Hj|[Hj|[]]]; [eauto|].
              injection Hj as _ Hj. right. left.
              destruct (keqb a0 a) eqn:E; [now apply keqb_eq in E|]. exfalso.
              rewrite <- key_eqb_inj, Hj, key_eqb_inj, keqb_refl in E. discriminate.
Qed.

Lemma insert_group_kind (R : K -> list nat) (a : K) (names : list K) :
  Sorted (fun a b => kleb a b = true) names ->
  exists names',
    insert_group (inj a, R a) (List.map (fun a => (inj a, R a)) names)
    = List.map (fun a => (inj a, R a)) names'
    /\ Permutation names' (a :: names)
    /\ Sorted (fun a b => kleb a b = true) names'
    /\ (forall x, kleb x a = true ->
                  HdRel (fun a b => kleb a b = true) x names ->
                  HdRel (fun a b => kleb a b = true) x names').
Proof.
  induction names as [|b names IH]; intros Hs.
  - exists [a]. split; [reflexivity|]. split; [reflexivity|].
    split; [repeat constructor|]. intros x Hx _. now constructor.
  - cbn [List.map insert_group fst]. rewrite key_leb_inj.
    destruct (kleb a b) eqn:Eb.
    + exists (a :: b :: names). split; [reflexivity|]. split; [reflexivity|].
      split; [constructor; [assumption|now constructor]|].
      intros x Hx _. now constructor.
    + apply Sorted_inv in Hs as [Hs Hb].
      destruct (IH Hs) as (names' & Hins & Hperm & Hsorted & Hhd).
      exists (b :: names'). split; [now rewrite Hins|]. split.
      * rewrite Hperm. apply perm_swap.
      * assert (Hba : kleb b a = true).
        { destruct (kleb_total b a) as [E|E]; [assumption|congruence]. }
        split; [constructor; [assumption|now apply Hhd]|].
        intros x Hx Hxb. constructor. now inversion Hxb.
Qed.

Lemma sort_groups_kind (R : K -> list nat) (names : list K) :
  exists names',
    sort_groups (List.map (fun a => (inj a, R a)) names)
    = List.map (fun a => (inj a, R a)) names'
    /\ Permutation names' names
    /\ Sorted (fun a b => kleb a b = true) names'.
Proof.
  induction names as [|a names IH].
  - exists []. split; [reflexivity|]. split; [reflexivity|constructor].
  - destruct IH as (names' & Hsort & Hperm & Hsorted).
    destruct (insert_group_kind R a names' Hsorted) as (names'' & Hins & Hperm' & Hs' & _).
    exists names''. unfold sort_groups in *. cbn [List.map fold_right].
    rewrite Hsort. split; [assumption|]. split; [|assumption].
    rewrite Hperm'. now constructor.
Qed.

Lemma groups_kind (keys : list cell) :
  (forall c, In c keys -> isna c = true \/ exists a, c = inj a) ->
  exists names,
    groups keys = List.map (fun a => (inj a, rows_where (is_k a) keys)) names
    /\ Sorted (fun a b => kleb a b = true) names
    /\ List.NoDup names
    /\ (forall a, In a names <-> In (inj a) keys).
Proof.
  intros Ht. unfold groups.
  destruct (fold_group_step_kind (combine (seq 0 (length keys)) keys))
    as (names & Hnd & Hgs & Hin).
  { intros [i k] Hik. apply in_combine_r in Hik. now apply Ht. }
  rewrite Hgs.
  destruct (sort_groups_kind
              (fun a => List.map fst
                          (List.filter (fun ik => is_k a (snd ik))
                                       (combine (seq 0 (length keys)) keys)))
              names) as (names' & Hsort & Hperm & Hsorted).
  exists names'. rewrite Hsort. split; [|split; [assumption|split]].
  - apply map_ext. intros a. f_equal.
    rewrite (filter_combine_seq (is_k a)). unfold rows_where.
    apply filter_ext. intros i. now rewrite Nat.sub_0_r.
  - apply (Permutation_NoDup (Permutation_sym Hperm)). assumption.
  - intros a. split.
    + intros Ha. apply (Permutation_in _ Hperm), Hin in Ha as [i Hi].
      now apply in_combine_r in Hi.
    + intros Ha. apply (Permutation_in _ (Permutation_sym Hperm)), Hin.
      apply In_nth_error in Ha as [i Hi]. exists i.
      exact (in_combine_seq keys 0 i (inj a) Hi).
Qed.

End KeyKind.

(** The groups of a key column of texts. *)
Lemma groups_text (keys : list cell) :
  forallb text_or_missing keys = true ->
  exists names,
    groups keys = List.map (fun s => (Str s, rows_with_text s keys)) names
    /\ Sorted (fun a b => String.leb a b = true) names
    /\ List.NoDup names
    /\ (forall s, In s names <-> In (Str s) keys).
Proof.
  intros Ht.
  apply (groups_kind string Str is_text String.eqb String.leb).
  - apply String.eqb_eq.
  - apply String.leb_total.
  - reflexivity.
  - reflexivity.
  - reflexivity.
  - intros s c Hc. destruct c; try reflexivity; discriminate.
  - reflexivity.
  - intros c Hc. rewrite forallb_forall in Ht. specialize (Ht c Hc).
    destruct c; simpl in Ht; eauto.
Qed.

(** The groups of a key column of timestamps. *)
Lemma groups_timestamps (keys : list cell) :
  List.Forall (fun c => exists t, c = Ts t) keys ->
  exists months,
    groups keys = List.map (fun t => (Ts t, rows_where (is_timestamp t) keys)) months
    /\ Sorted (fun a b => Z.leb a b = true) months
    /\ List.NoDup months
    /\ (forall t, In t months <-> In (Ts t) keys).
Proof.
  intros Ht.
  apply (groups_kind Z Ts is_timestamp Z.eqb Z.leb).
  - apply Z.eqb_eq.
  - intros a b. rewrite !Z.leb_le. lia.
  - reflexivity.
  - reflexivity.
  - reflexivity.
  - intros s c Hc. destruct c; try reflexivity; discriminate.
  - reflexivity.
  - intros c Hc. rewrite List.Forall_forall in Ht. right. now apply Ht.
Qed.

(** ** The rollup, group by group *)

(** X12. The rollup of a table whose categories are texts (or missing)
    has the columns [category], [total_qty], [total_value] and one row per
    distinct category, in ascending order of the category; the totals of a
    row are the sums of [quantity] and of [value] over exactly the rows
    that hold that category. *)
Theorem rollup_is_one_row_per_category_ascending `{Lib} (df agg : DataFrame) :
  cat_agg df = Some (Ok agg) ->
  forallb text_or_missing (column "category" df) = true ->
  exists names,
    Sorted (fun a b => String.leb a b = true) names
    /\ List.NoDup names
    /\ (forall s, In s names <-> In (Str s) (column "category" df))
    /\ index agg = seq 0 (length names)
    /\ columns agg = ["category"; "total_qty"; "total_value"]
    /\ column "category" agg = List.map Str names
    /\ column "total_qty" agg
       = List.map (fun s => sum (pick Null (column "quantity" df)
                                      (rows_with_text s (column "category" df))))
                  names
    /\ column "total_value" agg
       = List.map (fun s => sum (pick Null (column "value" df)
                                      (rows_with_text s (column "category" df))))
                  names.
Proof.
  intros Hagg Ht.
  destruct (cat_agg_Ok df agg Hagg) as (keys & q & v & Ak & Aq & Av & ->).
  assert (Ck : column "category" df = keys) by (unfold column; now rewrite Ak).
  assert (Cq : column "quantity" df = q) by (unfold column; now rewrite Aq).
  assert (Cv : column "value" df = v) by (unfold column; now rewrite Av).
  rewrite Ck in *. rewrite Cq, Cv.
  destruct (groups_text keys Ht) as (names & Hg & Hsorted & Hnd & Hin).
  exists names. rewrite Hg.
  split; [assumption|]. split; [assumption|]. split; [assumption|].
  unfold column; cbn [index data columns List.map fst assoc String.eqb Ascii.eqb Bool.eqb].
  rewrite !map_map, length_map. cbn [fst snd].
  repeat split; reflexivity.
Qed.

Lemma rollup_is_one_row_per_category_ascending_witness :
  exists names,
    Sorted (fun a b => String.leb a b = true) names
    /\ List.NoDup names
    /\ (forall s, In s names <-> In (Str s) (column "category" Example.mixed_cleaned))
    /\ index Example.mixed_agg = seq 0 (length names)
    /\ columns Example.mixed_agg = ["category"; "total_qty"; "total_value"]
    /\ column "category" Example.mixed_agg = List.map Str names
    /\ column "total_qty" Example.mixed_agg
       = List.map (fun s => sum (H := Example.lib)
                              (pick Null (column "quantity" Example.mixed_cleaned)
                                    (rows_with_text s (column "category" Example.mixed_cleaned))))
                  names
    /\ column "total_value" Example.mixed_agg
       = List.map (fun s => sum (H := Example.lib)
                              (pick Null (column "value" Example.mixed_cleaned)
                                    (rows_with_text s (column "category" Example.mixed_cleaned))))
                  names.
Proof.
  apply (rollup_is_one_row_per_category_ascending (H := Example.lib)
           Example.mixed_cleaned Example.mixed_agg).
  - vm_compute. reflexivity.
  - vm_compute. reflexivity.
Defined.

(** ** The low-stock block *)

(** [low] returns on every table with a [quantity] column of integers: the
    selected rows in the order of the sort, cut to twenty. *)
Lemma low_returns `{Lib} (low_stock_thresh : Z) (df : DataFrame) (vs : list cell) :
  wf df = true ->
  assoc "quantity" (data df) = Some vs ->
  forallb is_int vs = true ->
  argsort_ok
    (column "quantity"
       (getitem_mask (le_scalar (mkSeries (index df) vs) (Int low_stock_thresh)) df))
    true = true ->
  exists sorted,
    Permutation sorted
      (List.filter (fun i => cell_leb (nth i vs Null) (Int low_stock_thresh))
                   (seq 0 (nrows df)))
    /\ low low_stock_thresh df = Some (Ok (take_rows (firstn 20 sorted) df)).
Proof.
  intros Hw Ea Hint Hok.
  unfold low. rewrite contains_assoc, Ea. rewrite (getitem_assoc _ _ _ Ea).
  set (m := nonzero (le_scalar (mkSeries (index df) vs) (Int low_stock_thresh))) in *.
  assert (Hm : m = List.filter (fun i => cell_leb (nth i vs Null) (Int low_stock_thresh))
                               (seq 0 (nrows df))).
  { unfold m, le_scalar; simpl.
    rewrite (nonzero_map (fun c => cell_leb c (Int low_stock_thresh))).
    now rewrite (wf_assoc _ _ _ Hw Ea). }
  assert (Hmb : forall i, In i m -> (i < length vs)%nat).
  { intros i Hi. rewrite Hm in Hi. apply filter_In in Hi as [Hi _].
    apply in_seq in Hi. rewrite (wf_assoc _ _ _ Hw Ea). lia. }
  unfold getitem_mask in *. fold m in Hok |- *.
  rewrite (column_take_rows _ _ _ _ Ea) in Hok.
  unfold sort_values. rewrite assoc_take_rows, Ea. cbn [option_map].
  destruct (nargsort_spec _ _ Hok) as (body & Hn & Hperm & Hasc).
  destruct (present_rows_all (pick Null vs m)) as [Hall Hnan];
    [now apply pick_is_int|].
  rewrite Hall, pick_length in Hperm. rewrite Hnan, app_nil_r in Hn.
  assert (Hb : forall k, In k body -> (k < length m)%nat).
  { intros k Hk. apply (Permutation_in _ Hperm) in Hk. apply in_seq in Hk. lia. }
  rewrite Hn, head_take.
  rewrite take_take by (intros k Hk; apply Hb; eapply in_firstn; exact Hk).
  exists (pick O m body). split.
  - rewrite <- Hm. now apply pick_Permutation.
  - unfold pick. now rewrite firstn_map.
Qed.

Lemma contains_take_rows (c : string) (m : list nat) (df : DataFrame) :
  contains c (take_rows m df) = contains c df.
Proof.
  rewrite !contains_assoc, assoc_take_rows. now destruct (assoc c (data df)).
Qed.

Lemma nrows_take_rows (m : list nat) (df : DataFrame) : nrows (take_rows m df) = length m.
Proof. unfold nrows, take_rows; cbn [index]. apply length_map. Qed.

Lemma empty_take_rows (m : list nat) (df : DataFrame) :
  data df <> [] -> empty (take_rows m df) = Nat.eqb (length m) 0.
Proof.
  intros Hd. unfold empty, take_rows; cbn [index data]. rewrite !length_map.
  destruct (data df); [congruence|]. cbn [length Nat.eqb]. apply orb_false_r.
Qed.

Lemma cleaned_has `{Lib} (df : DataFrame) (q td : list cell) (c : string) :
  In c ASSIGNED -> exists vs, assoc c (data (cleaned df q td)) = Some vs.
Proof.
  intros Hc. unfold cleaned, with_value. rewrite !assoc_setcol.
  unfold ASSIGNED in Hc. simpl in Hc.
  repeat (destruct Hc as [<-|Hc]; [string_eqb; eauto|]). contradiction.
Qed.

(** X13. The low-stock block on a cleaned table, when the library's sort
    did its job.  With no row at or under the threshold it shows the count
    0 and no table.  Otherwise it shows the count [min 20 selected] and
    the five columns [sku, name, quantity, supplier, days_since_restock]
    if the table has a [supplier] column, and raises [KeyError] on
    [supplier] if no fetched document has that field: [supplier] is the
    one column of the five that [clean_and_transform] does not create. *)
Theorem low_stock_block_needs_supplier `{Lib} (today low_stock_thresh : Z)
    (df0 df : DataFrame) :
  empty df0 = false -> wf df0 = true ->
  clean_and_transform today df0 = (Ok tt, df) ->
  argsort_ok
    (column "quantity"
       (getitem_mask (le_scalar (mkSeries (index df) (column "quantity" df))
                                (Int low_stock_thresh)) df))
    true = true ->
  let selected :=
    List.filter (fun i => cell_leb (nth i (column "quantity" df) Null) (Int low_stock_thresh))
                (seq 0 (nrows df)) in
  match selected with
  | [] => low_stock_block low_stock_thresh df = Some (Ok (0%nat, None))
  | _ :: _ =>
      if contains "supplier" df
      then exists t,
          low_stock_block low_stock_thresh df
          = Some (Ok (Nat.min 20 (length selected), Some t))
          /\ columns t = LOW_COLS
          /\ nrows t = Nat.min 20 (length selected)
      else low_stock_block low_stock_thresh df = Some (Raise (KeyError "supplier"))
  end.
Proof.
  intros He Hw Hrun Hok. cbv zeta.
  destruct (clean_and_transform_wf today df0 df He Hw Hrun) as [Hw' Hint].
  destruct (clean_and_transform_Ok today df0 df He Hrun) as (q & td & _ & _ & Hdf).
  assert (Has : forall c, In c ASSIGNED -> exists vs, assoc c (data df) = Some vs).
  { intros c Hc. subst df. now apply cleaned_has. }
  destruct (Has "quantity") as [vs Ea]; [simpl; tauto|].
  assert (Cq : column "quantity" df = vs) by (unfold column; now rewrite Ea).
  rewrite Cq in *.
  destruct (low_returns low_stock_thresh df vs Hw' Ea Hint Hok) as (sorted & Hperm & Hlow).
  set (selected := List.filter _ _) in *.
  set (out := take_rows (firstn 20 sorted) df) in *.
  assert (Hd : data df <> []) by (intros E; rewrite E in Ea; discriminate).
  assert (Hn : nrows out = Nat.min 20 (length selected)).
  { unfold out. now rewrite nrows_take_rows, length_firstn, (Permutation_length Hperm). }
  assert (Hempty : empty out = Nat.eqb (Nat.min 20 (length selected)) 0).
  { unfold out. rewrite (empty_take_rows _ _ Hd), length_firstn.
    now rewrite (Permutation_length Hperm). }
  unfold low_stock_block. rewrite Hlow. cbv beta iota. rewrite Hempty, Hn.
  destruct selected as [|i sel] eqn:Es; [reflexivity|].
  replace (Nat.eqb (Nat.min 20 (length (i :: sel))) 0) with false
    by (symmetry; apply Nat.eqb_neq; simpl; lia).
  destruct (contains "supplier" df) eqn:Hs.
  - rewrite (getitems_columns LOW_COLS out).
    + eexists. split; [reflexivity|]. split.
      * unfold columns; cbn [data]. apply columns_map_keys.
      * unfold nrows; cbn [index]. exact Hn.
    + intros c Hc. unfold out. rewrite contains_take_rows.
      unfold LOW_COLS in Hc. simpl in Hc.
      destruct Hc as [<-|[<-|[<-|[<-|[<-|[]]]]]]; try assumption;
        rewrite contains_assoc;
        match goal with |- context [assoc ?c _] =>
          destruct (Has c) as [x ->]; [simpl; tauto|reflexivity] end.
  - rewrite contains_assoc in Hs.
    destruct (assoc "supplier" (data df)) eqn:Esup; [discriminate|].
    destruct (Has "sku") as [sk Esk]; [simpl; tauto|].
    destruct (Has "name") as [nm Enm]; [simpl; tauto|].
    unfold getitems, LOW_COLS, out. cbn [mapM].
    rewrite !assoc_take_rows, Esk, Enm, Ea, Esup. reflexivity.
Qed.

Lemma low_stock_block_needs_supplier_witness :
  let selected :=
    List.filter (fun i => cell_leb (nth i (column "quantity" Example.nameless_once) Null)
                                   (Int 30))
                (seq 0 (nrows Example.nameless_once)) in
  match selected with
  | [] => low_stock_block (H := Example.lib) 30 Example.nameless_once
          = Some (Ok (0%nat, None))
  | _ :: _ =>
      if contains "supplier" Example.nameless_once
      then exists t,
          low_stock_block (H := Example.lib) 30 Example.nameless_once
          = Some (Ok (Nat.min 20 (length selected), Some t))
          /\ columns t = LOW_COLS
          /\ nrows t = Nat.min 20 (length selected)
      else low_stock_block (H := Example.lib) 30 Example.nameless_once
           = Some (Raise (KeyError "supplier"))
  end.
Proof.
  apply (low_stock_block_needs_supplier (H := Example.lib) Example.sample_today 30
           Example.nameless_table Example.nameless_once).
  - reflexivity.
  - reflexivity.
  - vm_compute. reflexivity.
  - vm_compute. reflexivity.
Defined.

(** The one document without a [supplier] has a quantity of 7: with the
    default threshold the block raises. *)
Example low_stock_block_raises_without_supplier :
  low_stock_block (H := Example.lib) 30 Example.nameless_once
  = Some (Raise (KeyError "supplier")).
Proof. vm_compute. reflexivity. Qed.

(** ** The charts never raise on a cleaned table *)

Lemma assoc_head (c : string) (n : nat) (df : DataFrame) :
  assoc c (data (head n df)) = option_map (firstn n) (assoc c (data df)).
Proof.
  unfold head; cbn [data].
  induction (data df) as [|[k vs] l IH]; simpl; [reflexivity|].
  destruct (String.eqb c k); [reflexivity|exact IH].
Qed.

Lemma sortable_texts (names : list string) : sortable (List.map Str names) = true.
Proof.
  unfold sortable.
  replace (List.filter (fun k => negb (is_str k)) (List.map Str names)) with (@nil cell);
    [reflexivity|].
  induction names as [|s names IH]; simpl; [reflexivity|exact IH].
Qed.

(** X14. On a table [clean_and_transform] returned whose stored categories
    are texts (or missing), the category rollup, the top-10 chart and the
    low-stock selection never raise: the rollup is computed exactly when a
    fetched document has a [category], the other two always. *)
Theorem charts_never_raise_on_cleaned `{Lib} (today low_stock_thresh : Z)
    (df0 df : DataFrame) :
  empty df0 = false ->
  clean_and_transform today df0 = (Ok tt, df) ->
  forallb text_or_missing (column "category" df0) = true ->
  (if contains "category" df0
   then exists agg, cat_agg df = Some (Ok agg)
   else cat_agg df = None)
  /\ (exists top, top_by_value df = Some (Ok top))
  /\ (exists out, low low_stock_thresh df = Some (Ok out)).
Proof.
  intros He Hrun Htext.
  destruct (clean_and_transform_Ok today df0 df He Hrun) as (q & td & _ & _ & Hdf).
  assert (Has : forall c, In c ASSIGNED -> exists vs, assoc c (data df) = Some vs).
  { intros c Hc. subst df. now apply cleaned_has. }
  destruct (Has "quantity") as [vq Eq]; [simpl; tauto|].
  destruct (Has "value") as [vv Ev]; [simpl; tauto|].
  destruct (Has "name") as [vn En]; [simpl; tauto|].
  split; [|split].
  - assert (Hcat : assoc "category" (data df) = assoc "category" (data df0)).
    { subst df. unfold cleaned, with_value. rewrite !assoc_setcol. now string_eqb. }
    unfold cat_agg. rewrite !contains_assoc, Hcat.
    unfold column in Htext.
    destruct (assoc "category" (data df0)) as [keys|] eqn:Ek; [|reflexivity].
    unfold groupby_sum. rewrite Hcat. cbn [mapM snd fst]. rewrite Eq, Ev.
    destruct (groups_text keys Htext) as (names & Hg & _).
    rewrite Hg, map_map. cbn [fst]. rewrite sortable_texts.
    eexists. reflexivity.
  - unfold top_by_value. rewrite !contains_assoc, Ev, En. cbn [andb].
    unfold top_rows, sort_values. rewrite Ev.
    unfold set_index. rewrite assoc_head, assoc_take_rows, En. cbn [option_map].
    unfold getitems. cbn [mapM data index].
    rewrite assoc_filter_ne by reflexivity.
    rewrite assoc_head, assoc_take_rows, Ev. cbn [option_map].
    eexists. reflexivity.
  - unfold low. rewrite contains_assoc, Eq. rewrite (getitem_assoc _ _ _ Eq).
    unfold sort_values, getitem_mask. rewrite assoc_take_rows, Eq. cbn [option_map].
    eexists. reflexivity.
Qed.

Lemma charts_never_raise_on_cleaned_witness :
  (if contains "category" Example.mixed_table
   then exists agg, cat_agg (H := Example.lib) Example.mixed_cleaned = Some (Ok agg)
   else cat_agg (H := Example.lib) Example.mixed_cleaned = None)
  /\ (exists top, top_by_value (H := Example.lib) Example.mixed_cleaned = Some (Ok top))
  /\ (exists out, low (H := Example.lib) 30 Example.mixed_cleaned = Some (Ok out)).
Proof.
  apply (charts_never_raise_on_cleaned (H := Example.lib) Example.sample_today 30
           Example.mixed_table Example.mixed_cleaned).
  - reflexivity.
  - vm_compute. reflexivity.
  - vm_compute. reflexivity.
Defined.

(** The rollup raises where two stored categories cannot be ordered: here
    a number and an ObjectId. *)
Example cat_agg_raises_on_unorderable_categories :
  column "category" Example.odd_cleaned = [Int 7; Obj "656f000000000000000000aa"]
  /\ cat_agg (H := Example.lib) Example.odd_cleaned = Some (Raise TypeError).
Proof. split; vm_compute; reflexivity. Qed.

(** ** The exported bytes *)

Lemma append_cons (c : ascii) (a b : string) :
  String.append (String c a) b = String c (String.append a b).
Proof. reflexivity. Qed.

Lemma append_nil_l (b : string) : String.append EmptyString b = b.
Proof. reflexivity. Qed.

Lemma append_assoc (a b c : string) :
  String.append (String.append a b) c = String.append a (String.append b c).
Proof.
  induction a as [|x a IH]; [reflexivity|]. rewrite !append_cons. now f_equal.
Qed.

Lemma append_nil_r (a : string) : String.append a EmptyString = a.
Proof. induction a as [|x a IH]; [reflexivity|]. rewrite append_cons. now f_equal. Qed.

Lemma needs_quoting_cons (c : ascii) (f : string) :
  needs_quoting (String c f) = false ->
  Ascii.eqb c comma = false /\ Ascii.eqb c dquote = false /\ Ascii.eqb c LF = false
  /\ needs_quoting f = false.
Proof.
  cbn [needs_quoting]. intros Hq.
  apply orb_false_iff in Hq as [Hq Hf].
  apply orb_false_iff in Hq as [Hq Hcr].
  apply orb_false_iff in Hq as [Hq Hlf].
  apply orb_false_iff in Hq as [Hc Hd]. auto.
Qed.

Lemma read_in_field (t : ascii) (f acc : string) (row : list string) (rest : string) :
  separator t -> needs_quoting f = false ->
  Reader.read Reader.InField acc row (String.append f (String t rest))
  = after t (String.append acc f) row rest.
Proof.
  intros Ht. revert acc. induction f as [|c f IH]; intros acc Hq.
  - rewrite append_nil_r, append_nil_l. unfold after.
    destruct Ht as [-> | ->]; reflexivity.
  - apply needs_quoting_cons in Hq as (Hc & Hd & Hl & Hf).
    rewrite append_cons. cbn [Reader.read]. rewrite Hc, Hl.
    rewrite IH by assumption. unfold Reader.snoc. now rewrite append_assoc.
Qed.

Lemma read_in_quoted (t : ascii) (f acc : string) (row : list string) (rest : string) :
  separator t ->
  Reader.read Reader.InQuotedField acc row
    (String.append (double_quotes f) (String dquote (String t rest)))
  = after t (String.append acc f) row rest.
Proof.
  intros Ht. revert acc. induction f as [|c f IH]; intros acc.
  - rewrite append_nil_r. cbn [double_quotes]. rewrite append_nil_l. unfold after.
    destruct Ht as [-> | ->]; reflexivity.
  - cbn [double_quotes]. destruct (Ascii.eqb c dquote) eqn:Ec.
    + rewrite !append_cons. cbn [Reader.read]. rewrite Ec. rewrite IH.
      unfold Reader.snoc. now rewrite append_assoc.
    + rewrite append_cons. cbn [Reader.read]. rewrite Ec. rewrite IH.
      unfold Reader.snoc. now rewrite append_assoc.
Qed.

Lemma read_field (t : ascii) (f : string) (row : list string) (rest : string) :
  separator t ->
  Reader.read Reader.StartField EmptyString row (String.append (csv_field f) (String t rest))
  = after t f row rest.
Proof.
  intros Ht. unfold csv_field. destruct (needs_quoting f) eqn:Hq.
  - rewrite append_cons. cbn [Reader.read].
    replace (Ascii.eqb dquote dquote) with true by reflexivity.
    rewrite append_assoc, append_cons, append_nil_l.
    now rewrite (read_in_quoted t f EmptyString row rest Ht).
  - destruct f as [|c f].
    + rewrite append_nil_l. unfold after. destruct Ht as [-> | ->]; reflexivity.
    + apply needs_quoting_cons in Hq as (Hc & Hd & Hl & Hf).
      rewrite append_cons. cbn [Reader.read]. rewrite Hd, Hc, Hl.
      now rewrite (read_in_field t f (String c EmptyString) row rest Ht Hf).
Qed.

Lemma read_fields (fields row : list string) (rest : string) :
  fields <> [] ->
  Reader.read Reader.StartField EmptyString row
    (String.append (String.concat (String comma EmptyString) (List.map csv_field fields))
                   (String LF rest))
  = (rev row ++ fields) :: Reader.read Reader.StartField EmptyString [] rest.
Proof.
  revert row. induction fields as [|f fields IH]; intros row Hne; [congruence|].
  destruct fields as [|g fields].
  - cbn [List.map String.concat].
    rewrite (read_field LF f row rest) by now right. reflexivity.
  - cbn [List.map String.concat] in *.
    rewrite !append_assoc, append_cons, append_nil_l.
    rewrite (read_field comma f row) by now left.
    unfold after. replace (Ascii.eqb comma comma) with true by reflexivity.
    rewrite IH by discriminate. cbn [rev]. now rewrite <- app_assoc.
Qed.

Lemma concat_lines (x : string) (xs : list string) :
  String.concat EmptyString (x :: xs) = String.append x (String.concat EmptyString xs).
Proof.
  destruct xs as [|y xs]; cbn [String.concat].
  - now rewrite append_nil_r.
  - now rewrite append_nil_l.
Qed.

Lemma read_records (rows : list (list string)) :
  List.Forall (fun r => r <> []) rows ->
  Reader.read_csv (String.concat EmptyString (List.map csv_line rows)) = rows.
Proof.
  unfold Reader.read_csv. induction 1 as [|r rows Hr _ IH]; [reflexivity|].
  cbn [List.map]. rewrite concat_lines. unfold csv_line at 1.
  rewrite append_assoc, append_cons, append_nil_l.
  rewrite (read_fields r [] _ Hr). cbn [rev app]. now rewrite IH.
Qed.

Lemma to_csv_lines `{Lib} (df : DataFrame) :
  to_csv df = String.concat EmptyString (List.map csv_line (columns df :: csv_rows df)).
Proof.
  unfold to_csv, csv_rows. cbn [List.map]. rewrite concat_lines, map_map. reflexivity.
Qed.

(** X15. The exporter on a table with rows and two or more columns: the
    bytes are the CSV text, after the three bytes of the byte-order mark
    when that is asked for; the text decodes to the header, which lists the
    columns of the table in their order, followed by one record per row
    with the texts of its cells, whatever commas, quotes and line breaks
    these texts hold.  The local copy of the exporter returns the same
    bytes. *)
Theorem exported_bytes_decode_to_the_table `{Lib} (df : DataFrame) (include_bom : bool) :
  empty df = false ->
  (2 <= length (columns df))%nat ->
  dataframe_to_csv_bytes df include_bom
  = (if include_bom then String.append BOM (to_csv df) else to_csv df)
  /\ dataframe_to_csv_bytes_local df include_bom = dataframe_to_csv_bytes df include_bom
  /\ Reader.read_csv (to_csv df) = columns df :: csv_rows df
  /\ length (Reader.read_csv (to_csv df)) = S (nrows df).
Proof.
  intros He Hc.
  assert (Hread : Reader.read_csv (to_csv df) = columns df :: csv_rows df).
  { rewrite to_csv_lines. apply read_records. constructor.
    - intros E. rewrite E in Hc. simpl in Hc. lia.
    - unfold csv_rows. apply List.Forall_forall. intros r Hr.
      apply in_map_iff in Hr as (k & <- & _). unfold row_cells.
      intros E. apply (f_equal (@length _)) in E. rewrite !length_map in E.
      unfold columns in Hc. rewrite length_map in Hc. simpl in E. lia. }
  split; [|split; [|split]].
  - unfold dataframe_to_csv_bytes. now rewrite He.
  - reflexivity.
  - exact Hread.
  - rewrite Hread. cbn [length]. unfold csv_rows. now rewrite length_map, length_seq.
Qed.

Lemma exported_bytes_decode_to_the_table_witness :
  dataframe_to_csv_bytes (H := Example.lib) Example.mixed_cleaned true
  = String.append BOM (to_csv (H := Example.lib) Example.mixed_cleaned)
  /\ dataframe_to_csv_bytes_local (H := Example.lib) Example.mixed_cleaned true
     = dataframe_to_csv_bytes (H := Example.lib) Example.mixed_cleaned true
  /\ Reader.read_csv (to_csv (H := Example.lib) Example.mixed_cleaned)
     = columns Example.mixed_cleaned :: csv_rows (H := Example.lib) Example.mixed_cleaned
  /\ length (Reader.read_csv (to_csv (H := Example.lib) Example.mixed_cleaned))
     = S (nrows Example.mixed_cleaned).
Proof.
  apply (exported_bytes_decode_to_the_table (H := Example.lib) Example.mixed_cleaned true).
  - reflexivity.
  - vm_compute. lia.
Defined.

Lemma append_is_nil (a b : string) :
  String.append a b = EmptyString -> a = EmptyString /\ b = EmptyString.
Proof. destruct a; [now split|discriminate]. Qed.

(** X16. The exporter returns no byte at all exactly for an empty table (no
    row, or no column): then neither a header nor a byte-order mark is
    written; for every other table the output is not empty. *)
Theorem exported_bytes_empty_iff `{Lib} (df : DataFrame) (include_bom : bool) :
  dataframe_to_csv_bytes df include_bom = EmptyString <-> empty df = true.
Proof.
  unfold dataframe_to_csv_bytes. destruct (empty df); [tauto|].
  split; [|discriminate]. intros E. exfalso.
  assert (Hne : to_csv df <> EmptyString).
  { unfold to_csv, csv_line. intros E'.
    apply append_is_nil in E' as [E' _]. apply append_is_nil in E' as [_ E'].
    discriminate. }
  destruct include_bom; [|contradiction].
  apply append_is_nil in E as [E _]. discriminate.
Qed.

Lemma display_cols_at_least_two `{Lib} (df : DataFrame) (q td : list cell) :
  (2 <= length (display_cols (cleaned df q td)))%nat.
Proof.
  unfold display_cols, FIXED_ORDER.
  destruct (cleaned_has df q td "sku") as [x Hx]; [simpl; tauto|].
  destruct (cleaned_has df q td "name") as [y Hy]; [simpl; tauto|].
  cbn [List.filter]. rewrite !contains_assoc, Hx, Hy. cbn [length]. lia.
Qed.

(** X17. The three exports of the view, when the fetched documents give a
    table and [clean_and_transform] returns.  The current-view download is
    the byte-order mark and the CSV of the selected columns; the full
    download is the byte-order mark and the CSV of the whole cleaned table;
    the server copy is that same CSV without the mark.  Each decodes to
    its header and one record per document. *)
Theorem exports_of_the_view `{Lib} (today : Z) (docs : list record) (df : DataFrame) :
  empty (raw_docs_to_df docs) = false ->
  clean_and_transform today (raw_docs_to_df docs) = (Ok tt, df) ->
  (exists view,
      getitems (display_cols df) df = Ok view
      /\ export_filtered df = Ok (String.append BOM (to_csv view))
      /\ Reader.read_csv (to_csv view) = display_cols df :: csv_rows view
      /\ length (csv_rows view) = length docs)
  /\ export_full today docs = Ok (String.append BOM (to_csv df))
  /\ save_server today docs = Ok (to_csv df)
  /\ Reader.read_csv (to_csv df) = columns df :: csv_rows df
  /\ length (csv_rows df) = length docs.
Proof.
  intros He Hrun.
  destruct (clean_and_transform_Ok today _ df He Hrun) as (q & td & _ & _ & Hdf).
  assert (Hne : empty df = false) by (subst df; now apply empty_cleaned).
  assert (Hn : nrows df = length docs).
  { subst df. rewrite nrows_cleaned. apply nrows_raw_docs_to_df. }
  assert (Hrows : forall t, nrows t = nrows df -> length (csv_rows t) = length docs).
  { intros t Ht. unfold csv_rows. now rewrite length_map, length_seq, Ht. }
  assert (Hread : forall t, (2 <= length (columns t))%nat ->
                            Reader.read_csv (to_csv t) = columns t :: csv_rows t).
  { intros t Hc. rewrite to_csv_lines. apply read_records. constructor.
    - intros E. rewrite E in Hc. simpl in Hc. lia.
    - unfold csv_rows. apply List.Forall_forall. intros r Hr.
      apply in_map_iff in Hr as (k & <- & _). unfold row_cells.
      intros E. apply (f_equal (@length _)) in E. rewrite !length_map in E.
      unfold columns in Hc. rewrite length_map in Hc. simpl in E. lia. }
  assert (H2 : (2 <= length (display_cols df))%nat).
  { subst df. apply display_cols_at_least_two. }
  split; [|split; [|split; [|split]]].
  - destruct (getitems_present (display_cols df) df) as (view & Hv & Hi & Hc).
    { intros c Hc. unfold display_cols in Hc. now apply filter_In in Hc as [_ Hc]. }
    exists view. split; [assumption|].
    assert (Hnv : nrows view = nrows df) by (unfold nrows; now rewrite Hi).
    assert (Hev : empty view = false).
    { unfold empty in *. apply orb_false_iff in Hne as [Hr _].
      fold (nrows view). rewrite Hnv. unfold nrows. rewrite Hr. cbn [orb].
      apply Nat.eqb_neq. unfold columns in Hc.
      rewrite <- (length_map fst), Hc. lia. }
    split; [|split].
    + unfold export_filtered. rewrite Hv. unfold dataframe_to_csv_bytes_local.
      now rewrite Hev.
    + rewrite <- Hc. apply Hread. now rewrite Hc.
    + now apply Hrows.
  - unfold export_full. rewrite Hrun. unfold dataframe_to_csv_bytes_local. now rewrite Hne.
  - unfold save_server. now rewrite Hrun.
  - apply Hread. etransitivity; [exact H2|].
    apply List.NoDup_incl_length.
    + unfold display_cols. apply List.NoDup_filter. unfold FIXED_ORDER.
      repeat (constructor; [simpl; intuition discriminate|]). constructor.
    + intros c Hc. unfold display_cols in Hc. apply filter_In in Hc as [_ Hc].
      unfold contains in Hc. apply existsb_exists in Hc as (k & Hk & E).
      apply String.eqb_eq in E. now subst k.
  - now apply Hrows.
Qed.

Lemma exports_of_the_view_witness :
  (exists view,
      getitems (display_cols Example.mixed_cleaned) Example.mixed_cleaned = Ok view
      /\ export_filtered (H := Example.lib) Example.mixed_cleaned
         = Ok (String.append BOM (to_csv (H := Example.lib) view))
      /\ Reader.read_csv (to_csv (H := Example.lib) view)
         = display_cols Example.mixed_cleaned :: csv_rows (H := Example.lib) view
      /\ length (csv_rows (H := Example.lib) view) = length Example.mixed_docs)
  /\ export_full (H := Example.lib) Example.sample_today Example.mixed_docs
     = Ok (String.append BOM (to_csv (H := Example.lib) Example.mixed_cleaned))
  /\ save_server (H := Example.lib) Example.sample_today Example.mixed_docs
     = Ok (to_csv (H := Example.lib) Example.mixed_cleaned)
  /\ Reader.read_csv (to_csv (H := Example.lib) Example.mixed_cleaned)
     = columns Example.mixed_cleaned :: csv_rows (H := Example.lib) Example.mixed_cleaned
  /\ length (csv_rows (H := Example.lib) Example.mixed_cleaned)
     = length Example.mixed_docs.
Proof.
  apply (exports_of_the_view (H := Example.lib) Example.sample_today Example.mixed_docs
           Example.mixed_cleaned).
  - reflexivity.
  - vm_compute. reflexivity.
Defined.

(** ** The restock timeline *)

Lemma groups_nonempty (keys : list cell) :
  present_rows keys <> [] -> groups keys <> [].
Proof.
  intros Hp Hg. destruct (groups_partition keys) as [Hperm _].
  rewrite Hg in Hperm. simpl in Hperm. apply Permutation_nil in Hperm. congruence.
Qed.

(** The cells of a column with the [.dt] accessor. *)
Lemma is_datetime_cells (vs : list cell) :
  is_datetime vs = true ->
  List.Forall (fun c => match c with Ts _ | Tsz _ _ | Null => true | _ => false end = true)
              vs.
Proof.
  unfold is_datetime. intros Hd. apply orb_true_iff in Hd as [Hd|Hd].
  - rewrite forallb_forall in Hd. apply List.Forall_forall. intros c Hc.
    specialize (Hd c Hc). now destruct c.
  - destruct (List.filter _ vs) as [|[] ?]; try discriminate.
    rewrite forallb_forall in Hd. apply List.Forall_forall. intros c Hc.
    specialize (Hd c Hc). now destruct c.
Qed.

(** The months of a column of dates without NaT. *)
Lemma dt_month_start_Done `{Calendar} (ix : list nat) (vs : list cell) (m : Series) :
  List.Forall (fun c => isna c = false) vs ->
  dt_month_start (mkSeries ix vs) = Done m ->
  s_index m = ix
  /\ s_values m = List.map month_of vs
  /\ List.Forall (fun mc => exists t, mc = Ts t) (s_values m).
Proof.
  intros Hp. unfold dt_month_start; cbn [s_values s_index].
  destruct (is_datetime vs) eqn:Hd; [|discriminate].
  match goal with |- context [mapM ?f vs] => destruct (mapM f vs) as [ms|e] eqn:Hm end;
    [|discriminate].
  intros [= <-]. split; [reflexivity|]. cbn [s_values].
  apply is_datetime_cells in Hd.
  revert Hp Hd ms Hm. induction vs as [|c vs IH]; intros Hp Hd ms Hm.
  - injection Hm as <-. split; [reflexivity|constructor].
  - apply List.Forall_cons_iff in Hp as [Hc Hp].
    apply List.Forall_cons_iff in Hd as [Hdc Hd].
    cbn [mapM] in Hm.
    destruct c; simpl in Hc, Hdc; try discriminate.
    + destruct (month_start ns) as [mth|e] eqn:Em; [|discriminate].
      match type of Hm with context [mapM ?f vs] =>
        destruct (mapM f vs) as [ms'|e] eqn:Hm' end; [|discriminate].
      injection Hm as <-. destruct (IH Hp Hd ms' eq_refl) as [IH1 IH2].
      split; [|constructor; eauto].
      cbn [List.map month_of]. rewrite Em. now f_equal.
    + destruct (month_start (ns + offset)) as [mth|e] eqn:Em; [|discriminate].
      match type of Hm with context [mapM ?f vs] =>
        destruct (mapM f vs) as [ms'|e] eqn:Hm' end; [|discriminate].
      injection Hm as <-. destruct (IH Hp Hd ms' eq_refl) as [IH1 IH2].
      split; [|constructor; eauto].
      cbn [List.map month_of]. rewrite Em. now f_equal.
Qed.

Lemma present_rows_are_present (vs : list cell) :
  List.Forall (fun c => isna c = false) (pick Null vs (present_rows vs)).
Proof.
  apply List.Forall_forall. intros c Hc. unfold pick in Hc.
  apply in_map_iff in Hc as (i & <- & Hi).
  unfold present_rows in Hi. apply filter_In in Hi as [_ Hi].
  now apply negb_true_iff in Hi.
Qed.

Lemma present_rows_nonempty (vs : list cell) :
  forallb isna vs = false -> present_rows vs <> [].
Proof.
  intros Hall E.
  assert (Hn : forallb isna vs = true); [|congruence].
  apply forallb_forall. intros c Hc. apply In_nth_error in Hc as [i Hi].
  assert (Hlt : (i < length vs)%nat) by (apply nth_error_Some; congruence).
  destruct (isna c) eqn:Ec; [reflexivity|]. exfalso.
  assert (Hin : In i (present_rows vs)).
  { apply filter_In. split; [apply in_seq; lia|].
    rewrite (nth_error_nth _ _ _ Hi). now rewrite Ec. }
  rewrite E in Hin. contradiction.
Qed.

Lemma present_rows_of_timestamps (months : list cell) :
  List.Forall (fun mc => exists t, mc = Ts t) months ->
  months <> [] -> present_rows months <> [].
Proof.
  intros Hts Hne. apply present_rows_nonempty.
  destruct Hts as [|mc months [t ->] _]; [congruence|]. reflexivity.
Qed.

(** What the block computes when it runs to its end. *)
Lemma restock_timeline_Done `{Lib} `{Calendar} (df : DataFrame)
    (r : option (list cell * list cell)) :
  restock_timeline df = Some (Done r) ->
  exists vs q months,
    assoc "last_restock" (data df) = Some vs
    /\ assoc "quantity" (data df) = Some q
    /\ present_rows vs <> []
    /\ months = List.map month_of (pick Null vs (present_rows vs))
    /\ List.Forall (fun mc => exists t, mc = Ts t) months
    /\ r = Some (List.map fst (groups months),
                 List.map (fun g => sum (pick Null (pick Null q (present_rows vs)) (snd g)))
                          (groups months)).
Proof.
  unfold restock_timeline. rewrite contains_assoc.
  destruct (assoc "last_restock" (data df)) as [vs|] eqn:Er; [|discriminate].
  rewrite (getitem_assoc _ _ _ Er). unfold isna_all; cbn [s_values].
  destruct (forallb isna vs) eqn:Hall; [discriminate|]. cbn [negb].
  unfold dropna. rewrite Er. unfold getitem_mask.
  rewrite (nonzero_map (fun v => negb (isna v))). fold (present_rows vs).
  pose proof (present_rows_nonempty vs Hall) as Hne.
  set (m := present_rows vs) in *.
  unfold getitem. rewrite assoc_take_rows, Er. cbn [option_map].
  destruct (dt_month_start _) as [ms|e] eqn:Hms; [|discriminate].
  apply dt_month_start_Done in Hms as (Hix & Hvals & Hts);
    [|apply present_rows_are_present].
  unfold setitem. rewrite Hix. rewrite bool_decide_true by reflexivity.
  unfold groupby_sum; cbn [data index].
  rewrite assoc_assoc_set, String.eqb_refl.
  cbn [mapM snd fst]. rewrite assoc_assoc_set.
  replace (String.eqb "quantity" "restock_month") with false by reflexivity.
  rewrite assoc_take_rows.
  destruct (assoc "quantity" (data df)) as [q|] eqn:Eq; [|discriminate].
  cbn [option_map].
  destruct (sortable _); [|discriminate].
  unfold set_index_all; cbn [data assoc].
  replace (String.eqb "restock_month" "restock_month") with true by reflexivity.
  cbn [List.filter fst negb].
  replace (String.eqb "restock_month" "total_qty") with false by reflexivity.
  cbn [negb]. unfold lf_empty, lf_getitem; cbn [labels ldata length Nat.eqb assoc].
  replace (String.eqb "total_qty" "total_qty") with true by reflexivity.
  rewrite orb_false_r, length_map.
  assert (Hg : groups (s_values ms) <> []).
  { apply groups_nonempty. apply present_rows_of_timestamps; [exact Hts|].
    rewrite Hvals. unfold pick. intros E. apply map_eq_nil, map_eq_nil in E.
    contradiction. }
  destruct (groups (s_values ms)) as [|g gs] eqn:Eg; [congruence|].
  cbn [length Nat.eqb negb]. intros [= <-].
  exists vs, q, (s_values ms). rewrite Eg. repeat split; auto.
Qed.

(** X18. The message "No restock dates available for timeline." can never
    be shown: whenever the block runs to its end there is a chart.  Where
    no row has a known restock date (or the table has no [last_restock]
    column) the guard skips the block, and nothing is shown at all. *)
Theorem restock_timeline_never_reports_no_dates `{Lib} `{Calendar} (df : DataFrame) :
  restock_timeline df <> Some (Done None)
  /\ (restock_timeline df = None <-> forallb isna (column "last_restock" df) = true).
Proof.
  split.
  - intros E. apply restock_timeline_Done in E as (vs & q & months & _ & _ & _ & _ & _ & E).
    discriminate.
  - unfold restock_timeline, column. rewrite contains_assoc.
    destruct (assoc "last_restock" (data df)) as [vs|] eqn:Er.
    + rewrite (getitem_assoc _ _ _ Er). unfold isna_all; cbn [s_values].
      destruct (forallb isna vs); cbn [negb]; split; try reflexivity; discriminate.
    + split; reflexivity.
Qed.

Lemma present_rows_full (vs : list cell) :
  List.Forall (fun c => isna c = false) vs -> present_rows vs = seq 0 (length vs).
Proof.
  intros Hp. unfold present_rows.
  rewrite (filter_ext_in (fun i => negb (isna (nth i vs Null))) (fun _ => true)).
  - induction (seq 0 (length vs)) as [|i l IH]; simpl; [reflexivity|]. now rewrite IH.
  - intros i Hi. apply in_seq in Hi. apply negb_true_iff.
    rewrite List.Forall_forall in Hp. apply Hp. apply nth_In. lia.
Qed.

(** X19. The timeline of a cleaned table, when the block runs to its end:
    one point per distinct month of the rows with a known restock date, in
    chronological order, each the sum of [quantity] over exactly the rows
    restocked in that month; the points add up (in int64) to the total
    quantity of the rows with a known restock date. *)
Theorem restock_timeline_is_quantity_by_month `{Lib} `{Calendar} (today : Z)
    (df0 df : DataFrame) (labels totals : list cell) :
  empty df0 = false -> wf df0 = true ->
  clean_and_transform today df0 = (Ok tt, df) ->
  restock_timeline df = Some (Done (Some (labels, totals))) ->
  let dated := present_rows (column "last_restock" df) in
  let quantity := pick Null (column "quantity" df) dated in
  let month := List.map month_of (pick Null (column "last_restock" df) dated) in
  sum_int64 totals = sum_int64 quantity
  /\ exists months,
      months <> []
      /\ Sorted (fun a b => Z.leb a b = true) months
      /\ List.NoDup months
      /\ (forall t, In t months <-> In (Ts t) month)
      /\ labels = List.map Ts months
      /\ totals
         = List.map (fun t => sum (pick Null quantity (rows_where (is_timestamp t) month)))
                    months.
Proof.
  intros He Hw Hrun Hdone.
  destruct (clean_and_transform_wf today df0 df He Hw Hrun) as [Hw' Hint].
  apply restock_timeline_Done in Hdone
    as (vs & q & ms & Er & Eq & Hne & Hms & Hts & [= -> ->]).
  assert (Cq : column "quantity" df = q) by (unfold column; now rewrite Eq).
  assert (Cr : column "last_restock" df = vs) by (unfold column; now rewrite Er).
  rewrite Cq in *. rewrite Cr. cbv zeta.
  set (m := present_rows vs) in *.
  assert (Hlen : length vs = length q).
  { rewrite (wf_assoc _ _ _ Hw' Er). symmetry. exact (wf_assoc _ _ _ Hw' Eq). }
  assert (Hqd : forallb is_int (pick Null q m) = true).
  { apply pick_is_int; [assumption|]. intros i Hi. rewrite <- Hlen.
    now apply present_rows_bound. }
  assert (Hlm : length m = length ms).
  { rewrite Hms, length_map. symmetry. apply pick_length. }
  rewrite <- Hms.
  assert (Hpresent : List.Forall (fun c => isna c = false) ms).
  { eapply List.Forall_impl; [|exact Hts]. intros c [t ->]. reflexivity. }
  destruct (groups_partition ms) as [Hperm Hkeys].
  rewrite (present_rows_full ms Hpresent) in Hperm.
  split.
  - transitivity (sum_int64 (List.map (fun rows => Int (sum_int64 (pick Null (pick Null q m) rows)))
                                      (List.map snd (groups ms)))).
    { f_equal. rewrite map_map. apply map_ext_in. intros g Hg.
      apply sum_is_int64. apply pick_is_int; [assumption|].
      intros i Hi. rewrite pick_length, Hlm.
      assert (Hin : In i (seq 0 (length ms))).
      { eapply Permutation_in; [exact Hperm|]. apply in_concat.
        exists (snd g). split; [now apply in_map|assumption]. }
      apply in_seq in Hin. lia. }
    rewrite sum_of_group_sums.
    rewrite (sum_int64_pick_Permutation _ _ _ Hperm).
    rewrite !sum_int64_total. f_equal. apply int_total_Permutation.
    apply pick_Permutation. now rewrite pick_length, Hlm.
  - destruct (groups_timestamps ms Hts) as (months & Hg & Hsorted & Hnd & Hin).
    exists months. rewrite Hg, !map_map. cbn [fst snd].
    split; [|repeat split; try assumption; try reflexivity; apply Hin].
    intros ->. cbn [List.map] in Hg. revert Hg. apply groups_nonempty.
    rewrite (present_rows_full ms Hpresent).
    destruct ms as [|c ms']; [|discriminate].
    simpl in Hlm. destruct m; [congruence|discriminate].
Qed.

Lemma restock_timeline_is_quantity_by_month_witness :
  let dated := present_rows (column "last_restock" Example.mixed_cleaned) in
  let quantity := pick Null (column "quantity" Example.mixed_cleaned) dated in
  let month :=
    List.map (month_of (H := Example.calendar))
             (pick Null (column "last_restock" Example.mixed_cleaned) dated) in
  sum_int64 (snd Example.mixed_timeline) = sum_int64 quantity
  /\ exists months,
      months <> []
      /\ Sorted (fun a b => Z.leb a b = true) months
      /\ List.NoDup months
      /\ (forall t, In t months <-> In (Ts t) month)
      /\ fst Example.mixed_timeline = List.map Ts months
      /\ snd Example.mixed_timeline
         = List.map (fun t => sum (H := Example.lib)
                                (pick Null quantity (rows_where (is_timestamp t) month)))
                    months.
Proof.
  apply (restock_timeline_is_quantity_by_month (H := Example.lib) (H0 := Example.calendar)
           Example.sample_today Example.mixed_table Example.mixed_cleaned
           (fst Example.mixed_timeline) (snd Example.mixed_timeline)).
  - reflexivity.
  - reflexivity.
  - vm_compute. reflexivity.
  - vm_compute. reflexivity.
Defined.

(** ** Products entered through the form *)

Lemma column_of_products `{Lib} `{Python} (items : list (string * form)) (c : string)
    (g : string * form -> cell) :
  items <> [] ->
  (forall it, assoc c (with_id (stored (fst it) (add_product_doc (snd it)))) = Some (g it)) ->
  assoc c (data (raw_docs_to_df
                   (List.map (fun it => stored (fst it) (add_product_doc (snd it))) items)))
  = Some (List.map g items).
Proof.
  intros Hne Hc.
  rewrite raw_docs_to_df_records by (destruct items; [congruence|discriminate]).
  rewrite assoc_of_records, !map_map.
  destruct items as [|it items]; [congruence|].
  cbn [List.map existsb]. rewrite dict_contains_assoc, !Hc. cbn [orb].
  f_equal. f_equal. apply map_ext. intros it'. now rewrite Hc.
Qed.

Lemma leb_not_nan (p : float) : PrimFloat.leb 0 p = true -> PrimFloat.is_nan p = false.
Proof.
  intros Hle. destruct (PrimFloat.is_nan p) eqn:E; [|reflexivity]. exfalso.
  rewrite FloatAxioms.leb_spec in Hle.
  assert (Hn : Prim2SF p = S754_nan) by (unfold Prim2SF; now rewrite E).
  rewrite Hn in Hle. vm_compute in Hle. discriminate.
Qed.

Lemma zip_with_map {A B C D : Type} (f : B -> C -> D) (g : A -> B) (h : A -> C)
    (l : list A) :
  zip_with f (List.map g l) (List.map h l) = List.map (fun x => f (g x) (h x)) l.
Proof. induction l as [|x l IH]; simpl; [reflexivity|]. now rewrite IH. Qed.

Lemma form_ok_facts `{Lib} `{Python} (today : Z) (f : form) :
  form_ok today f = true ->
  0 <= form_quantity f <= max_int64
  /\ PrimFloat.is_nan (form_price f) = false
  /\ parse_datetime (Str (isoformat (form_last_restock f)))
     = Some (Naive (Timestamp (form_last_restock f)))
  /\ in_timestamp (Timestamp (form_last_restock f)) = true
  /\ in_timestamp (Timestamp today - Timestamp (form_last_restock f)) = true.
Proof.
  unfold form_ok. intros Hok.
  apply andb_true_iff in Hok as [Hok Hd].
  apply andb_true_iff in Hok as [Hok Hp].
  apply andb_true_iff in Hok as [Hq0 Hq1].
  apply Z.leb_le in Hq0, Hq1.
  destruct (parse_datetime _) as [[ns|ns offset]|]; try discriminate.
  apply andb_true_iff in Hd as [Hd Hr].
  apply andb_true_iff in Hd as [Hd Hi].
  apply Z.eqb_eq in Hd. subst ns.
  repeat split; auto. now apply leb_not_nan.
Qed.

(** X20. Products entered through the Add form come back from the view as
    they were entered.  For a store that holds such products, each with a
    quantity that is a non-negative int64, a price that is not negative and
    a date that [pd.to_datetime] reads back from its ISO text,
    [clean_and_transform] returns, and every row shows the texts, the
    quantity and the price as entered, [value = quantity * price], the
    date, and the number of days from that date to today; no quantity or
    price is negative and no category is missing. *)
Theorem products_of_the_form_are_shown_as_entered `{Lib} `{Python} (today : Z)
    (items : list (string * form)) :
  items <> [] ->
  forallb (fun it => form_ok today (snd it)) items = true ->
  exists df,
    clean_and_transform today (raw_docs_to_df (products items)) = (Ok tt, df)
    /\ nrows df = length items
    /\ column "id" df = List.map (fun it => Str (py_str (Obj (fst it)))) items
    /\ column "sku" df = List.map (fun it => Str (form_sku (snd it))) items
    /\ column "name" df = List.map (fun it => Str (form_name (snd it))) items
    /\ column "category" df = List.map (fun it => Str (form_category (snd it))) items
    /\ column "supplier" df = List.map (fun it => Str (form_supplier (snd it))) items
    /\ column "quantity" df = List.map (fun it => Int (form_quantity (snd it))) items
    /\ column "price" df = List.map (fun it => Flt (form_price (snd it))) items
    /\ column "value" df
       = List.map (fun it => Flt (PrimFloat.mul (float_of_Z (form_quantity (snd it)))
                                                (form_price (snd it)))) items
    /\ column "last_restock" df
       = List.map (fun it => Ts (Timestamp (form_last_restock (snd it)))) items
    /\ column "days_since_restock" df
       = List.map (fun it => Int (today - form_last_restock (snd it))) items.
Proof.
  intros Hne Hok.
  rewrite forallb_forall in Hok.
  set (df0 := raw_docs_to_df (products items)).
  assert (Col : forall c g,
             (forall it, assoc c (with_id (stored (fst it) (add_product_doc (snd it))))
                         = Some (g it)) ->
             assoc c (data df0) = Some (List.map g items)).
  { intros c g Hc. now apply column_of_products. }
  assert (Cid := Col "id" (fun it => Str (py_str (Obj (fst it)))) (fun it => eq_refl)).
  assert (Csku := Col "sku" (fun it => Str (form_sku (snd it))) (fun it => eq_refl)).
  assert (Cname := Col "name" (fun it => Str (form_name (snd it))) (fun it => eq_refl)).
  assert (Ccat := Col "category" (fun it => Str (form_category (snd it))) (fun it => eq_refl)).
  assert (Csup := Col "supplier" (fun it => Str (form_supplier (snd it))) (fun it => eq_refl)).
  assert (Cq := Col "quantity" (fun it => Int (form_quantity (snd it))) (fun it => eq_refl)).
  assert (Cp := Col "price" (fun it => Flt (form_price (snd it))) (fun it => eq_refl)).
  assert (Cr := Col "last_restock"
                    (fun it => Str (isoformat (form_last_restock (snd it))))
                    (fun it => eq_refl)).
  assert (Hrows : nrows df0 = length items).
  { unfold df0. rewrite nrows_raw_docs_to_df. unfold products. apply length_map. }
  assert (He : empty df0 = false).
  { unfold empty. fold (nrows df0). rewrite Hrows.
    apply orb_false_iff. split; apply Nat.eqb_neq.
    - destruct items; [congruence|discriminate].
    - intros E. apply length_zero_iff_nil in E. rewrite E in Csku. discriminate. }
  (* quantity *)
  assert (Hq : coerced_quantity df0
               = Ok (List.map (fun it => Int (form_quantity (snd it))) items)).
  { unfold coerced_quantity. rewrite Cq.
    rewrite numeric_values_integers
      by (intros c Hc; apply in_map_iff in Hc as (it & <- & _); eauto).
    rewrite map_map. rewrite (mapM_ok_map _ (fun x => x)), map_id, ?map_map; [reflexivity|].
    intros c Hc. apply in_map_iff in Hc as (it & <- & Hit).
    destruct (form_ok_facts today (snd it) (Hok it Hit)) as (Hr & _).
    unfold fill; cbn [isna astype_int_cell]. rewrite wrap64_id; [reflexivity|].
    unfold min_int64 in *. lia. }
  (* price *)
  assert (Hp : coerced_price df0 = List.map (fun it => Flt (form_price (snd it))) items).
  { unfold coerced_price. rewrite Cp.
    rewrite numeric_values_floats
      by (intros c Hc; apply in_map_iff in Hc as (it & <- & _); eauto).
    rewrite map_map. apply map_ext_in. intros it Hit.
    destruct (form_ok_facts today (snd it) (Hok it Hit)) as (_ & Hn & _).
    unfold price_cell, fill; cbn [isna]. now rewrite Hn. }
  (* last_restock *)
  assert (Hr : parsed_restock df0
               = List.map (fun it => Ts (Timestamp (form_last_restock (snd it)))) items).
  { unfold parsed_restock. rewrite Cr, map_map. apply map_ext_in. intros it Hit.
    destruct (form_ok_facts today (snd it) (Hok it Hit)) as (_ & _ & Hparse & Hin & _).
    cbn [to_datetime_cell isna]. now rewrite Hparse, Hin. }
  assert (Htd : mapM (rsub_timestamp_cell (Timestamp today)) (parsed_restock df0)
                = Ok (List.map (fun it => Td (Timestamp today
                                              - Timestamp (form_last_restock (snd it))))
                               items)).
  { rewrite Hr.
    rewrite (mapM_ok_map _ (fun c => match c with
                                     | Ts ns => Td (Timestamp today - ns)
                                     | _ => Null
                                     end)); [now rewrite map_map|].
    intros c Hc. apply in_map_iff in Hc as (it & <- & Hit).
    destruct (form_ok_facts today (snd it) (Hok it Hit)) as (_ & _ & _ & _ & Hin).
    cbn [rsub_timestamp_cell]. now rewrite Hin. }
  eexists. split.
  { rewrite (clean_and_transform_unfold today df0 He), Hq, Htd. reflexivity. }
  set (q := List.map (fun it => Int (form_quantity (snd it))) items).
  set (td := List.map (fun it => Td (Timestamp today - Timestamp (form_last_restock (snd it))))
                      items).
  destruct (column_cleaned df0 q td) as (Kq & Kp & Kr & Kn & Ks & Kv & Kd).
  assert (Other : forall c vs, ~ In c ASSIGNED -> assoc c (data df0) = Some vs ->
                               column c (cleaned df0 q td) = vs).
  { intros c vs Hc Hvs. unfold column, cleaned, with_value. rewrite !assoc_setcol.
    unfold ASSIGNED in Hc. simpl in Hc.
    repeat match goal with
           | |- context [String.eqb c ?k] =>
               destruct (String.eqb c k) eqn:?E;
               [apply String.eqb_eq in E; subst c; exfalso; apply Hc; tauto|clear E]
           end.
    now rewrite Hvs. }
  split; [now rewrite nrows_cleaned|].
  split; [apply Other; [simpl; intuition discriminate|assumption]|].
  split.
  { rewrite Ks. unfold filled. rewrite Csku, map_map. reflexivity. }
  split.
  { rewrite Kn. unfold filled. rewrite Cname, map_map. reflexivity. }
  split; [apply Other; [simpl; intuition discriminate|assumption]|].
  split; [apply Other; [simpl; intuition discriminate|assumption]|].
  split; [exact Kq|].
  split; [now rewrite Kp|].
  split.
  { rewrite Kv, Hp. unfold q. now rewrite zip_with_map. }
  split; [now rewrite Kr|].
  rewrite Kd. unfold td. rewrite map_map. apply map_ext_in. intros it Hit.
  destruct (form_ok_facts today (snd it) (Hok it Hit)) as (_ & _ & _ & _ & Hin).
  unfold days_cell, dt_days_cell, fill; cbn [isna].
  assert (Hdiv : (Timestamp today - Timestamp (form_last_restock (snd it))) / ns_per_day
                 = today - form_last_restock (snd it)).
  { unfold Timestamp. rewrite <- Z.mul_sub_distr_r. now apply Z.div_mul. }
  rewrite Hdiv. rewrite wrap64_id; [reflexivity|].
  unfold in_timestamp in Hin. apply andb_true_iff in Hin as [Hlo Hhi].
  apply Z.ltb_lt in Hlo. apply Z.leb_le in Hhi.
  unfold Timestamp in Hlo, Hhi. rewrite <- Z.mul_sub_distr_r in Hlo, Hhi.
  unfold min_int64, max_int64 in *. change ns_per_day with 86400000000000 in *. lia.
Qed.

Lemma products_of_the_form_are_shown_as_entered_witness :
  exists df,
    clean_and_transform (H := Example.lib) Example.sample_today
      (raw_docs_to_df (H := Example.lib) (products (H := Example.python) [Example.sample_item]))
    = (Ok tt, df)
    /\ nrows df = length [Example.sample_item]
    /\ column "id" df
       = List.map (fun it => Str (py_str (Lib := Example.lib) (Obj (fst it))))
                  [Example.sample_item]
    /\ column "sku" df = List.map (fun it => Str (form_sku (snd it))) [Example.sample_item]
    /\ column "name" df = List.map (fun it => Str (form_name (snd it))) [Example.sample_item]
    /\ column "category" df
       = List.map (fun it => Str (form_category (snd it))) [Example.sample_item]
    /\ column "supplier" df
       = List.map (fun it => Str (form_supplier (snd it))) [Example.sample_item]
    /\ column "quantity" df
       = List.map (fun it => Int (form_quantity (snd it))) [Example.sample_item]
    /\ column "price" df = List.map (fun it => Flt (form_price (snd it))) [Example.sample_item]
    /\ column "value" df
       = List.map (fun it => Flt (PrimFloat.mul (float_of_Z (form_quantity (snd it)))
                                                (form_price (snd it))))
                  [Example.sample_item]
    /\ column "last_restock" df
       = List.map (fun it => Ts (Timestamp (form_last_restock (snd it))))
                  [Example.sample_item]
    /\ column "days_since_restock" df
       = List.map (fun it => Int (Example.sample_today - form_last_restock (snd it)))
                  [Example.sample_item].
Proof.
  apply (products_of_the_form_are_shown_as_entered (H := Example.lib)
           (H0 := Example.python) Example.sample_today [Example.sample_item]).
  - discriminate.
  - vm_compute. reflexivity.
Defined.
